(** * make_timestamps_srt: timeline XML to timestamp captions

    A shallow embedding of [make_timestamps_srt.py] and the properties of
    its helpers ([run_exiftool], [to_local_no_seconds], [frames_to_tc_ms],
    [get_sequence_rate], [gather_v1_clips]) and of [main].

    Conventions of the embedding
    - A Python [str] is a [string] whose characters are the code points
      below 256; the character classes used by the interpreter
      ([str.isspace], the regular expression classes [\d] and [\s]) are
      written out for that range.
    - A Python [int] is a [Z]; a Python [float] is a binary64 value, a
      [spec_float] with precision 53 and maximal exponent 1024, and every
      float operation is the correctly rounded one of [SpecFloat].
    - [None] is [None]; a raised exception is the [Raise] case of [result].
    - What lies outside the script (the exiftool process, the XML parser,
      the clock, the local time zone, urllib) enters as a parameter. *)

From Stdlib Require Import ZArith Ascii String List Bool Lia.
From Stdlib Require Import Floats.SpecFloat.
From Stdlib Require Sorting.Sorted.
From stdpp Require Import gmap strings list.

Open Scope string_scope.
Open Scope Z_scope.

(* ===================================================================== *)
(** * Python primitives *)
(* ===================================================================== *)

Module Py.

(** Results of code that may raise. *)
Inductive exn : Type :=
  | SystemExit (code : Z)
  | FileNotFoundError
  | ParseError
  | ZeroDivisionError
  | OverflowError
  | ValueError.

Inductive result (A : Type) : Type :=
  | Ok (a : A)
  | Raise (e : exn).
Arguments Ok {A} a.
Arguments Raise {A} e.

Definition rbind {A B : Type} (x : result A) (f : A -> result B) : result B :=
  match x with
  | Ok a => f a
  | Raise e => Raise e
  end.

(** Truthiness of a string and of an optional string. *)
Definition truthy (s : string) : bool := negb (String.eqb s "").

Definition truthy_opt (o : option string) : bool :=
  match o with
  | Some s => truthy s
  | None => false
  end.

(** [x or ""] for an optional string. *)
Definition or_empty (o : option string) : string :=
  match o with
  | Some s => s
  | None => ""
  end.

Definition code (c : ascii) : N := N_of_ascii c.

(** [str.isspace] on one character: the white space of the code points
    below 256. *)
Definition isspace (c : ascii) : bool :=
  let n := code c in
  ((9 <=? n) && (n <=? 13) || (28 <=? n) && (n <=? 32)
   || (n =? 133) || (n =? 160))%N.

(** The decimal digits ([\d], and what [int] reads). *)
Definition isdigit (c : ascii) : bool :=
  let n := code c in ((48 <=? n) && (n <=? 57))%N.

Definition digit_val (c : ascii) : Z := Z.of_N (code c) - 48.

Fixpoint lstrip (s : string) : string :=
  match s with
  | String c r => if isspace c then lstrip r else s
  | EmptyString => EmptyString
  end.

Fixpoint rstrip (s : string) : string :=
  match s with
  | String c r =>
      let r' := rstrip r in
      if String.eqb r' "" && isspace c then "" else String c r'
  | EmptyString => EmptyString
  end.

Definition strip (s : string) : string := rstrip (lstrip s).

(** [s.rstrip(ch)] for a single character [ch]. *)
Fixpoint rstrip_char (ch : ascii) (s : string) : string :=
  match s with
  | String c r =>
      let r' := rstrip_char ch r in
      if String.eqb r' "" && Ascii.eqb c ch then "" else String c r'
  | EmptyString => EmptyString
  end.

Fixpoint startswith (p s : string) : bool :=
  match p, s with
  | EmptyString, _ => true
  | String a p', String b s' => Ascii.eqb a b && startswith p' s'
  | String _ _, EmptyString => false
  end.

Fixpoint rev_string (s : string) : string :=
  match s with
  | String c r => rev_string r +:+ String c ""
  | EmptyString => EmptyString
  end.

Definition endswith (p s : string) : bool :=
  startswith (rev_string p) (rev_string s).

(** [str.lower] on the code points below 256. *)
Definition lower_char (c : ascii) : ascii :=
  let n := code c in
  if ((65 <=? n) && (n <=? 90)
      || (192 <=? n) && (n <=? 222) && negb (n =? 215))%N
  then ascii_of_N (n + 32) else c.

Fixpoint lower (s : string) : string :=
  match s with
  | String c r => String (lower_char c) (lower r)
  | EmptyString => EmptyString
  end.

(** Split at the last occurrence of [ch]: [s.rpartition(ch)] without the
    separator, [None] when [ch] does not occur. *)
Fixpoint rpartition (ch : ascii) (s : string) : option (string * string) :=
  match s with
  | String a r =>
      match rpartition ch r with
      | Some (h, t) => Some (String a h, t)
      | None => if Ascii.eqb a ch then Some ("", r) else None
      end
  | EmptyString => None
  end.

(** [ch in s]. *)
Fixpoint contains (ch : ascii) (s : string) : bool :=
  match s with
  | String c r => Ascii.eqb c ch || contains ch r
  | EmptyString => false
  end.

(** [s.split("/")[-1]]. *)
Definition split_last (ch : ascii) (s : string) : string :=
  match rpartition ch s with
  | Some (_, t) => t
  | None => s
  end.

(** ** [int(str)] in base ten

    Surrounding white space is dropped, one sign is allowed, and single
    underscores may separate digits. The white space [int] drops is that
    of [str.isspace] without the four separator controls 28 to 31. A
    string of more than 4300 digits is refused with [ValueError]: the
    interpreter's limit [sys.int_info.default_max_str_digits], which the
    script leaves as it is; the sign, the underscores and the white space
    do not count. *)
Definition isspace_int (c : ascii) : bool :=
  let n := code c in
  ((9 <=? n) && (n <=? 13) || (n =? 32) || (n =? 133) || (n =? 160))%N.

Fixpoint lstrip_int (s : string) : string :=
  match s with
  | String c r => if isspace_int c then lstrip_int r else s
  | EmptyString => EmptyString
  end.

Fixpoint rstrip_int (s : string) : string :=
  match s with
  | String c r =>
      let r' := rstrip_int r in
      if String.eqb r' "" && isspace_int c then "" else String c r'
  | EmptyString => EmptyString
  end.

Fixpoint int_digits (s : string) (acc : Z) (after_digit : bool) : option Z :=
  match s with
  | String c r =>
      if isdigit c then int_digits r (10 * acc + digit_val c) true
      else if Ascii.eqb c "_" && after_digit then int_digits r acc false
      else None
  | EmptyString => if after_digit then Some acc else None
  end.

Definition MAX_STR_DIGITS : Z := 4300.

Fixpoint count_digits (s : string) : nat :=
  match s with
  | String c r => ((if isdigit c then 1 else 0) + count_digits r)%nat
  | EmptyString => O
  end.

(** The digits after the sign. *)
Definition int_body (t : string) : option Z :=
  if MAX_STR_DIGITS <? Z.of_nat (count_digits t) then None
  else int_digits t 0 false.

Definition int (s : string) : option Z :=
  match rstrip_int (lstrip_int s) with
  | String "+" r => int_body r
  | String "-" r => Z.opp <$> int_body r
  | t => int_body t
  end.

(** [int(x)] for [x] a string or [None] ([TypeError] on [None]). *)
Definition int_opt (o : option string) : option Z :=
  match o with
  | Some s => int s
  | None => None
  end.

(** ** [str(int)] and the format specifications [02d], [03d], [04d] *)
Definition digit_char (d : Z) : ascii := ascii_of_N (Z.to_N (48 + d)).

Fixpoint digits_fuel (fuel : nat) (n : Z) (acc : string) : string :=
  match fuel with
  | O => acc
  | S f =>
      let acc' := String (digit_char (n mod 10)) acc in
      if n <? 10 then acc' else digits_fuel f (n / 10) acc'
  end.

(** Decimal digits of a natural number, most significant first. *)
Definition digits (n : Z) : string :=
  digits_fuel (S (Z.to_nat (Z.log2 n))) n "".

Definition str_of_int (n : Z) : string :=
  if n <? 0 then String "-" (digits (- n)) else digits n.

Fixpoint zeros (k : nat) : string :=
  match k with
  | O => ""
  | S k' => String "0" (zeros k')
  end.

(** [format(n, "0{w}d")]: zero padding to width [w], the sign counted in
    the width and put first. *)
Definition fmt_0d (w : nat) (n : Z) : string :=
  if n <? 0
  then String "-" (zeros (w - 1 - String.length (digits (- n))) +:+ digits (- n))
  else zeros (w - String.length (digits n)) +:+ digits n.

Fixpoint all_digits (s : string) : bool :=
  match s with
  | String c r => isdigit c && all_digits r
  | EmptyString => true
  end.

(** [sep.join(parts)]. *)
Fixpoint join (sep : string) (parts : list string) : string :=
  match parts with
  | [] => ""
  | [p] => p
  | p :: rest => p +:+ sep +:+ join sep rest
  end.

(** ** [os.path] on POSIX *)
Definition basename (p : string) : string := split_last "/" p.

Fixpoint all_char (ch : ascii) (s : string) : bool :=
  match s with
  | String c r => Ascii.eqb c ch && all_char ch r
  | EmptyString => true
  end.

Definition dirname (p : string) : string :=
  match rpartition "/" p with
  | Some (h, _) =>
      let head := h +:+ "/" in
      if all_char "/" head then head else rstrip_char "/" head
  | None => ""
  end.

(** [os.path.splitext(p)[0]]: the last dot of the final component splits,
    unless only dots precede it there. *)
Definition splitext_root (p : string) : string :=
  let '(dir, file) :=
    match rpartition "/" p with
    | Some (h, t) => (h +:+ "/", t)
    | None => ("", p)
    end in
  match rpartition "." file with
  | Some (pre, _) => if all_char "." pre then p else dir +:+ pre
  | None => p
  end.

(** [os.path.join(a, b)]. *)
Definition path_join (a b : string) : string :=
  if startswith "/" b then b
  else if negb (truthy a) || endswith "/" a then a +:+ b
  else a +:+ "/" +:+ b.

End Py.

(* ===================================================================== *)
(** * Binary64 floats *)
(* ===================================================================== *)

Module F64.
Import Py.

Definition prec : Z := 53.
Definition emax : Z := 1024.

Definition float : Type := spec_float.

(** [float(n)] for an integer: the nearest double, ties to even;
    [OverflowError] beyond the largest double. *)
Definition of_int (n : Z) : result float :=
  match binary_normalize prec emax n 0 false with
  | S754_infinity _ => Raise OverflowError
  | f => Ok f
  end.

Definition is_zero (x : float) : bool :=
  match x with
  | S754_zero _ => true
  | _ => false
  end.

Definition is_finite (x : float) : bool :=
  match x with
  | S754_zero _ | S754_finite _ _ _ => true
  | _ => false
  end.

(** [x / y] on floats. *)
Definition div (x y : float) : result float :=
  if is_zero y then Raise ZeroDivisionError else Ok (SFdiv prec emax x y).

Definition sub (x y : float) : float := SFsub prec emax x y.
Definition mul (x y : float) : float := SFmul prec emax x y.

(** [x >= y] on floats (false when either is a NaN). *)
Definition geb (x y : float) : bool := SFleb y x.

(** [int(x)]: truncation toward zero. *)
Definition trunc (x : float) : result Z :=
  match x with
  | S754_zero _ => Ok 0
  | S754_finite s m e =>
      Ok (cond_Zopp s (if 0 <=? e then Z.shiftl (Zpos m) e
                       else Z.shiftr (Zpos m) (- e)))
  | S754_infinity _ => Raise OverflowError
  | S754_nan => Raise ValueError
  end.

(** [round(x)] with one argument: the nearest integer, ties to even. *)
Definition round_magnitude (m : positive) (e : Z) : Z :=
  if 0 <=? e then Z.shiftl (Zpos m) e
  else
    let q := Z.shiftr (Zpos m) (- e) in
    let r := Zpos m - Z.shiftl q (- e) in
    let half := Z.shiftl 1 (- e - 1) in
    match r ?= half with
    | Lt => q
    | Gt => q + 1
    | Eq => if Z.even q then q else q + 1
    end.

Definition round (x : float) : result Z :=
  match x with
  | S754_zero _ => Ok 0
  | S754_finite s m e => Ok (cond_Zopp s (round_magnitude m e))
  | S754_infinity _ => Raise OverflowError
  | S754_nan => Raise ValueError
  end.

(** The value of a finite float in units of [2^-1074], the smallest
    positive double: an integer for every double. *)
Definition scaled (x : float) : Z :=
  match x with
  | S754_finite s m e => cond_Zopp s (Zpos m * 2 ^ (e + 1074))
  | _ => 0
  end.

Definition UNIT : Z := 2 ^ 1074.

(** A double that is zero or positive and finite, in canonical form. *)
Definition nonneg_finite (x : float) : bool :=
  match x with
  | S754_zero s => negb s
  | S754_finite s m e => negb s && bounded prec emax m e
  | _ => false
  end.

(** The float literals of the script. *)
Definition f29_97 : float := S754_finite false 8435805052018360 (-48).
Definition f59_94 : float := S754_finite false 8435805052018360 (-47).
Definition f23_976 : float := S754_finite false 6748644041614688 (-48).
Definition f25_0 : float := S754_finite false 7036874417766400 (-48).
Definition f3 : float := S754_finite false 6755399441055744 (-51).
Definition f1000 : float := S754_finite false 8796093022208000 (-43).

(** [x] is a positive double in canonical form at most half a unit in
    its last place away from the fraction [num/den]. *)
Definition nearest (num den : Z) (x : float) : bool :=
  match x with
  | S754_finite false m e =>
      bounded prec emax m e
      && (2 * Z.abs (den * scaled x - num * UNIT) <=? den * 2 ^ (e + 1074))
  | _ => false
  end.

End F64.

(* ===================================================================== *)
(** * Regular expressions: the backtracking matcher of [re] *)
(* ===================================================================== *)

Module Re.

(** The fragment of the pattern language the script and [strptime] use.
    Alternatives are tried left to right and quantifiers are greedy, so
    the first match found is the one [re] reports. *)
Inductive re : Type :=
  | Eps
  | Chr (p : ascii -> bool)
  | Seq (r1 r2 : re)
  | Alt (r1 r2 : re)
  | Opt (r : re)
  | Plus (p : ascii -> bool)
  | Group (i : nat) (r : re).

(** Captured groups, the latest capture of a group first. *)
Definition captures : Type := list (nat * string).

Fixpoint lookup_group (i : nat) (c : captures) : option string :=
  match c with
  | (j, s) :: rest => if Nat.eqb i j then Some s else lookup_group i rest
  | [] => None
  end.

(** The part of [s] consumed when [rest] is what remains of it. *)
Definition consumed (s rest : string) : string :=
  String.substring 0 (String.length s - String.length rest) s.

Section Run.
Context {A : Type}.

(** Greedy [p*] followed by the continuation [k]. *)
Fixpoint star (p : ascii -> bool) (s : string)
    (k : string -> option A) : option A :=
  match s with
  | String c s' =>
      if p c then
        match star p s' k with
        | Some a => Some a
        | None => k s
        end
      else k s
  | EmptyString => k s
  end.

Fixpoint run (r : re) (s : string) (c : captures)
    (k : string -> captures -> option A) : option A :=
  match r with
  | Eps => k s c
  | Chr p =>
      match s with
      | String a s' => if p a then k s' c else None
      | EmptyString => None
      end
  | Seq r1 r2 => run r1 s c (fun s1 c1 => run r2 s1 c1 k)
  | Alt r1 r2 =>
      match run r1 s c k with
      | Some a => Some a
      | None => run r2 s c k
      end
  | Opt r1 =>
      match run r1 s c k with
      | Some a => Some a
      | None => k s c
      end
  | Plus p =>
      match s with
      | String a s' => if p a then star p s' (fun s1 => k s1 c) else None
      | EmptyString => None
      end
  | Group i r1 => run r1 s c (fun s1 c1 => k s1 ((i, consumed s s1) :: c1))
  end.
End Run.

(** [re.match]: the first match at the start of [s], as what is left of
    [s] after it and the groups. *)
Definition rmatch (r : re) (s : string) : option (string * captures) :=
  run r s [] (fun rest c => Some (rest, c)).

(** [re.search]: the first match at the leftmost position that has one. *)
Fixpoint search (r : re) (s : string) : option captures :=
  match rmatch r s with
  | Some (_, c) => Some c
  | None =>
      match s with
      | String _ s' => search r s'
      | EmptyString => None
      end
  end.

(** [m.groups()] for a pattern with [n] groups, when all took part. *)
Fixpoint groups_from (i n : nat) (c : captures) : option (list string) :=
  match n with
  | O => Some []
  | S n' =>
      match lookup_group i c, groups_from (S i) n' c with
      | Some g, Some gs => Some (g :: gs)
      | _, _ => None
      end
  end.

Definition groups (n : nat) (c : captures) : option (list string) :=
  groups_from 1 n c.

(** Pattern syntax. *)
Definition lit (a : ascii) : re := Chr (Ascii.eqb a).
Definition digit : re := Chr Py.isdigit.

Fixpoint mem_char (set : string) (a : ascii) : bool :=
  match set with
  | String b rest => Ascii.eqb a b || mem_char rest a
  | EmptyString => false
  end.

(** [[abc]] *)
Definition set (chars : string) : re := Chr (mem_char chars).

(** [[a-b]] *)
Definition range (lo hi : ascii) : re :=
  Chr (fun a => (Py.code lo <=? Py.code a)%N && (Py.code a <=? Py.code hi)%N).

Fixpoint seq (rs : list re) : re :=
  match rs with
  | [] => Eps
  | [r] => r
  | r :: rest => Seq r (seq rest)
  end.

Fixpoint alt (r : re) (rs : list re) : re :=
  match rs with
  | [] => r
  | r' :: rest => Alt r (alt r' rest)
  end.

(** [r{1,n+1}], greedy. *)
Fixpoint upto (r : re) (n : nat) : re :=
  match n with
  | O => r
  | S n' => Seq r (Opt (upto r n'))
  end.

End Re.

(* ===================================================================== *)
(** * [datetime]: the proleptic Gregorian calendar and [strptime] *)
(* ===================================================================== *)

Module Dt.
Import Py.

Definition MINYEAR : Z := 1.
Definition MAXYEAR : Z := 9999.
Definition MAXORDINAL : Z := 3652059.

Definition is_leap (y : Z) : bool :=
  (y mod 4 =? 0) && (negb (y mod 100 =? 0) || (y mod 400 =? 0)).

Definition days_before_year (y : Z) : Z :=
  let p := y - 1 in p * 365 + p / 4 - p / 100 + p / 400.

(** [_DAYS_IN_MONTH] and [_DAYS_BEFORE_MONTH], index 0 unused. *)
Definition DAYS_IN_MONTH (m : Z) : Z :=
  match m with
  | 1 => 31 | 2 => 28 | 3 => 31 | 4 => 30 | 5 => 31 | 6 => 30
  | 7 => 31 | 8 => 31 | 9 => 30 | 10 => 31 | 11 => 30 | 12 => 31
  | _ => -1
  end.

Definition DAYS_BEFORE_MONTH (m : Z) : Z :=
  match m with
  | 1 => 0 | 2 => 31 | 3 => 59 | 4 => 90 | 5 => 120 | 6 => 151
  | 7 => 181 | 8 => 212 | 9 => 243 | 10 => 273 | 11 => 304 | 12 => 334
  | _ => -1
  end.

Definition days_in_month (y m : Z) : Z :=
  if (m =? 2) && is_leap y then 29 else DAYS_IN_MONTH m.

Definition days_before_month (y m : Z) : Z :=
  DAYS_BEFORE_MONTH m + (if (2 <? m) && is_leap y then 1 else 0).

Definition ymd2ord (y m d : Z) : Z :=
  days_before_year y + days_before_month y m + d.

Definition DI400Y : Z := 146097.
Definition DI100Y : Z := 36524.
Definition DI4Y : Z := 1461.

(** The end of [_ord2ymd]: month and day of the month for the day [n]
    of a year, counted from 0. *)
Definition month_day (n : Z) (leapyear : bool) : Z * Z :=
  let month := Z.shiftr (n + 50) 5 in
  let preceding :=
    DAYS_BEFORE_MONTH month + (if (2 <? month) && leapyear then 1 else 0) in
  if n <? preceding then
    let month := month - 1 in
    let preceding :=
      preceding
      - (DAYS_IN_MONTH month + (if (month =? 2) && leapyear then 1 else 0)) in
    (month, n - preceding + 1)
  else (month, n - preceding + 1).

(** [_ord2ymd]: ordinal 1 is 0001-01-01. *)
Definition ord2ymd (ordinal : Z) : Z * Z * Z :=
  let n := ordinal - 1 in
  let n400 := n / DI400Y in
  let n := n mod DI400Y in
  let year := n400 * 400 + 1 in
  let n100 := n / DI100Y in
  let n := n mod DI100Y in
  let n4 := n / DI4Y in
  let n := n mod DI4Y in
  let n1 := n / 365 in
  let n := n mod 365 in
  let year := year + n100 * 100 + n4 * 4 + n1 in
  if (n1 =? 4) || (n100 =? 4) then (year - 1, 12, 31)
  else
    let leapyear := (n1 =? 3) && (negb (n4 =? 24) || (n100 =? 3)) in
    let '(month, day) := month_day n leapyear in
    (year, month, day).

(** What [month_day] must satisfy on day [n] of a year. *)
Definition month_day_ok (n : Z) (leapyear : bool) : bool :=
  let '(m, d) := month_day n leapyear in
  (1 <=? m) && (m <=? 12) && (1 <=? d)
  && (d <=? DAYS_IN_MONTH m + (if (m =? 2) && leapyear then 1 else 0))
  && (DAYS_BEFORE_MONTH m + (if (2 <? m) && leapyear then 1 else 0) + d
      =? n + 1).

(** A [datetime]; [tzinfo] is the UTC offset of its fixed-offset zone in
    microseconds, [None] for a naive value. *)
Record datetime : Type := {
  year : Z; month : Z; day : Z;
  hour : Z; minute : Z; second : Z; microsecond : Z;
  tzinfo : option Z
}.

Definition US_PER_SECOND : Z := 1000000.
Definition US_PER_DAY : Z := 86400 * US_PER_SECOND.

Definition valid_date (y m d : Z) : bool :=
  (MINYEAR <=? y) && (y <=? MAXYEAR) && (1 <=? m) && (m <=? 12)
  && (1 <=? d) && (d <=? days_in_month y m).

Definition valid_time (H M S us : Z) : bool :=
  (0 <=? H) && (H <=? 23) && (0 <=? M) && (M <=? 59)
  && (0 <=? S) && (S <=? 59) && (0 <=? us) && (us <=? 999999).

(** [timezone(offset)] accepts offsets strictly between -24h and 24h. *)
Definition valid_offset (off : Z) : bool :=
  (- US_PER_DAY <? off) && (off <? US_PER_DAY).

(** The constructor; [None] stands for its [ValueError]. *)
Definition new_datetime (y m d H M S us : Z) (tz : option Z)
    : option datetime :=
  if valid_date y m d && valid_time H M S us
  then Some {| year := y; month := m; day := d; hour := H; minute := M;
               second := S; microsecond := us; tzinfo := tz |}
  else None.

(** Microseconds since the start of ordinal 0, on the value's own clock. *)
Definition to_us (dt : datetime) : Z :=
  (((ymd2ord (year dt) (month dt) (day dt) * 24 + hour dt) * 60
    + minute dt) * 60 + second dt) * US_PER_SECOND + microsecond dt.

(** [dt + delta] for a [timedelta] of [delta] microseconds; the zone is
    kept. [OverflowError] outside the years 1 to 9999. *)
Definition add_timedelta (dt : datetime) (delta : Z) : result datetime :=
  let t := to_us dt + delta in
  let days := t / US_PER_DAY in
  let rem := t mod US_PER_DAY in
  let secs := rem / US_PER_SECOND in
  if (0 <? days) && (days <=? MAXORDINAL) then
    let '(y, m, d) := ord2ymd days in
    Ok {| year := y; month := m; day := d;
          hour := secs / 3600; minute := (secs mod 3600) / 60;
          second := secs mod 60; microsecond := rem mod US_PER_SECOND;
          tzinfo := tzinfo dt |}
  else Raise OverflowError.

(** The instants, in microseconds since the start of ordinal 0, that
    fall in the years 1 to 9999. *)
Definition in_range (t : Z) : bool :=
  (US_PER_DAY <=? t) && (t <? (MAXORDINAL + 1) * US_PER_DAY).

Definition valid_datetime (dt : datetime) : bool :=
  valid_date (year dt) (month dt) (day dt)
  && valid_time (hour dt) (minute dt) (second dt) (microsecond dt).

Definition replace_tzinfo (dt : datetime) (tz : option Z) : datetime :=
  {| year := year dt; month := month dt; day := day dt; hour := hour dt;
     minute := minute dt; second := second dt;
     microsecond := microsecond dt; tzinfo := tz |}.

(** [dt.astimezone(tz)] for an aware [dt] with offset [off] and a
    fixed-offset zone [tz] that is another object than [dt]'s: to UTC
    first, then [tz.fromutc]. *)
Definition astimezone (dt : datetime) (off tz : Z) : result datetime :=
  rbind (add_timedelta dt (- off)) (fun utc =>
  add_timedelta (replace_tzinfo utc (Some tz)) tz).

(** [dt.strftime("%Y-%m-%d %H:%M")]. The C library writes the fields:
    month, day, hour and minute on two digits, and the year, with glibc,
    without padding, so that a year below 1000 has fewer than four
    digits. *)
Definition strftime_ymd_hm (dt : datetime) : string :=
  str_of_int (year dt) +:+ "-" +:+ fmt_0d 2 (month dt) +:+ "-"
  +:+ fmt_0d 2 (day dt) +:+ " " +:+ fmt_0d 2 (hour dt) +:+ ":"
  +:+ fmt_0d 2 (minute dt).

End Dt.

(** ** [datetime.strptime] *)

Module Strptime.
Import Py Re Dt.

(** Group numbers standing for the group names of [_strptime]. *)
Definition gY : nat := 1.
Definition gm : nat := 2.
Definition gd : nat := 3.
Definition gH : nat := 4.
Definition gM : nat := 5.
Definition gS : nat := 6.
Definition gz : nat := 7.

(** The regular expression of a directive, as in [TimeRE.__init__]. *)
Definition directive (d : ascii) : option re :=
  match d with
  | "Y"%char => Some (Group gY (seq [digit; digit; digit; digit]))
  | "m"%char =>
      Some (Group gm (alt (seq [lit "1"; range "0" "2"])
                          [seq [lit "0"; range "1" "9"]; range "1" "9"]))
  | "d"%char =>
      Some (Group gd (alt (seq [lit "3"; range "0" "1"])
                          [seq [range "1" "2"; digit];
                           seq [lit "0"; range "1" "9"];
                           range "1" "9";
                           seq [lit " "; range "1" "9"]]))
  | "H"%char =>
      Some (Group gH (alt (seq [lit "2"; range "0" "3"])
                          [seq [range "0" "1"; digit]; digit]))
  | "M"%char =>
      Some (Group gM (alt (seq [range "0" "5"; digit]) [digit]))
  | "S"%char =>
      Some (Group gS (alt (seq [lit "6"; range "0" "1"])
                          [seq [range "0" "5"; digit]; digit]))
  | "z"%char =>
      Some (Group gz
        (alt (seq [set "+-"; digit; digit; Opt (lit ":");
                   range "0" "5"; digit;
                   Opt (seq [Opt (lit ":"); range "0" "5"; digit;
                             Opt (seq [lit "."; upto digit 5])])])
             [lit "Z"]))
  | _ => None
  end.

(** [TimeRE.pattern]: a run of white space in the format stands for
    [\s+], a directive for its expression, any other character for
    itself. [None] for a format outside the directives above. *)
Fixpoint pattern (fmt : string) (in_space : bool) : option (list re) :=
  match fmt with
  | EmptyString => Some []
  | String "%" (String d rest) =>
      match directive d, pattern rest false with
      | Some r, Some rs => Some (r :: rs)
      | _, _ => None
      end
  | String "%" EmptyString => None
  | String c rest =>
      if isspace c then
        if in_space then pattern rest true
        else cons (Plus isspace) <$> pattern rest true
      else cons (lit c) <$> pattern rest false
  end.

(** [z[i:j]] and [z[i:]]. *)
Definition slice (i j : nat) (s : string) : string :=
  String.substring i (j - i) s.
Definition slice_from (i : nat) (s : string) : string :=
  String.substring i (String.length s - i) s.

(** The offset of a [%z] field in microseconds; [None] for the
    [ValueError]s of the conversion. *)
Definition parse_z (z0 : string) : option Z :=
  if String.eqb z0 "Z" then Some 0
  else
    let unc : option string :=
      if String.eqb (slice 3 4 z0) ":" then
        let z := slice 0 3 z0 +:+ slice_from 4 z0 in
        if (5 <? String.length z)%nat then
          if negb (String.eqb (slice 5 6 z) ":") then None
          else Some (slice 0 5 z +:+ slice_from 6 z)
        else Some z
      else Some z0 in
    z ← unc;
    hours ← int (slice 1 3 z);
    minutes ← int (slice 3 5 z);
    seconds ← (if truthy (slice 5 7 z) then int (slice 5 7 z) else Some 0);
    let gmtoff := hours * 60 * 60 + minutes * 60 + seconds in
    let remainder := slice_from 8 z in
    fraction ← int (remainder +:+ zeros (6 - String.length remainder));
    let total := gmtoff * US_PER_SECOND + fraction in
    Some (if startswith "-" z then - total else total).

(** The integer of group [g], or [default] when the format has no such
    directive. *)
Definition field (g : nat) (default : Z) (c : captures) : option Z :=
  match lookup_group g c with
  | Some t => int t
  | None => Some default
  end.

(** [datetime.strptime(s, fmt)]; [None] stands for [ValueError]. Formats
    are those with a [%Y]. *)
Definition strptime (s fmt : string) : option datetime :=
  rs ← pattern fmt false;
  '(rest, c) ← rmatch (seq rs) s;
  if truthy rest then None
  else
    y ← field gY 1900 c;
    m ← field gm 1 c;
    d ← field gd 1 c;
    H ← field gH 0 c;
    M ← field gM 0 c;
    S ← field gS 0 c;
    if valid_date y m d then
      match lookup_group gz c with
      | Some z =>
          off ← parse_z z;
          if valid_offset off then new_datetime y m d H M S 0 (Some off)
          else None
      | None => new_datetime y m d H M S 0 None
      end
    else None.

End Strptime.

(* ===================================================================== *)
(** * [xml.etree.ElementTree]: elements and the paths the script uses *)
(* ===================================================================== *)

Module ET.
Import Py.

(** An element: its tag, its text ([None] when it has none) and its
    children in document order. *)
#[warnings="-register-all"]
Inductive Element : Type :=
  | Elem (tag : string) (text : option string) (children : list Element).

Definition tag (e : Element) : string :=
  match e with Elem t _ _ => t end.
Definition text (e : Element) : option string :=
  match e with Elem _ x _ => x end.
Definition children (e : Element) : list Element :=
  match e with Elem _ _ cs => cs end.

(** The proper descendants of [e] in document order ([e.iter()] without
    [e] itself). *)
Fixpoint descendants (e : Element) : list Element :=
  match e with
  | Elem _ _ cs => flat_map (fun c => c :: descendants c) cs
  end.

Definition has_tag (t : string) (e : Element) : bool := String.eqb (tag e) t.

(** [e.findall("./t")], also [e.findall("t")]. *)
Definition findall (t : string) (e : Element) : list Element :=
  List.filter (has_tag t) (children e).

(** [e.find("t")]. *)
Definition find (t : string) (e : Element) : option Element :=
  head (findall t e).

(** [e.findtext("t")]: [None] without such a child, the empty string
    for a child without text. *)
Definition findtext (t : string) (e : Element) : option string :=
  (fun c => or_empty (text c)) <$> find t e.

(** [e.findall(".//t/s1/.../sn")]. *)
Definition findall_desc (t : string) (steps : list string) (e : Element)
    : list Element :=
  fold_left (fun acc s => flat_map (findall s) acc) steps
            (List.filter (has_tag t) (descendants e)).

(** [e.find(".//t/s1/.../sn")]. *)
Definition find_desc (t : string) (steps : list string) (e : Element)
    : option Element :=
  head (findall_desc t steps e).

End ET.

(* ===================================================================== *)
(** * The script *)
(* ===================================================================== *)

Import Py F64 Re Dt Strptime ET.

(** What a run does to the outside, in order: a line on the diagnostic
    stream, or a file opened for writing and given its content. *)
Inductive event : Type :=
  | Stderr (msg : string)
  | Write (path content : string).

(** Code that emits events and may raise. *)
Definition M (A : Type) : Type := (list event * result A)%type.

Definition ret {A : Type} (a : A) : M A := ([], Ok a).
Definition lift {A : Type} (r : result A) : M A := ([], r).
Definition emit (ev : event) : M unit := ([ev], Ok tt).
Definition raise {A : Type} (e : exn) : M A := ([], Raise e).

Definition bind {A B : Type} (x : M A) (f : A -> M B) : M B :=
  match x with
  | (evs, Ok a) => let '(evs', r) := f a in ((evs ++ evs')%list, r)
  | (evs, Raise e) => (evs, Raise e)
  end.

Notation "x <- c ;; k" := (bind c (fun x => k))
  (at level 100, c at next level, right associativity).
Notation "c ;;; k" := (bind c (fun _ => k))
  (at level 100, right associativity).
Notation "x <~ c ;; k" := (rbind c (fun x => k))
  (at level 100, c at next level, right associativity).

(** The file system after the events of a run: each [Write] replaces
    the file at its path. *)
Definition fs_after (evs : list event) (fs : gmap string string)
    : gmap string string :=
  fold_left (fun m ev =>
               match ev with
               | Write p c => <[p := c]> m
               | Stderr _ => m
               end) evs fs.

Definition writes (evs : list event) : list (string * string) :=
  omap (fun ev => match ev with
                  | Write p c => Some (p, c)
                  | Stderr _ => None
                  end) evs.

Record Clip : Type := {
  start_frames : Z;
  end_frames : Z;
  path : string;
  name : string
}.

Definition tags : list string :=
  [ "QuickTime:CreateDate";
    "QuickTime:MediaCreateDate";
    "QuickTime:TrackCreateDate";
    "QuickTime:ModifyDate";
    "Keys:CreationDate";
    "System:FileCreateDate";
    "System:FileModifyDate" ].

Definition two_digits : re := seq [digit; digit].
Definition year_20 : re := seq [lit "2"; lit "0"; digit; digit].

(** [(20\d{2})[-_](\d{2})[-_](\d{2})[ _](\d{2})[:\.-](\d{2})[:\.-](\d{2})] *)
Definition pattern_ymd : re :=
  seq [Group 1 year_20; set "-_"; Group 2 two_digits; set "-_";
       Group 3 two_digits; set " _"; Group 4 two_digits; set ":.-";
       Group 5 two_digits; set ":.-"; Group 6 two_digits].

(** [(\d{2})-(\d{2})-(20\d{2})[ _](\d{2})[-](\d{2})[-](\d{2})] *)
Definition pattern_mdy : re :=
  seq [Group 1 two_digits; lit "-"; Group 2 two_digits; lit "-";
       Group 3 year_20; set " _"; Group 4 two_digits; set "-";
       Group 5 two_digits; set "-"; Group 6 two_digits].

(** The fields the two patterns capture: two digits, and a year of four
    digits that starts with [20]. *)
Definition two_digit_field (s : string) : bool :=
  match s with
  | String a (String b EmptyString) => isdigit a && isdigit b
  | _ => false
  end.

Definition year_field (s : string) : bool :=
  match s with
  | String "2" (String "0" (String a (String b EmptyString))) =>
      isdigit a && isdigit b
  | _ => false
  end.

Definition stamp (y mo d H Mi : string) : string :=
  y +:+ "-" +:+ mo +:+ "-" +:+ d +:+ " " +:+ H +:+ ":" +:+ Mi +:+ ":00+0000".

(** The file name fallback of [run_exiftool]. *)
Definition filename_fallback (fn : string) : option string :=
  match search pattern_ymd fn with
  | Some c =>
      match groups 6 c with
      | Some [y; mo; d; H; Mi; _] => Some (stamp y mo d H Mi)
      | _ => None
      end
  | None =>
      match search pattern_mdy fn with
      | Some c =>
          match groups 6 c with
          | Some [mo; d; y; H; Mi; _] => Some (stamp y mo d H Mi)
          | _ => None
          end
      | None => None
      end
  end.

Definition fmts : list string :=
  [ "%Y-%m-%d %H:%M:%S%z";
    "%Y-%m-%d %H:%M%z";
    "%Y-%m-%d %H:%M:%S";
    "%Y-%m-%d %H:%M" ].

(** The loop over [fmts]: the first format that parses. *)
Fixpoint first_parse (dt_str : string) (fs : list string) : option datetime :=
  match fs with
  | f :: rest =>
      match strptime dt_str f with
      | Some dt => Some dt
      | None => first_parse dt_str rest
      end
  | [] => None
  end.

(** The shape [YYYY-MM-DD HH:MM]: sixteen characters, digits around the
    separators. *)
Definition is_ymd_hm (s : string) : bool :=
  match s with
  | String y1 (String y2 (String y3 (String y4 (String "-"
      (String m1 (String m2 (String "-" (String d1 (String d2 (String " "
        (String h1 (String h2 (String ":" (String n1 (String n2
          EmptyString))))))))))))))) =>
      isdigit y1 && isdigit y2 && isdigit y3 && isdigit y4
      && isdigit m1 && isdigit m2 && isdigit d1 && isdigit d2
      && isdigit h1 && isdigit h2 && isdigit n1 && isdigit n2
  | _ => false
  end.

Definition pad2 : Z -> string := fmt_0d 2.
Definition pad3 : Z -> string := fmt_0d 3.

(** A date and time in the format the script asks of exiftool with
    [-d "%Y-%m-%d %H:%M:%S%z"]: the fields zero padded, the offset as a
    sign, two digits of hours and two of minutes. *)
Definition exiftool_date (y m d H M S : Z) (neg : bool) (oh om : Z) : string :=
  fmt_0d 4 y +:+ "-" +:+ pad2 m +:+ "-" +:+ pad2 d +:+ " " +:+ pad2 H
  +:+ ":" +:+ pad2 M +:+ ":" +:+ pad2 S
  +:+ String (if neg then "-" else "+")%char (pad2 oh +:+ pad2 om).

(** A date and time in the third format of the normalizer, with
    seconds and without an offset. *)
Definition naive_date (y m d H M S : Z) : string :=
  fmt_0d 4 y +:+ "-" +:+ pad2 m +:+ "-" +:+ pad2 d +:+ " " +:+ pad2 H
  +:+ ":" +:+ pad2 M +:+ ":" +:+ pad2 S.

(** The offset of such a date in seconds. *)
Definition offset_seconds (neg : bool) (oh om : Z) : Z :=
  (if neg then -1 else 1) * (oh * 60 * 60 + om * 60).

Definition frames_to_tc_ms (frames : Z) (fps : float) : result string :=
  x <~ of_int frames ;;
  seconds <~ div x fps ;;
  whole <~ trunc seconds ;;
  whole_f <~ of_int whole ;;
  thousand <~ of_int 1000 ;;
  ms <~ round (mul (sub seconds whole_f) thousand) ;;
  s <~ trunc seconds ;;
  let hh := s / 3600 in
  let mm := (s mod 3600) / 60 in
  let ss := s mod 60 in
  Ok (pad2 hh +:+ ":" +:+ pad2 mm +:+ ":" +:+ pad2 ss +:+ "," +:+ pad3 ms).

Definition get_sequence_rate (root : Element) : result float :=
  match find_desc "sequence" ["rate"] root with
  | None => Ok f25_0
  | Some rate =>
      let tb :=
        match int_opt (findtext "timebase" rate) with
        | Some n => n
        | None => 25
        end in
      let ntsc := findtext "ntsc" rate in
      if String.eqb (lower (or_empty ntsc)) "true" then
        if tb =? 30 then Ok f29_97
        else if tb =? 60 then Ok f59_94
        else if tb =? 24 then Ok f23_976
        else of_int tb
      else of_int tb
  end.

(** [clips.sort(key=start_frames)]: a stable sort. *)
Fixpoint insert_clip (c : Clip) (l : list Clip) : list Clip :=
  match l with
  | x :: rest =>
      if start_frames c <=? start_frames x then c :: l
      else x :: insert_clip c rest
  | [] => [c]
  end.

Definition sort_clips (l : list Clip) : list Clip :=
  fold_right insert_clip [] l.

(** One cue of the document, as the four lines the loop appends. *)
Definition cue_lines (idx : Z) (start_tc end_tc caption : string)
    : list string :=
  [str_of_int idx; start_tc +:+ " --> " +:+ end_tc; caption; ""].

(** A cue of the subtitle document. *)
Record Cue : Type := {
  index : Z;
  start_tc : string;
  end_tc : string;
  caption : string
}.

Definition lines_of_cue (q : Cue) : list string :=
  cue_lines (index q) (start_tc q) (end_tc q) (caption q).

Definition LF : string := String "010" "".

(** The text written for a list of cues: the lines joined by line feeds. *)
Definition document (cues : list Cue) : string :=
  join LF (flat_map lines_of_cue cues).

(** A cue as a block of text closed by a blank line, with the arrow
    between spaces as the script writes it. *)
Definition cue_block (q : Cue) : string :=
  str_of_int (index q) +:+ LF +:+ start_tc q +:+ " --> " +:+ end_tc q
  +:+ LF +:+ caption q +:+ LF +:+ LF.

(** The block and the document in the words of the specification: the
    arrow without spaces, every block closed by a blank line. *)
Definition claimed_block (q : Cue) : string :=
  str_of_int (index q) +:+ LF +:+ start_tc q +:+ "-->" +:+ end_tc q
  +:+ LF +:+ caption q +:+ LF +:+ LF.

Fixpoint concat_blocks (blocks : list string) : string :=
  match blocks with
  | b :: rest => b +:+ concat_blocks rest
  | [] => ""
  end.

Definition claimed_document (cues : list Cue) : string :=
  concat_blocks (claimed_block <$> cues).

(** Acceptance of a metadata answer in the words of the specification:
    not empty, not the all-zero date, not ending in [0000:]. *)
Definition claimed_degenerate (out : string) : bool :=
  String.eqb out "0000-00-00 00:00:00" || endswith "0000:" out.

Definition claimed_accepted (out : string) : bool :=
  truthy out && negb (claimed_degenerate out).

(** The time code shape [HH:MM:SS,mmm]: after the hours, a colon, two
    digits, a colon, two digits, a comma and three digits, and nothing
    more. *)
Definition tc_tail (s : string) : bool :=
  match s with
  | String ":" (String m1 (String m2 (String ":" (String s1 (String s2
      (String "," (String a (String b (String c EmptyString))))))))) =>
      isdigit m1 && isdigit m2 && isdigit s1 && isdigit s2
      && isdigit a && isdigit b && isdigit c
  | _ => false
  end.

(** The hours: two digits or more, [n] of them read already. *)
Fixpoint tc_hours (n : nat) (s : string) : bool :=
  match s with
  | String c r =>
      if isdigit c then tc_hours (S n) r else (2 <=? n)%nat && tc_tail s
  | EmptyString => false
  end.

Definition is_timecode (s : string) : bool := tc_hours 0 s.

(* ===================================================================== *)
(** * Sample inputs *)
(* ===================================================================== *)

Module Sample.

(** A metadata source that knows one file. *)
Definition exiftool (t p : string) : option string :=
  if String.eqb p "/m/a.mov" && String.eqb t "QuickTime:CreateDate"
  then Some ("2025-06-01 12:00:00+0000" +:+ LF)
  else if String.eqb t "Keys:CreationDate" then None
  else Some "".

Definition leaf (t x : string) : Element := Elem t (Some x) [].

Definition file (fields : list Element) : Element := Elem "file" None fields.

Definition clipitem (fields : list Element) : Element :=
  Elem "clipitem" None fields.

Definition timeline (rate : list Element) (items : list Element) : Element :=
  Elem "xmeml" None
    [Elem "sequence" None
       [Elem "rate" None rate;
        Elem "media" None
          [Elem "video" None
             [Elem "track" None items; Elem "track" None []]]]].

(** Two clips at 25 frames per second, the later one first in the
    document. *)
Definition two_clips : Element :=
  timeline [leaf "timebase" "25"; leaf "ntsc" "FALSE"]
    [clipitem [leaf "name" "B"; leaf "start" "100"; leaf "end" "250";
               file [leaf "name" "b.mov"; leaf "pathurl" "/m/b.mov"]];
     clipitem [leaf "enabled" "TRUE"; leaf "name" "A";
               leaf "start" "0"; leaf "end" "100";
               file [leaf "name" "a.mov"; leaf "pathurl" "/m/a.mov"]]].

(** A timeline whose only clip is switched off. *)
Definition no_clips : Element :=
  timeline [leaf "timebase" "25"]
    [clipitem [leaf "enabled" "FALSE"; leaf "start" "0"; leaf "end" "10";
               file [leaf "pathurl" "/m/a.mov"]]].

Definition xml_fromstring (content : string) : option Element :=
  if String.eqb content "<two_clips/>" then Some two_clips
  else if String.eqb content "<no_clips/>" then Some no_clips
  else None.

Definition fs : gmap string string :=
  {[ "/d/seq.xml" := "<two_clips/>";
     "/d/empty.xml" := "<no_clips/>";
     "/d/broken.xml" := "<xmeml>";
     "/d/timestamps_seq.srt" := "old" ]}.

(** A metadata source whose first tag holds a zero date written with
    colons. *)
Definition exiftool_zero_date (t p : string) : option string :=
  if String.eqb t "QuickTime:CreateDate" then Some "0000:00:00 00:00:00"
  else Some "".

(** A metadata source whose first tag holds the first instant of the
    calendar, at UTC. *)
Definition exiftool_year_one (t p : string) : option string :=
  if String.eqb t "QuickTime:CreateDate" then Some "0001-01-01 00:00:00+0000"
  else Some "".

(** A clip item whose flag has a space before [FALSE]. *)
Definition item_spaced_false : Element :=
  clipitem [leaf "enabled" " FALSE"; leaf "start" "0"; leaf "end" "10";
            file [leaf "pathurl" "/m/a.mov"]].

Definition spaced_false : Element :=
  timeline [leaf "timebase" "25"] [item_spaced_false].

(** A clip item with a name of its own and a file reference without
    one. *)
Definition item_named : Element :=
  clipitem [leaf "name" "Clip A"; leaf "start" "0"; leaf "end" "10";
            file [leaf "pathurl" "/m/a.mov"]].

Definition named_item : Element :=
  timeline [leaf "timebase" "25"] [item_named].

(** A timeline at the timebase 0 with one clip. *)
Definition zero_rate : Element :=
  timeline [leaf "timebase" "0"]
    [clipitem [leaf "start" "0"; leaf "end" "10";
               file [leaf "pathurl" "/m/a.mov"]]].

(** A timeline at the timebase 30 with the NTSC flag set. *)
Definition ntsc_30 : Element :=
  timeline [leaf "timebase" "30"; leaf "ntsc" "TRUE"] [].

(** Timelines whose timebase is [2^53 + 1], [10^339], and a 1 followed
    by 4300 zeros. *)
Definition timebase_2_53_plus_1 : Element :=
  timeline [leaf "timebase" "9007199254740993"] [].

Definition timebase_10_339 : Element :=
  timeline [leaf "timebase" (String "1" (zeros 339))] [].

Definition timebase_4301_digits : Element :=
  timeline [leaf "timebase" (String "1" (zeros 4300))] [].

Definition clock (k : nat) : float := S754_zero false.
Definition float_repr (x : float) : string := "25.0".
Definition format_1f (x : float) : string := "0.0".
Definition same (s : string) : string := s.

End Sample.

Section Script.

Set Default Proof Using "Type".

(** [exiftool tag path]: the decoded standard output of the exiftool
    process for one tag, [None] when the process exits with an error
    ([CalledProcessError]). *)
Variable exiftool : string -> string -> option string.

(** The UTC offset, in seconds, of the local zone
    ([datetime.now().astimezone().tzinfo]). *)
Variable local_utcoffset : Z.

(** [urlparse(url).path] and [unquote] of [urllib.parse]. [unquote]
    is total. [urlparse] is taken on the URLs it accepts: on a
    [file://] URL whose authority holds an unbalanced square bracket it
    raises [ValueError], which nothing in the script catches; that case
    is left out here. *)
Variable urlparse_path : string -> string.
Variable unquote : string -> string.

(** The XML parser on the text of a file; [None] for [ParseError]. *)
Variable xml_fromstring : string -> option Element.

(** [clock k] is what the [k]-th call of [time.time()] returns. *)
Variable clock : nat -> float.

(** [str] of a float and the format specification [.1f]. *)
Variable float_repr : float -> string.
Variable format_1f : float -> string.

(** The body of the loop over [tags]. *)
Definition degenerate (out : string) : bool :=
  startswith "0000" out
  || String.eqb out "0000:00:00 00:00:00"
  || String.eqb out "0000-00-00 00:00:00".

(** What the loop holds in [out] for a tag: the stripped answer, the
    empty string when the process failed. *)
Definition answer (t path : string) : string :=
  strip (or_empty (exiftool t path)).

(** The answers the loop returns. *)
Definition accepted (out : string) : bool :=
  truthy out && negb (endswith ":" out) && negb (degenerate out).

Fixpoint query_tags (ts : list string) (path : string) : option string :=
  match ts with
  | t :: rest =>
      let out := answer t path in
      if truthy out && negb (endswith ":" out) then
        if degenerate out then query_tags rest path else Some out
      else query_tags rest path
  | [] => None
  end.

Definition run_exiftool (path : string) : option string :=
  match query_tags tags path with
  | Some out => Some out
  | None => filename_fallback (split_last "/" path)
  end.

Definition to_local_no_seconds (dt_str : string) : result (option string) :=
  if negb (truthy dt_str) then Ok None
  else
    match first_parse dt_str fmts with
    | None => Ok None
    | Some dt =>
        let off := match tzinfo dt with
                   | Some o => o
                   | None => 0
                   end in
        local_dt <~ astimezone (replace_tzinfo dt (Some off)) off
                      (local_utcoffset * US_PER_SECOND) ;;
        Ok (Some (strftime_ymd_hm local_dt))
    end.

Definition url_to_path (url : string) : string :=
  if startswith "file://" url then unquote (urlparse_path url) else url.

(** The test on the enabled flag at the head of the loop over the clip
    items. *)
Definition switched_off (ci : Element) : bool :=
  let enabled := findtext "enabled" ci in
  truthy_opt enabled && String.eqb (strip (or_empty enabled)) "FALSE".

(** The rest of the loop body: the placement read from the item,
    [None] when the item is skipped. *)
Definition placement (ci : Element) : option Clip :=
  let start := findtext "start" ci in
  let end_ := findtext "end" ci in
  let file_el := find_desc "file" [] ci in
  let pathurl :=
    match file_el with
    | Some f => findtext "pathurl" f
    | None => None
    end in
  let name :=
    match file_el with
    | Some f => findtext "name" f
    | None => findtext "name" ci
    end in
  match start, end_, pathurl with
  | Some s, Some e, Some p =>
      match int s, int e with
      | Some s', Some e' =>
          Some {| start_frames := s'; end_frames := e';
                  path := url_to_path p; name := or_empty name |}
      | _, _ => None
      end
  | _, _, _ => None
  end.

(** The body of the loop over the clip items: [None] when the item is
    skipped. *)
Definition clip_of_item (ci : Element) : option Clip :=
  if switched_off ci then None else placement ci.

Definition gather_v1_clips (root : Element) : list Clip :=
  match find_desc "sequence" ["media"; "video"] root with
  | None => []
  | Some video =>
      match findall "track" video with
      | [] => []
      | v1 :: _ => sort_clips (omap clip_of_item (findall "clipitem" v1))
      end
  end.

(** The caption of a clip, lines 182 to 189 of the script. *)
Definition caption_of (c : Clip) : result string :=
  let dt := run_exiftool (path c) in
  if negb (truthy_opt dt) then Ok ("[NO-DATE] " +:+ name c)
  else
    local_fmt <~ to_local_no_seconds (or_empty dt) ;;
    Ok (if truthy_opt local_fmt then or_empty local_fmt else or_empty dt).

(** [(i / total_clips) * 100]; the counts are below 2^53. *)
Definition percent (i total : Z) : float :=
  mul (SFdiv prec emax (binary_normalize prec emax i 0 false)
                       (binary_normalize prec emax total 0 false))
      (binary_normalize prec emax 100 0 false).

Definition progress_msg (i total : Z) : string :=
  "Processed " +:+ str_of_int i +:+ " of " +:+ str_of_int total
  +:+ " clips (" +:+ format_1f (percent i total) +:+ "%)".

(** The loop that builds the lines; [i] counts the clips from 1. *)
Fixpoint build (fps : float) (total : Z) (clips : list Clip) (i idx : Z)
    (lines : list string) (last_print : float) : M (list string * Z) :=
  match clips with
  | [] => ret (lines, idx)
  | c :: rest =>
      start_tc <- lift (frames_to_tc_ms (start_frames c) fps) ;;
      end_tc <- lift (frames_to_tc_ms (end_frames c) fps) ;;
      caption <- lift (caption_of c) ;;
      let lines := (lines ++ cue_lines idx start_tc end_tc caption)%list in
      let idx := idx + 1 in
      let now := clock (Z.to_nat i) in
      if geb (sub now last_print) f3 then
        emit (Stderr (progress_msg i total)) ;;;
        build fps total rest (i + 1) idx lines now
      else build fps total rest (i + 1) idx lines last_print
  end.

Definition usage : string :=
  "Usage: python3 make_timestamps_srt.py <sequence.xml>".
Definition no_clips : string :=
  "No clips found on V1. Make sure your sequence has clips on the first video track.".

Definition out_path_of (xml_path : string) : string :=
  let base_name := splitext_root (basename xml_path) in
  let out_dir := dirname xml_path in
  path_join out_dir ("timestamps_" +:+ base_name +:+ ".srt").

(** [main], run on the argument vector and the file system. *)
Definition main (argv : list string) (fs : gmap string string) : M unit :=
  match argv with
  | _ :: xml_path :: _ =>
      let out_path := out_path_of xml_path in
      match fs !! xml_path with
      | None => raise FileNotFoundError
      | Some content =>
          match xml_fromstring content with
          | None => raise ParseError
          | Some root =>
              fps <- lift (get_sequence_rate root) ;;
              let clips := gather_v1_clips root in
              match clips with
              | [] => emit (Stderr no_clips) ;;; raise (SystemExit 2)
              | _ :: _ =>
                  let total := Z.of_nat (List.length clips) in
                  built <- build fps total clips 1 1 [] (clock 0) ;;
                  emit (Write out_path (join LF built.1)) ;;;
                  emit (Stderr ("Wrote " +:+ out_path +:+ " with "
                                +:+ str_of_int (built.2 - 1) +:+ " cues at "
                                +:+ float_repr fps +:+ " fps"))
              end
          end
      end
  | _ => emit (Stderr usage) ;;; raise (SystemExit 1)
  end.

(** The cue of the clip at position [idx], and the cues of a list of
    clips numbered from [idx]. *)
Definition cue_of (fps : float) (idx : Z) (c : Clip) : result Cue :=
  s <~ frames_to_tc_ms (start_frames c) fps ;;
  e <~ frames_to_tc_ms (end_frames c) fps ;;
  cap <~ caption_of c ;;
  Ok {| index := idx; start_tc := s; end_tc := e; caption := cap |}.

Fixpoint cues_of (fps : float) (idx : Z) (clips : list Clip)
    : result (list Cue) :=
  match clips with
  | c :: rest =>
      q <~ cue_of fps idx c ;;
      qs <~ cues_of fps (idx + 1) rest ;;
      Ok (q :: qs)
  | [] => Ok []
  end.

(* ------------------------------------------------------------------- *)
(** ** The loop of [main] *)

Lemma writes_app (a b : list event) :
  writes (a ++ b) = (writes a ++ writes b)%list.
Proof. unfold writes. apply omap_app. Qed.

Lemma fs_after_no_writes (evs : list event) (fs : gmap string string) :
  writes evs = [] -> fs_after evs fs = fs.
Proof.
  unfold fs_after. revert fs.
  induction evs as [|ev evs IH]; intros fs Hw; [reflexivity|].
  destruct ev as [msg|p c]; cbn in Hw |- *.
  - apply IH, Hw.
  - discriminate Hw.
Qed.

Lemma fs_after_app (a b : list event) (fs : gmap string string) :
  fs_after (a ++ b) fs = fs_after b (fs_after a fs).
Proof. unfold fs_after. apply fold_left_app. Qed.

(** The loop emits progress lines only, and its result is that of
    [cues_of]: the lines of the cues, in order, after the lines it was
    given. *)
Lemma build_spec (fps : float) (total : Z) (clips : list Clip) :
  forall (i idx : Z) (lines : list string) (last_print : float),
  exists evs : list event,
    writes evs = [] /\
    build fps total clips i idx lines last_print =
      (evs,
       match cues_of fps idx clips with
       | Ok cues =>
           Ok ((lines ++ flat_map lines_of_cue cues)%list,
               idx + Z.of_nat (List.length cues))
       | Raise e => Raise e
       end).
Proof.
  induction clips as [|c rest IH]; intros i idx lines last_print.
  - exists []. split; [reflexivity|]. cbn.
    rewrite app_nil_r, Z.add_0_r. reflexivity.
  - cbn [build cues_of]. unfold cue_of.
    destruct (frames_to_tc_ms (start_frames c) fps) as [s|e];
      [|exists []; split; reflexivity].
    destruct (frames_to_tc_ms (end_frames c) fps) as [e'|e];
      [|exists []; split; reflexivity].
    destruct (caption_of c) as [cap|e];
      [|exists []; split; reflexivity].
    cbn [lift bind rbind app].
    set (q := {| index := idx; start_tc := s; end_tc := e';
                 caption := cap |}).
    set (lines' := (lines ++ cue_lines idx s e' cap)%list).
    destruct (geb (sub (clock (Z.to_nat i)) last_print) f3).
    + destruct (IH (i + 1) (idx + 1) lines' (clock (Z.to_nat i)))
        as (evs & Hw & ->).
      exists (Stderr (progress_msg i total) :: evs).
      split; [exact Hw|].
      cbn [emit bind app].
      destruct (cues_of fps (idx + 1) rest) as [qs|e]; cbn [rbind];
        [|reflexivity].
      f_equal. f_equal. f_equal.
      * subst lines'. cbn [flat_map]. rewrite <- app_assoc. reflexivity.
      * cbn [List.length]. lia.
    + destruct (IH (i + 1) (idx + 1) lines' last_print)
        as (evs & Hw & ->).
      exists evs. split; [exact Hw|].
      destruct (cues_of fps (idx + 1) rest) as [qs|e]; cbn [rbind];
        [|reflexivity].
      f_equal. f_equal. f_equal.
      * subst lines'. cbn [flat_map]. rewrite <- app_assoc. reflexivity.
      * cbn [List.length]. lia.
Qed.

(* ------------------------------------------------------------------- *)
(** ** The runs of [main] *)

(** A run on fewer than two arguments. *)
Lemma main_usage (argv : list string) (fs : gmap string string) :
  (List.length argv < 2)%nat ->
  main argv fs = ([Stderr usage], Raise (SystemExit 1)).
Proof.
  destruct argv as [|a [|p rest]]; cbn; intros H; try reflexivity; lia.
Qed.

(** A run that reaches the loop and whose cues all build. *)
Lemma main_success (a xml_path : string) (rest : list string)
    (fs : gmap string string) (content : string) (root : Element)
    (fps : float) (cues : list Cue) :
  fs !! xml_path = Some content ->
  xml_fromstring content = Some root ->
  get_sequence_rate root = Ok fps ->
  gather_v1_clips root <> [] ->
  cues_of fps 1 (gather_v1_clips root) = Ok cues ->
  exists (pre : list event) (msg : string),
    writes pre = [] /\
    main (a :: xml_path :: rest) fs =
      ((pre ++ [Write (out_path_of xml_path) (document cues); Stderr msg])%list,
       Ok tt).
Proof.
  intros Hfs Hxml Hrate Hne Hcues. unfold main.
  rewrite Hfs, Hxml, Hrate. cbn [lift bind app].
  destruct (gather_v1_clips root) as [|c clips] eqn:Hg; [congruence|].
  destruct (build_spec fps (Z.of_nat (List.length (c :: clips)))
              (c :: clips) 1 1 [] (clock 0)) as (evs & Hw & ->).
  rewrite Hcues. cbn [bind emit app fst snd].
  eexists evs, _. split; [exact Hw|].
  reflexivity.
Qed.

(** A run that raises has written nothing. *)
Lemma main_raise_no_write (argv : list string) (fs : gmap string string)
    (evs : list event) (e : exn) :
  main argv fs = (evs, Raise e) -> writes evs = [].
Proof.
  unfold main.
  destruct argv as [|a [|p rest]];
    try (cbn; intros [= <- _]; reflexivity).
  destruct (fs !! p) as [content|];
    [|cbn; intros [= <- _]; reflexivity].
  destruct (xml_fromstring content) as [root|];
    [|cbn; intros [= <- _]; reflexivity].
  destruct (get_sequence_rate root) as [fps|e'];
    [|cbn; intros [= <- _]; reflexivity].
  cbn [lift bind app].
  destruct (gather_v1_clips root) as [|c clips];
    [cbn; intros [= <- _]; reflexivity|].
  destruct (build_spec fps (Z.of_nat (List.length (c :: clips)))
              (c :: clips) 1 1 [] (clock 0)) as (evs' & Hw & ->).
  destruct (cues_of fps 1 (c :: clips)) as [cues|e'].
  - cbn. intros H. discriminate H.
  - cbn. intros [= <- _]. exact Hw.
Qed.

(** A run that returns went through every step, and its events end
    with the one write and the summary line. *)
Lemma main_ok_inv (argv : list string) (fs : gmap string string)
    (evs : list event) :
  main argv fs = (evs, Ok tt) ->
  exists (a xml_path : string) (rest : list string) (content : string)
         (root : Element) (fps : float) (cues : list Cue)
         (pre : list event) (msg : string),
    argv = a :: xml_path :: rest /\
    fs !! xml_path = Some content /\
    xml_fromstring content = Some root /\
    get_sequence_rate root = Ok fps /\
    gather_v1_clips root <> [] /\
    cues_of fps 1 (gather_v1_clips root) = Ok cues /\
    writes pre = [] /\
    evs = (pre ++ [Write (out_path_of xml_path) (document cues);
                   Stderr msg])%list.
Proof.
  intros Hmain.
  destruct argv as [|a [|p rest]]; try (cbv [main raise emit bind lift] in Hmain; discriminate Hmain).
  pose proof Hmain as Hm. unfold main in Hm.
  destruct (fs !! p) as [content|] eqn:Hfs; [|cbv [raise emit bind lift] in Hm; discriminate Hm].
  destruct (xml_fromstring content) as [root|] eqn:Hxml;
    [|cbv [raise emit bind lift] in Hm; discriminate Hm].
  destruct (get_sequence_rate root) as [fps|e'] eqn:Hrate;
    [|cbv [raise emit bind lift] in Hm; discriminate Hm].
  cbn [lift bind app] in Hm.
  destruct (gather_v1_clips root) as [|c clips] eqn:Hg;
    [cbv [raise emit bind lift] in Hm; discriminate Hm|].
  destruct (build_spec fps (Z.of_nat (List.length (c :: clips)))
              (c :: clips) 1 1 [] (clock 0)) as (evs' & Hw & Hb).
  rewrite Hb in Hm.
  destruct (cues_of fps 1 (c :: clips)) as [cues|e'] eqn:Hc;
    [|cbv [raise emit bind lift] in Hm; discriminate Hm].
  cbn [bind emit app fst snd] in Hm.
  exists a, p, rest, content, root, fps, cues, evs'. eexists.
  rewrite Hg. repeat split; try assumption; try congruence.
  injection Hm as <-. reflexivity.
Qed.

Lemma cues_of_length (fps : float) (clips : list Clip) :
  forall (idx : Z) (cues : list Cue),
  cues_of fps idx clips = Ok cues ->
  List.length cues = List.length clips.
Proof.
  induction clips as [|c rest IH]; intros idx cues H; cbn in H.
  - injection H as <-. reflexivity.
  - destruct (cue_of fps idx c) as [q|e]; [|discriminate H].
    cbn in H.
    destruct (cues_of fps (idx + 1) rest) as [qs|e] eqn:Hqs;
      [|discriminate H].
    injection H as <-. cbn. f_equal. eapply IH, Hqs.
Qed.

(** C10. A run that ends in failure has opened no file for writing, so
    the file system is as it was: on a missing argument the run exits
    with status 1, on a document the parser rejects it raises the parse
    error, on an empty clip list it exits with status 2, and whatever
    it raises, no write happened. A run that returns has written once,
    as its last but one event, after the cues of all clips were built.
    And a run does return and write: when the input is read and parsed,
    the clip list is not empty and the cue of every clip builds, it
    returns having written the document of these cues to the output
    path, in one write that only the closing message follows. *)
Theorem main_writes_once_after_all_clips
    (argv : list string) (fs : gmap string string)
    (evs : list event) (r : result unit) :
  main argv fs = (evs, r) ->
  ((List.length argv < 2)%nat -> r = Raise (SystemExit 1)) /\
  (forall a p rest content,
      argv = a :: p :: rest -> fs !! p = Some content ->
      xml_fromstring content = None -> r = Raise ParseError) /\
  (forall a p rest content root fps,
      argv = a :: p :: rest -> fs !! p = Some content ->
      xml_fromstring content = Some root ->
      get_sequence_rate root = Ok fps ->
      gather_v1_clips root = [] -> r = Raise (SystemExit 2)) /\
  (forall e, r = Raise e -> writes evs = [] /\ fs_after evs fs = fs) /\
  (r = Ok tt ->
   exists (a xml_path : string) (rest : list string) (content : string)
          (root : Element) (fps : float) (cues : list Cue)
          (pre : list event) (msg : string),
     argv = a :: xml_path :: rest /\
     fs !! xml_path = Some content /\
     xml_fromstring content = Some root /\
     cues_of fps 1 (gather_v1_clips root) = Ok cues /\
     List.length cues = List.length (gather_v1_clips root) /\
     writes pre = [] /\
     evs = (pre ++ [Write (out_path_of xml_path) (document cues);
                    Stderr msg])%list /\
     writes evs = [(out_path_of xml_path, document cues)]) /\
  (forall a p rest content root fps cues,
      argv = a :: p :: rest -> fs !! p = Some content ->
      xml_fromstring content = Some root ->
      get_sequence_rate root = Ok fps ->
      gather_v1_clips root <> [] ->
      cues_of fps 1 (gather_v1_clips root) = Ok cues ->
      r = Ok tt /\
      writes evs = [(out_path_of p, document cues)] /\
      fs_after evs fs = <[out_path_of p := document cues]> fs /\
      exists (pre : list event) (msg : string),
        writes pre = [] /\
        evs = (pre ++ [Write (out_path_of p) (document cues);
                       Stderr msg])%list).
Proof.
  intros Hmain.
  split; [|split; [|split; [|split; [split|split]]]].
  - intros Hlen. rewrite (main_usage argv fs Hlen) in Hmain. congruence.
  - intros a p rest content -> Hfs Hxml.
    cbv [main] in Hmain. rewrite Hfs, Hxml in Hmain.
    cbv [raise] in Hmain. congruence.
  - intros a p rest content root fps -> Hfs Hxml Hrate Hg.
    cbv [main] in Hmain. rewrite Hfs, Hxml, Hrate in Hmain.
    cbn [lift bind app] in Hmain. rewrite Hg in Hmain.
    cbv [raise emit bind app] in Hmain. congruence.
  - subst r. eapply main_raise_no_write, Hmain.
  - subst r. apply fs_after_no_writes.
    eapply main_raise_no_write, Hmain.
  - intros ->.
    destruct (main_ok_inv argv fs evs Hmain)
      as (a & p & rest & content & root & fps & cues & pre & msg
          & -> & Hfs & Hxml & Hrate & Hne & Hcues & Hw & ->).
    exists a, p, rest, content, root, fps, cues, pre, msg.
    repeat split; try assumption.
    + eapply cues_of_length, Hcues.
    + rewrite writes_app, Hw. reflexivity.
  - intros a p rest content root fps cues -> Hfs Hxml Hrate Hne Hcues.
    destruct (main_success a p rest fs content root fps cues
                Hfs Hxml Hrate Hne Hcues) as (pre & msg & Hw & Hrun).
    rewrite Hrun in Hmain. injection Hmain as <- <-.
    split; [reflexivity|].
    split; [rewrite writes_app, Hw; reflexivity|].
    split; [|exists pre, msg; split; [exact Hw|reflexivity]].
    unfold fs_after. rewrite fold_left_app.
    fold (fs_after pre fs). rewrite (fs_after_no_writes pre fs Hw).
    reflexivity.
Qed.

(* ------------------------------------------------------------------- *)
(** ** Strings and paths *)

Lemma sapp_cons (x : ascii) (a b : string) :
  String x a +:+ b = String x (a +:+ b).
Proof. reflexivity. Qed.

Lemma sapp_nil_l (b : string) : "" +:+ b = b.
Proof. reflexivity. Qed.

Lemma sapp_assoc (a b c : string) : (a +:+ b) +:+ c = a +:+ (b +:+ c).
Proof.
  induction a as [|x a IH]; [reflexivity|].
  rewrite !sapp_cons. f_equal. exact IH.
Qed.

Lemma sapp_nil_r (a : string) : a +:+ "" = a.
Proof.
  induction a as [|x a IH]; [reflexivity|].
  rewrite sapp_cons. f_equal. exact IH.
Qed.

(** Evaluate appends whose left operand is a literal or a cons. *)
Ltac sapp := rewrite ?sapp_cons, ?sapp_nil_l.

Lemma rpartition_absent (ch : ascii) (s : string) :
  contains ch s = false -> rpartition ch s = None.
Proof.
  induction s as [|c s IH]; cbn; [reflexivity|].
  intros H. apply orb_false_iff in H as [Hc Hs].
  rewrite (IH Hs), Hc. reflexivity.
Qed.

Lemma rpartition_last (ch : ascii) (h t : string) :
  contains ch t = false ->
  rpartition ch (h +:+ String ch t) = Some (h, t).
Proof.
  intros Ht. induction h as [|c h IH]; sapp; cbn.
  - rewrite (rpartition_absent ch t Ht), Ascii.eqb_refl. reflexivity.
  - rewrite IH. reflexivity.
Qed.

Lemma rev_string_snoc (s : string) (c : ascii) :
  rev_string (s +:+ String c "") = String c (rev_string s).
Proof.
  induction s as [|x s IH]; sapp; cbn; [reflexivity|]. now rewrite IH.
Qed.

Lemma rstrip_char_snoc (ch c : ascii) (d : string) :
  c <> ch ->
  rstrip_char ch (d +:+ String c (String ch "")) = d +:+ String c "".
Proof.
  intros Hc. apply Ascii.eqb_neq in Hc.
  induction d as [|x d IH]; sapp; cbn.
  - rewrite Ascii.eqb_refl, Hc. reflexivity.
  - rewrite IH.
    destruct (d +:+ String c "") eqn:E; [|reflexivity].
    destruct d; discriminate E.
Qed.

Lemma all_char_snoc (ch c : ascii) (d t : string) :
  c <> ch -> all_char ch (d +:+ String c t) = false.
Proof.
  intros Hc. apply Ascii.eqb_neq in Hc.
  induction d as [|x d IH]; sapp; cbn.
  - now rewrite Hc.
  - rewrite IH. apply andb_false_r.
Qed.

Lemma path_join_dir (d : string) (c : ascii) (x : string) :
  c <> "/"%char -> startswith "/" x = false ->
  path_join (d +:+ String c "") x = (d +:+ String c "") +:+ "/" +:+ x.
Proof.
  intros Hc Hx. unfold path_join, endswith. rewrite Hx.
  rewrite rev_string_snoc.
  assert (Ht : truthy (d +:+ String c "") = true).
  { destruct d; reflexivity. }
  rewrite Ht. change (rev_string "/") with "/".
  cbn [startswith negb orb].
  apply Ascii.eqb_neq in Hc. rewrite Ascii.eqb_sym in Hc. rewrite Hc.
  reflexivity.
Qed.

(** The output path for a document [dir/stem.ext]: the file
    [timestamps_stem.srt] in [dir]. *)
Lemma out_path_of_dir_stem_ext (d : string) (c : ascii) (stem ext : string) :
  c <> "/"%char ->
  contains "/" stem = false -> contains "/" ext = false ->
  contains "." ext = false -> all_char "." stem = false ->
  out_path_of (d +:+ String c "" +:+ "/" +:+ stem +:+ "." +:+ ext)
  = d +:+ String c "" +:+ "/timestamps_" +:+ stem +:+ ".srt".
Proof.
  intros Hc Hs1 He1 He2 Hdots.
  assert (Hfile : contains "/" (stem +:+ "." +:+ ext) = false).
  { clear -Hs1 He1. induction stem as [|x stem IH]; sapp; cbn in *.
    - exact He1.
    - apply orb_false_iff in Hs1 as [-> Hs]. cbn. apply IH, Hs. }
  assert (Hsplit : rpartition "/" (d +:+ String c "" +:+ "/" +:+ stem +:+ "." +:+ ext)
                   = Some (d +:+ String c "", stem +:+ "." +:+ ext)).
  { rewrite <- (rpartition_last "/" _ _ Hfile).
    f_equal. rewrite !sapp_assoc. reflexivity. }
  unfold out_path_of, basename, split_last, dirname, splitext_root.
  rewrite Hsplit.
  rewrite (rpartition_absent "/" _ Hfile).
  replace (stem +:+ "." +:+ ext) with (stem +:+ String "." ext)
    by reflexivity.
  rewrite (rpartition_last "." stem ext He2), Hdots.
  replace ((d +:+ String c "") +:+ "/")
    with (d +:+ String c (String "/" ""))
    by (rewrite sapp_assoc; reflexivity).
  rewrite (all_char_snoc "/" c d _ Hc).
  rewrite (rstrip_char_snoc "/" c d Hc).
  rewrite sapp_nil_l.
  rewrite (path_join_dir d c _ Hc) by reflexivity.
  rewrite !sapp_assoc. reflexivity.
Qed.

(** For a document in the working directory the file is written
    there. *)
Lemma out_path_of_stem_ext (stem ext : string) :
  contains "/" stem = false -> contains "/" ext = false ->
  contains "." ext = false -> all_char "." stem = false ->
  out_path_of (stem +:+ "." +:+ ext) = "timestamps_" +:+ stem +:+ ".srt".
Proof.
  intros Hs1 He1 He2 Hdots.
  assert (Hfile : contains "/" (stem +:+ "." +:+ ext) = false).
  { clear -Hs1 He1. induction stem as [|x stem IH]; sapp; cbn in *.
    - exact He1.
    - apply orb_false_iff in Hs1 as [-> Hs]. cbn. apply IH, Hs. }
  unfold out_path_of, basename, split_last, dirname, splitext_root.
  rewrite (rpartition_absent "/" _ Hfile). cbv beta iota.
  rewrite (rpartition_absent "/" _ Hfile).
  replace (stem +:+ "." +:+ ext) with (stem +:+ String "." ext)
    by reflexivity.
  rewrite (rpartition_last "." stem ext He2), Hdots.
  reflexivity.
Qed.

(* ------------------------------------------------------------------- *)
(** ** The document *)

Lemma join_cue_lines (q : Cue) (rest : list string) :
  join LF (lines_of_cue q ++ rest) =
  str_of_int (index q) +:+ LF +:+ start_tc q +:+ " --> " +:+ end_tc q
  +:+ LF +:+ caption q +:+ LF
  +:+ match rest with
      | [] => ""
      | _ :: _ => LF +:+ join LF rest
      end.
Proof.
  unfold lines_of_cue, cue_lines. cbn [app join].
  destruct rest as [|r rest]; rewrite ?sapp_assoc; reflexivity.
Qed.

(** The document with one line feed added is the cue blocks one after
    the other. *)
Lemma document_blocks (cues : list Cue) :
  cues <> [] ->
  document cues +:+ LF = concat_blocks (cue_block <$> cues).
Proof.
  unfold document.
  induction cues as [|q cues IH]; intros Hne; [congruence|].
  cbn [flat_map fmap list_fmap concat_blocks].
  rewrite join_cue_lines.
  destruct cues as [|q' cues].
  - cbn [flat_map fmap list_fmap concat_blocks]. unfold cue_block.
    rewrite !sapp_assoc, !sapp_nil_r, ?sapp_nil_l. reflexivity.
  - assert (Hne' : q' :: cues <> []) by congruence.
    rewrite <- (IH Hne').
    destruct (flat_map lines_of_cue (q' :: cues)) as [|l ls] eqn:E;
      [discriminate E|].
    unfold cue_block. rewrite !sapp_assoc. reflexivity.
Qed.

Lemma cues_of_lookup (fps : float) (clips : list Clip) :
  forall (idx : Z) (cues : list Cue),
  cues_of fps idx clips = Ok cues ->
  forall (i : nat) (c : Clip),
  clips !! i = Some c ->
  exists q : Cue,
    cues !! i = Some q /\ cue_of fps (idx + Z.of_nat i) c = Ok q /\
    index q = idx + Z.of_nat i.
Proof.
  induction clips as [|c0 rest IH]; intros idx cues H i c Hi;
    [discriminate Hi|].
  cbn in H.
  destruct (cue_of fps idx c0) as [q0|e] eqn:Hq0; [|discriminate H].
  cbn in H.
  destruct (cues_of fps (idx + 1) rest) as [qs|e] eqn:Hqs;
    [|discriminate H].
  injection H as <-.
  destruct i as [|i]; cbn in Hi.
  - injection Hi as <-. exists q0. rewrite Z.add_0_r.
    repeat split; [exact Hq0|].
    unfold cue_of in Hq0.
    destruct (frames_to_tc_ms (start_frames c0) fps); [|discriminate Hq0].
    destruct (frames_to_tc_ms (end_frames c0) fps); [|discriminate Hq0].
    destruct (caption_of c0); [|discriminate Hq0].
    injection Hq0 as <-. reflexivity.
  - destruct (IH (idx + 1) qs Hqs i c Hi) as (q & Hq & Hc & Hidx).
    exists q. replace (idx + Z.of_nat (S i)) with (idx + 1 + Z.of_nat i)
      by lia.
    repeat split; assumption.
Qed.

(** C1, as amended. When the clip list is not empty and every cue
    builds, the run returns after one write: the file at the path
    joined from the directory of the input and
    [timestamps_<stem>.srt] then holds the document, whatever it held
    before. The document followed by one line feed is the
    concatenation, in clip order and numbered from 1, of the blocks
    [index, start --> end, caption, blank line], the arrow between
    spaces: the last block of the file lacks its final line feed. *)
Theorem main_writes_document
    (a xml_path : string) (rest : list string) (fs : gmap string string)
    (content : string) (root : Element) (fps : float) (cues : list Cue) :
  fs !! xml_path = Some content ->
  xml_fromstring content = Some root ->
  get_sequence_rate root = Ok fps ->
  gather_v1_clips root <> [] ->
  cues_of fps 1 (gather_v1_clips root) = Ok cues ->
  (main (a :: xml_path :: rest) fs).2 = Ok tt /\
  writes (main (a :: xml_path :: rest) fs).1
    = [(out_path_of xml_path, document cues)] /\
  fs_after (main (a :: xml_path :: rest) fs).1 fs
    = <[out_path_of xml_path := document cues]> fs /\
  document cues +:+ LF = concat_blocks (cue_block <$> cues) /\
  (forall (i : nat) (c : Clip),
      gather_v1_clips root !! i = Some c ->
      exists q : Cue,
        cues !! i = Some q /\ cue_of fps (1 + Z.of_nat i) c = Ok q /\
        index q = 1 + Z.of_nat i) /\
  (forall (d : string) (c : ascii) (stem ext : string),
      xml_path = d +:+ String c "" +:+ "/" +:+ stem +:+ "." +:+ ext ->
      c <> "/"%char ->
      contains "/" stem = false -> contains "/" ext = false ->
      contains "." ext = false -> all_char "." stem = false ->
      out_path_of xml_path
      = d +:+ String c "" +:+ "/timestamps_" +:+ stem +:+ ".srt") /\
  (forall stem ext : string,
      xml_path = stem +:+ "." +:+ ext ->
      contains "/" stem = false -> contains "/" ext = false ->
      contains "." ext = false -> all_char "." stem = false ->
      out_path_of xml_path = "timestamps_" +:+ stem +:+ ".srt").
Proof.
  intros Hfs Hxml Hrate Hne Hcues.
  destruct (main_success a xml_path rest fs content root fps cues
              Hfs Hxml Hrate Hne Hcues) as (pre & msg & Hw & ->).
  cbn [fst snd]. repeat split.
  - rewrite writes_app, Hw. reflexivity.
  - rewrite fs_after_app, (fs_after_no_writes pre fs Hw). reflexivity.
  - apply document_blocks. intros ->. cbn in Hcues.
    destruct (gather_v1_clips root); [congruence|].
    cbn in Hcues. destruct (cue_of fps 1 c); [|discriminate Hcues].
    cbn in Hcues. destruct (cues_of fps (1 + 1) l); discriminate Hcues.
  - intros i c Hi. eapply cues_of_lookup; eassumption.
  - intros d c stem ext -> Hc H1 H2 H3 H4.
    apply out_path_of_dir_stem_ext; assumption.
  - intros stem ext -> H1 H2 H3 H4.
    apply out_path_of_stem_ext; assumption.
Qed.

(* ------------------------------------------------------------------- *)
(** ** Captions *)

Lemma truthy_app_cons (a : string) (c : ascii) (b : string) :
  truthy (a +:+ String c b) = true.
Proof. destruct a; reflexivity. Qed.

Lemma query_tags_truthy (ts : list string) (p raw : string) :
  query_tags ts p = Some raw -> truthy raw = true.
Proof.
  induction ts as [|t ts IH]; cbn [query_tags]; [discriminate|].
  set (out := answer t p).
  destruct (truthy out) eqn:Ht; destruct (endswith ":" out);
    cbn [andb negb]; try exact IH.
  destruct (degenerate out); [exact IH|].
  intros [= <-]. exact Ht.
Qed.

Lemma stamp_truthy (y mo d H Mi : string) : truthy (stamp y mo d H Mi) = true.
Proof. unfold stamp. rewrite sapp_cons. apply truthy_app_cons. Qed.

Lemma filename_fallback_truthy (fn raw : string) :
  filename_fallback fn = Some raw -> truthy raw = true.
Proof.
  unfold filename_fallback.
  destruct (search pattern_ymd fn) as [c|].
  - destruct (groups 6 c) as [[|y [|mo [|d [|H [|Mi [|S [|? ?]]]]]]]|];
      try discriminate.
    intros [= <-]. apply stamp_truthy.
  - destruct (search pattern_mdy fn) as [c|]; [|discriminate].
    destruct (groups 6 c) as [[|y [|mo [|d [|H [|Mi [|S [|? ?]]]]]]]|];
      try discriminate.
    intros [= <-]. apply stamp_truthy.
Qed.

(** The resolver never returns the empty string. *)
Lemma run_exiftool_truthy (p raw : string) :
  run_exiftool p = Some raw -> truthy raw = true.
Proof.
  unfold run_exiftool.
  destruct (query_tags tags p) as [out|] eqn:Hq.
  - intros [= <-]. eapply query_tags_truthy, Hq.
  - apply filename_fallback_truthy.
Qed.

(** Nor does the normalizer. *)
Lemma to_local_no_seconds_truthy (raw n : string) :
  to_local_no_seconds raw = Ok (Some n) -> truthy n = true.
Proof.
  unfold to_local_no_seconds.
  destruct (negb (truthy raw)); [discriminate|].
  destruct (first_parse raw fmts) as [dt|]; [|discriminate].
  destruct (astimezone _ _ _) as [l|e]; [|discriminate].
  cbn. intros [= <-]. unfold strftime_ymd_hm.
  rewrite sapp_cons. apply truthy_app_cons.
Qed.

Lemma cues_of_total (fps : float) (clips : list Clip) :
  (forall c, In c clips -> exists s e cap,
      frames_to_tc_ms (start_frames c) fps = Ok s /\
      frames_to_tc_ms (end_frames c) fps = Ok e /\
      caption_of c = Ok cap) ->
  forall idx : Z, exists cues : list Cue, cues_of fps idx clips = Ok cues.
Proof.
  induction clips as [|c rest IH]; intros Hall idx.
  - exists []. reflexivity.
  - destruct (Hall c (or_introl eq_refl)) as (s & e & cap & Hs & He & Hc).
    destruct (IH (fun c' H => Hall c' (or_intror H)) (idx + 1))
      as (qs & Hqs).
    eexists. cbn. unfold cue_of. rewrite Hs, He, Hc. cbn.
    rewrite Hqs. reflexivity.
Qed.

Lemma cue_of_caption (fps : float) (idx : Z) (c : Clip) (q : Cue) :
  cue_of fps idx c = Ok q -> caption_of c = Ok (caption q).
Proof.
  unfold cue_of.
  destruct (frames_to_tc_ms (start_frames c) fps); [|discriminate].
  destruct (frames_to_tc_ms (end_frames c) fps); [|discriminate].
  destruct (caption_of c); [|discriminate].
  intros [= <-]. reflexivity.
Qed.

(** X19. The caption of a clip: the marker and the display name when
    the resolver finds nothing; the raw string when the resolver finds
    one that the normalizer does not recognise; the normalized string
    otherwise. The caption step raises only when the normalizer itself
    raises: a run over clips whose time codes convert and whose
    timestamps the normalizer answers, with a string or with none,
    writes one cue per clip, with these captions. *)
Theorem caption_of_fallbacks (c : Clip) :
  (run_exiftool (path c) = None ->
   caption_of c = Ok ("[NO-DATE] " +:+ name c)) /\
  (forall raw : string,
      run_exiftool (path c) = Some raw ->
      to_local_no_seconds raw = Ok None ->
      caption_of c = Ok raw) /\
  (forall raw n : string,
      run_exiftool (path c) = Some raw ->
      to_local_no_seconds raw = Ok (Some n) ->
      caption_of c = Ok n) /\
  (forall e : exn,
      caption_of c = Raise e ->
      exists raw : string,
        run_exiftool (path c) = Some raw /\
        to_local_no_seconds raw = Raise e) /\
  (forall (a xml_path : string) (rest : list string)
          (fs : gmap string string) (content : string) (root : Element)
          (fps : float),
      fs !! xml_path = Some content ->
      xml_fromstring content = Some root ->
      get_sequence_rate root = Ok fps ->
      gather_v1_clips root <> [] ->
      (forall c' : Clip, In c' (gather_v1_clips root) ->
         (exists s e : string,
            frames_to_tc_ms (start_frames c') fps = Ok s /\
            frames_to_tc_ms (end_frames c') fps = Ok e) /\
         (forall raw : string,
            run_exiftool (path c') = Some raw ->
            exists o, to_local_no_seconds raw = Ok o)) ->
      exists cues : list Cue,
        (main (a :: xml_path :: rest) fs).2 = Ok tt /\
        writes (main (a :: xml_path :: rest) fs).1
          = [(out_path_of xml_path, document cues)] /\
        List.length cues = List.length (gather_v1_clips root) /\
        (forall (i : nat) (c' : Clip),
            gather_v1_clips root !! i = Some c' ->
            exists q : Cue,
              cues !! i = Some q /\ caption_of c' = Ok (caption q))).
Proof.
  assert (Hcases : forall c' : Clip,
    match run_exiftool (path c') with
    | None => caption_of c' = Ok ("[NO-DATE] " +:+ name c')
    | Some raw =>
        caption_of c' =
        match to_local_no_seconds raw with
        | Ok None => Ok raw
        | Ok (Some n) => Ok n
        | Raise e => Raise e
        end
    end).
  { intros c'. unfold caption_of.
    destruct (run_exiftool (path c')) as [raw|] eqn:Hr; [|reflexivity].
    cbn [truthy_opt or_empty]. rewrite (run_exiftool_truthy _ _ Hr).
    cbn [negb].
    destruct (to_local_no_seconds raw) as [[n|]|e] eqn:Hn;
      cbn [rbind truthy_opt or_empty]; try reflexivity.
    rewrite (to_local_no_seconds_truthy _ _ Hn). reflexivity. }
  repeat split.
  - intros Hr. specialize (Hcases c). rewrite Hr in Hcases. exact Hcases.
  - intros raw Hr Hn. specialize (Hcases c).
    rewrite Hr, Hn in Hcases. exact Hcases.
  - intros raw n Hr Hn. specialize (Hcases c).
    rewrite Hr, Hn in Hcases. exact Hcases.
  - intros e He. specialize (Hcases c).
    destruct (run_exiftool (path c)) as [raw|]; [|congruence].
    exists raw. split; [reflexivity|].
    rewrite He in Hcases.
    destruct (to_local_no_seconds raw) as [[n|]|e']; congruence.
  - intros a xml_path rest fs content root fps Hfs Hxml Hrate Hne Hall.
    destruct (cues_of_total fps (gather_v1_clips root)) with (idx := 1)
      as (cues & Hcues).
    { intros c' Hin. destruct (Hall c' Hin) as ((s & e & Hs & He) & Hn).
      specialize (Hcases c').
      destruct (run_exiftool (path c')) as [raw|].
      - destruct (Hn raw eq_refl) as (o & Ho). rewrite Ho in Hcases.
        destruct o as [n|]; eauto 6.
      - eauto 6. }
    exists cues.
    destruct (main_writes_document a xml_path rest fs content root fps
                cues Hfs Hxml Hrate Hne Hcues)
      as (Hok & Hw & _ & _ & Hlook & _).
    repeat split; try assumption.
    + eapply cues_of_length, Hcues.
    + intros i c' Hi. destruct (Hlook i c' Hi) as (q & Hq & Hcue & _).
      exists q. split; [exact Hq|]. eapply cue_of_caption, Hcue.
Qed.

(* ------------------------------------------------------------------- *)
(** ** The metadata chain *)

Lemma degenerate_startswith (out : string) :
  degenerate out = startswith "0000" out.
Proof.
  unfold degenerate.
  destruct (startswith "0000" out) eqn:Hs; [reflexivity|].
  cbn [orb].
  destruct (String.eqb_spec out "0000:00:00 00:00:00") as [->|_];
    [discriminate Hs|].
  destruct (String.eqb_spec out "0000-00-00 00:00:00") as [->|_];
    [discriminate Hs|reflexivity].
Qed.

Lemma accepted_iff (out : string) :
  accepted out = true <->
  out <> "" /\ endswith ":" out = false /\ startswith "0000" out = false.
Proof.
  unfold accepted, truthy. rewrite degenerate_startswith.
  destruct (String.eqb_spec out "") as [He|He],
    (endswith ":" out), (startswith "0000" out); cbn; split;
    try discriminate; try (intros (H1 & H2 & H3); congruence).
  intros _. repeat split. exact He.
Qed.

Lemma query_tags_cons (t : string) (ts : list string) (p : string) :
  query_tags (t :: ts) p =
  if accepted (answer t p) then Some (answer t p) else query_tags ts p.
Proof.
  cbn [query_tags]. unfold accepted.
  destruct (truthy (answer t p)), (endswith ":" (answer t p)),
    (degenerate (answer t p)); reflexivity.
Qed.

Lemma query_tags_skip (pre post : list string) (p : string) :
  (forall t', In t' pre -> accepted (answer t' p) = false) ->
  query_tags (pre ++ post) p = query_tags post p.
Proof.
  induction pre as [|t pre IH]; intros Hpre; [reflexivity|].
  rewrite <- app_comm_cons, query_tags_cons.
  rewrite (Hpre t (or_introl eq_refl)).
  apply IH. intros t' Hin. apply Hpre. right. exact Hin.
Qed.

(** C3, as amended. At every position of the chain the answer is
    returned, and the later fields are not asked, exactly when it is
    not empty, does not end in a colon and does not start with [0000];
    any other answer passes the turn to the next field. *)
Theorem query_tags_accepts
    (pre : list string) (t : string) (post : list string) (p : string) :
  (forall t', In t' pre -> accepted (answer t' p) = false) ->
  (accepted (answer t p) = true <->
     answer t p <> "" /\ endswith ":" (answer t p) = false
     /\ startswith "0000" (answer t p) = false) /\
  (accepted (answer t p) = true ->
     query_tags (pre ++ t :: post) p = Some (answer t p)) /\
  (accepted (answer t p) = false ->
     query_tags (pre ++ t :: post) p = query_tags post p) /\
  (tags = (pre ++ t :: post)%list -> accepted (answer t p) = true ->
     run_exiftool p = Some (answer t p)).
Proof.
  intros Hpre. split; [apply accepted_iff|].
  assert (Hq : query_tags (pre ++ t :: post) p =
               if accepted (answer t p) then Some (answer t p)
               else query_tags post p).
  { rewrite (query_tags_skip pre (t :: post) p Hpre).
    apply query_tags_cons. }
  repeat split.
  - intros Ha. rewrite Hq, Ha. reflexivity.
  - intros Ha. rewrite Hq, Ha. reflexivity.
  - intros Htags Ha. unfold run_exiftool. rewrite Htags, Hq, Ha.
    reflexivity.
Qed.

(* ------------------------------------------------------------------- *)
(** ** The clips of the first video track *)

Lemma insert_clip_In (c x : Clip) (l : list Clip) :
  In x (insert_clip c l) <-> x = c \/ In x l.
Proof.
  induction l as [|y l IH]; cbn.
  - intuition congruence.
  - destruct (start_frames c <=? start_frames y); cbn.
    + intuition congruence.
    + rewrite IH. intuition congruence.
Qed.

Lemma sort_clips_In (x : Clip) (l : list Clip) :
  In x (sort_clips l) <-> In x l.
Proof.
  induction l as [|c l IH]; cbn; [tauto|].
  rewrite insert_clip_In, IH. intuition congruence.
Qed.

Lemma In_omap {A B : Type} (f : A -> option B) (l : list A) (y : B) :
  In y (omap f l) <-> exists x, In x l /\ f x = Some y.
Proof.
  induction l as [|a l IH]; cbn.
  - split; [tauto|]. intros (x & [] & _).
  - destruct (f a) as [b|] eqn:Hfa; cbn; rewrite IH.
    + split.
      * intros [<-|(x & Hx & Hf)]; [exists a; auto|exists x; auto].
      * intros (x & [<-|Hx] & Hf); [left; congruence|right; eauto].
    + split.
      * intros (x & Hx & Hf). exists x; auto.
      * intros (x & [<-|Hx] & Hf); [congruence|eauto].
Qed.

Lemma strip_empty : strip "" = "".
Proof. reflexivity. Qed.

Lemma switched_off_iff (ci : Element) :
  switched_off ci = true <->
  exists e : string, findtext "enabled" ci = Some e /\ strip e = "FALSE".
Proof.
  unfold switched_off.
  destruct (findtext "enabled" ci) as [e|]; cbn [truthy_opt or_empty].
  - rewrite andb_true_iff, String.eqb_eq. split.
    + intros [_ He]. exists e. split; [reflexivity|exact He].
    + intros (e' & [= <-] & He). split; [|exact He].
      destruct e; [discriminate He|reflexivity].
  - cbn. split; [discriminate|]. intros (e & He & _). discriminate He.
Qed.

(** C2, as amended. A clip item of the first video track is skipped
    for its enabled flag exactly when the flag, with the white space
    around it removed, is [FALSE]; with any other flag (none, [TRUE],
    [false], the empty string) it yields the placement read from its
    start, end and file reference, and the clips gathered are the
    placements of the items not skipped. *)
Theorem clip_skipped_iff_flag_strips_to_FALSE
    (root video v1 : Element) (others : list Element) (ci : Element) :
  find_desc "sequence" ["media"; "video"] root = Some video ->
  findall "track" video = v1 :: others ->
  In ci (findall "clipitem" v1) ->
  (switched_off ci = true <->
     exists e : string,
       findtext "enabled" ci = Some e /\ strip e = "FALSE") /\
  (switched_off ci = true -> clip_of_item ci = None) /\
  (switched_off ci = false ->
     clip_of_item ci = placement ci /\
     forall c : Clip, placement ci = Some c -> In c (gather_v1_clips root)) /\
  (findtext "enabled" ci = None -> switched_off ci = false) /\
  (forall e : string,
      findtext "enabled" ci = Some e -> strip e <> "FALSE" ->
      switched_off ci = false) /\
  (forall c : Clip,
      In c (gather_v1_clips root) <->
      exists ci' : Element,
        In ci' (findall "clipitem" v1) /\ switched_off ci' = false /\
        placement ci' = Some c).
Proof.
  intros Hvideo Htracks Hin.
  assert (Hg : forall c : Clip,
             In c (gather_v1_clips root) <->
             exists ci' : Element,
               In ci' (findall "clipitem" v1) /\ switched_off ci' = false /\
               placement ci' = Some c).
  { intros c. unfold gather_v1_clips. rewrite Hvideo, Htracks.
    rewrite sort_clips_In, In_omap. unfold clip_of_item.
    split.
    - intros (x & Hx & Hc). exists x.
      destruct (switched_off x); [discriminate Hc|]. auto.
    - intros (x & Hx & Hoff & Hc). exists x. rewrite Hoff. auto. }
  split; [apply switched_off_iff|].
  split; [intros H; unfold clip_of_item; rewrite H; reflexivity|].
  split.
  { intros Hoff. split; [unfold clip_of_item; rewrite Hoff; reflexivity|].
    intros c Hc. apply Hg. exists ci. auto. }
  split.
  { intros Hnone. unfold switched_off. rewrite Hnone. reflexivity. }
  split; [|exact Hg].
  intros e He Hne. destruct (switched_off ci) eqn:Hoff; [|reflexivity].
  apply switched_off_iff in Hoff as (e' & He' & Hs). congruence.
Qed.

(** For every placement the display name is the name of the file
    reference, or empty: the name of the clip item is not read. *)
Lemma placement_name (ci : Element) (c : Clip) :
  placement ci = Some c ->
  exists f : Element,
    find_desc "file" [] ci = Some f /\
    name c = or_empty (findtext "name" f).
Proof.
  unfold placement.
  destruct (find_desc "file" [] ci) as [f|].
  - intros H. exists f. split; [reflexivity|].
    destruct (findtext "start" ci), (findtext "end" ci),
      (findtext "pathurl" f); try discriminate H.
    destruct (int s), (int s0); try discriminate H.
    injection H as <-. reflexivity.
  - destruct (findtext "start" ci), (findtext "end" ci); discriminate.
Qed.

(* ------------------------------------------------------------------- *)
(** ** The file name patterns *)

Lemma substring_0_0 (s : string) : String.substring 0 0 s = "".
Proof. destruct s; reflexivity. Qed.

Lemma length_sapp (a b : string) :
  String.length (a +:+ b) = (String.length a + String.length b)%nat.
Proof.
  induction a as [|x a IH]; [reflexivity|].
  rewrite sapp_cons. cbn. f_equal. exact IH.
Qed.

Lemma consumed_app (pre rest : string) : consumed (pre +:+ rest) rest = pre.
Proof.
  unfold consumed. rewrite length_sapp.
  replace (String.length pre + String.length rest - String.length rest)%nat
    with (String.length pre) by lia.
  induction pre as [|x pre IH]; [apply substring_0_0|].
  rewrite sapp_cons. cbn. f_equal. exact IH.
Qed.

Lemma consumed_2 (a b : ascii) (r : string) :
  consumed (String a (String b r)) r = String a (String b "").
Proof. exact (consumed_app (String a (String b "")) r). Qed.

Lemma consumed_4 (a b c d : ascii) (r : string) :
  consumed (String a (String b (String c (String d r)))) r
  = String a (String b (String c (String d ""))).
Proof.
  exact (consumed_app (String a (String b (String c (String d "")))) r).
Qed.

(** One step of a match against a symbolic string: the next character
    exists and is in the class, or the match fails. *)
Ltac match_char H :=
  match type of H with
  | context [match ?s with EmptyString => _ | String _ _ => _ end] =>
      destruct s as [|? ?]; [discriminate H|]
  end;
  match type of H with
  | context [if ?b then _ else _] =>
      let E := fresh "Hc" in
      destruct b eqn:E; [|discriminate H]
  end.

Lemma search_sound (r : re) (s : string) (c : captures) :
  search r s = Some c ->
  exists pre s' rest : string,
    s = pre +:+ s' /\ rmatch r s' = Some (rest, c).
Proof.
  induction s as [|a s IH]; cbn [search].
  - destruct (rmatch r "") as [[rest c']|] eqn:Hm; [|discriminate].
    intros [= <-]. exists "", "", rest. split; [reflexivity|exact Hm].
  - destruct (rmatch r (String a s)) as [[rest c']|] eqn:Hm.
    + intros [= <-]. exists "", (String a s), rest.
      split; [reflexivity|exact Hm].
    + intros H. destruct (IH H) as (pre & s' & rest & -> & Hm').
      exists (String a pre), s', rest. split; [reflexivity|exact Hm'].
Qed.

Lemma rmatch_pattern_ymd (s rest : string) (c : captures) :
  rmatch pattern_ymd s = Some (rest, c) ->
  exists (y mo d H Mi S : string) (s1 s2 s3 s4 s5 : ascii),
    s = y +:+ String s1 mo +:+ String s2 d +:+ String s3 H
        +:+ String s4 Mi +:+ String s5 S +:+ rest /\
    groups 6 c = Some [y; mo; d; H; Mi; S] /\
    year_field y = true /\ two_digit_field mo = true /\
    two_digit_field d = true /\ two_digit_field H = true /\
    two_digit_field Mi = true /\ two_digit_field S = true /\
    mem_char "-_" s1 = true /\ mem_char "-_" s2 = true /\
    mem_char " _" s3 = true /\ mem_char ":.-" s4 = true /\
    mem_char ":.-" s5 = true.
Proof.
  unfold rmatch, pattern_ymd, year_20, two_digits, set, lit, digit.
  cbn [seq run]. intros H.
  do 19 match_char H.
  injection H as <- <-.
  rewrite !consumed_2, consumed_4.
  apply Ascii.eqb_eq in Hc, Hc0. subst.
  exists (String "2" (String "0" (String a1 (String a2 "")))),
    (String a4 (String a5 "")), (String a7 (String a8 "")),
    (String a10 (String a11 "")), (String a13 (String a14 "")),
    (String a16 (String a17 "")), a3, a6, a9, a12, a15.
  split; [reflexivity|]. split; [reflexivity|].
  cbn [year_field two_digit_field]. rewrite Hc1, Hc2, Hc4, Hc5, Hc7, Hc8,
    Hc10, Hc11, Hc13, Hc14, Hc16, Hc17.
  repeat split; assumption.
Qed.

Lemma mem_char_dash (a : ascii) : mem_char "-" a = true -> a = "-"%char.
Proof.
  cbn. rewrite orb_false_r. apply Ascii.eqb_eq.
Qed.

Lemma rmatch_pattern_mdy (s rest : string) (c : captures) :
  rmatch pattern_mdy s = Some (rest, c) ->
  exists (mo d y H Mi S : string) (s3 : ascii),
    s = mo +:+ String "-" d +:+ String "-" y +:+ String s3 H
        +:+ String "-" Mi +:+ String "-" S +:+ rest /\
    groups 6 c = Some [mo; d; y; H; Mi; S] /\
    year_field y = true /\ two_digit_field mo = true /\
    two_digit_field d = true /\ two_digit_field H = true /\
    two_digit_field Mi = true /\ two_digit_field S = true /\
    mem_char " _" s3 = true.
Proof.
  unfold rmatch, pattern_mdy, year_20, two_digits, set, lit, digit.
  cbn [seq run]. intros H.
  do 19 match_char H.
  injection H as <- <-.
  rewrite !consumed_2, consumed_4.
  apply Ascii.eqb_eq in Hc1, Hc4, Hc5, Hc6.
  apply mem_char_dash in Hc12, Hc15. subst.
  exists (String a (String a0 "")), (String a2 (String a3 "")),
    (String "2" (String "0" (String a7 (String a8 "")))),
    (String a10 (String a11 "")), (String a13 (String a14 "")),
    (String a16 (String a17 "")), a9.
  split; [reflexivity|]. split; [reflexivity|].
  cbn [year_field two_digit_field]. rewrite Hc, Hc0, Hc2, Hc3, Hc7, Hc8,
    Hc10, Hc11, Hc13, Hc14, Hc16, Hc17.
  repeat split; assumption.
Qed.

(** C7. When no metadata field is accepted, the file name decides. If
    the year-first pattern occurs in the base name, the result is
    built from its leftmost occurrence, whether or not the month-first
    pattern occurs too; the month-first pattern is consulted only when
    the year-first one does not occur. Either way the result is
    [YYYY-MM-DD HH:MM:00+0000]: the matched hour and minutes, the
    seconds replaced by [00], and for the month-first pattern the date
    fields put in year, month, day order. *)
Theorem filename_fallback_order (p : string) :
  query_tags tags p = None ->
  (forall c : captures,
      search pattern_ymd (split_last "/" p) = Some c ->
      exists (pre post y mo d H Mi S : string) (s1 s2 s3 s4 s5 : ascii),
        split_last "/" p
        = pre +:+ y +:+ String s1 mo +:+ String s2 d +:+ String s3 H
          +:+ String s4 Mi +:+ String s5 S +:+ post /\
        year_field y = true /\ two_digit_field mo = true /\
        two_digit_field d = true /\ two_digit_field H = true /\
        two_digit_field Mi = true /\ two_digit_field S = true /\
        mem_char "-_" s1 = true /\ mem_char "-_" s2 = true /\
        mem_char " _" s3 = true /\ mem_char ":.-" s4 = true /\
        mem_char ":.-" s5 = true /\
        run_exiftool p
        = Some (y +:+ "-" +:+ mo +:+ "-" +:+ d +:+ " " +:+ H +:+ ":"
                +:+ Mi +:+ ":00+0000")) /\
  (search pattern_ymd (split_last "/" p) = None ->
   forall c : captures,
      search pattern_mdy (split_last "/" p) = Some c ->
      exists (pre post mo d y H Mi S : string) (s3 : ascii),
        split_last "/" p
        = pre +:+ mo +:+ String "-" d +:+ String "-" y +:+ String s3 H
          +:+ String "-" Mi +:+ String "-" S +:+ post /\
        year_field y = true /\ two_digit_field mo = true /\
        two_digit_field d = true /\ two_digit_field H = true /\
        two_digit_field Mi = true /\ two_digit_field S = true /\
        mem_char " _" s3 = true /\
        run_exiftool p
        = Some (y +:+ "-" +:+ mo +:+ "-" +:+ d +:+ " " +:+ H +:+ ":"
                +:+ Mi +:+ ":00+0000")) /\
  (search pattern_ymd (split_last "/" p) = None ->
   search pattern_mdy (split_last "/" p) = None ->
   run_exiftool p = None).
Proof.
  intros Hq. unfold run_exiftool, filename_fallback. rewrite Hq.
  repeat split.
  - intros c Hs. rewrite Hs.
    destruct (search_sound _ _ _ Hs) as (pre & s' & rest & Hfn & Hm).
    destruct (rmatch_pattern_ymd _ _ _ Hm)
      as (y & mo & d & H & Mi & S & s1 & s2 & s3 & s4 & s5 & -> & Hg
          & Hy & Hmo & Hd & HH & HMi & HS & H1 & H2 & H3 & H4 & H5).
    rewrite Hg.
    exists pre, rest, y, mo, d, H, Mi, S, s1, s2, s3, s4, s5.
    repeat split; assumption.
  - intros Hnone c Hs. rewrite Hnone, Hs.
    destruct (search_sound _ _ _ Hs) as (pre & s' & rest & Hfn & Hm).
    destruct (rmatch_pattern_mdy _ _ _ Hm)
      as (mo & d & y & H & Mi & S & s3 & -> & Hg
          & Hy & Hmo & Hd & HH & HMi & HS & H3).
    rewrite Hg.
    exists pre, rest, mo, d, y, H, Mi, S, s3.
    repeat split; assumption.
  - intros Ha Hb. rewrite Ha, Hb. reflexivity.
Qed.

(* ------------------------------------------------------------------- *)
(** ** Decimal digits and padding *)

(** Linear arithmetic with quotients and remainders by constants. *)
Ltac zdiv := Z.to_euclidean_division_equations; lia.

Lemma isdigit_digit_char (d : Z) :
  0 <= d <= 9 -> isdigit (digit_char d) = true.
Proof.
  intros Hd.
  assert (H : d = 0 \/ d = 1 \/ d = 2 \/ d = 3 \/ d = 4 \/ d = 5 \/ d = 6
              \/ d = 7 \/ d = 8 \/ d = 9) by lia.
  repeat (destruct H as [->|H]; [reflexivity|]). subst d. reflexivity.
Qed.

Lemma digits_fuel_acc (f : nat) :
  forall (n : Z) (acc : string),
  digits_fuel f n acc = digits_fuel f n "" +:+ acc.
Proof.
  induction f as [|f IH]; intros n acc; cbn [digits_fuel]; [reflexivity|].
  destruct (n <? 10); [reflexivity|].
  rewrite (IH (n / 10) (String _ acc)), (IH (n / 10) (String _ "")).
  rewrite sapp_assoc. reflexivity.
Qed.

Lemma digits_fuel_stable (f : nat) :
  forall (g : nat) (n : Z) (acc : string),
  0 <= n < 2 ^ Z.of_nat f -> n < 2 ^ Z.of_nat g ->
  (1 <= f)%nat -> (1 <= g)%nat ->
  digits_fuel f n acc = digits_fuel g n acc.
Proof.
  induction f as [|f IH]; intros g n acc Hf Hg Hf1 Hg1; [lia|].
  destruct g as [|g]; [lia|].
  cbn [digits_fuel].
  destruct (Z.ltb_spec n 10) as [Hlt|Hge]; [reflexivity|].
  rewrite Nat2Z.inj_succ, Z.pow_succ_r in Hf, Hg by lia.
  assert (Hf3 : (1 <= f)%nat).
  { destruct f; [cbn in Hf; lia|lia]. }
  assert (Hg3 : (1 <= g)%nat).
  { destruct g; [cbn in Hg; lia|lia]. }
  apply IH; try assumption.
  - split; [apply Z.div_pos; lia|].
    apply Z.div_lt_upper_bound; lia.
  - apply Z.div_lt_upper_bound; lia.
Qed.

Lemma digits_fuel_enough (n : Z) :
  0 <= n -> n < 2 ^ Z.of_nat (S (Z.to_nat (Z.log2 n))).
Proof.
  intros Hn. rewrite Nat2Z.inj_succ, Z2Nat.id by apply Z.log2_nonneg.
  destruct (Z.eq_dec n 0) as [->|Hnz]; [reflexivity|].
  apply Z.log2_spec. lia.
Qed.

Lemma digits_lt_10 (n : Z) :
  0 <= n < 10 -> digits n = String (digit_char n) "".
Proof.
  intros Hn. unfold digits. cbn [digits_fuel].
  destruct (Z.ltb_spec n 10); [|lia].
  rewrite Z.mod_small by lia. reflexivity.
Qed.

Lemma digits_ge_10 (n : Z) :
  10 <= n ->
  digits n = digits (n / 10) +:+ String (digit_char (n mod 10)) "".
Proof.
  intros Hn. unfold digits at 1. cbn [digits_fuel].
  destruct (Z.ltb_spec n 10); [lia|].
  rewrite digits_fuel_acc. f_equal. unfold digits.
  assert (Hlog : 3 <= Z.log2 n).
  { apply Z.log2_le_pow2; lia. }
  assert (Hq : 0 <= n / 10) by (apply Z.div_pos; lia).
  apply digits_fuel_stable.
  - split; [exact Hq|].
    rewrite Z2Nat.id by lia.
    apply Z.div_lt_upper_bound; [lia|].
    pose proof (Z.log2_spec n ltac:(lia)) as [_ Hup].
    rewrite Z.pow_succ_r in Hup by lia. lia.
  - apply digits_fuel_enough, Hq.
  - lia.
  - lia.
Qed.

(** Two digits for a number below a hundred. *)
Lemma pad2_small (n : Z) :
  0 <= n < 100 ->
  fmt_0d 2 n = String (digit_char (n / 10)) (String (digit_char (n mod 10)) "").
Proof.
  intros Hn. unfold fmt_0d. destruct (Z.ltb_spec n 0); [lia|].
  destruct (Z_lt_le_dec n 10) as [Hlt|Hge].
  - rewrite digits_lt_10 by lia.
    rewrite Z.div_small, Z.mod_small by lia. reflexivity.
  - rewrite digits_ge_10 by lia.
    rewrite (digits_lt_10 (n / 10)) by zdiv.
    reflexivity.
Qed.

(** Four digits for a number below ten thousand. *)
Lemma pad4_small (n : Z) :
  0 <= n < 10000 ->
  fmt_0d 4 n
  = String (digit_char (n / 1000))
      (String (digit_char (n / 100 mod 10))
         (String (digit_char (n / 10 mod 10))
            (String (digit_char (n mod 10)) ""))).
Proof.
  intros Hn. unfold fmt_0d. destruct (Z.ltb_spec n 0); [lia|].
  destruct (Z_lt_le_dec n 10) as [H1|H1].
  { rewrite digits_lt_10 by lia.
    rewrite !Z.div_small, !Z.mod_small by lia. reflexivity. }
  rewrite digits_ge_10 by lia.
  destruct (Z_lt_le_dec n 100) as [H2|H2].
  { rewrite digits_lt_10 by zdiv.
    replace (n / 1000) with 0 by zdiv.
    replace (n / 100) with 0 by zdiv.
    rewrite (Z.mod_small (n / 10)) by zdiv. reflexivity. }
  rewrite (digits_ge_10 (n / 10)) by zdiv.
  rewrite Z.div_div by lia. change (10 * 10) with 100.
  destruct (Z_lt_le_dec n 1000) as [H3|H3].
  { rewrite digits_lt_10 by zdiv.
    replace (n / 1000) with 0 by zdiv.
    rewrite (Z.mod_small (n / 100)) by zdiv. reflexivity. }
  rewrite (digits_ge_10 (n / 100)) by zdiv.
  rewrite Z.div_div by lia. change (100 * 10) with 1000.
  rewrite (digits_lt_10 (n / 1000)) by zdiv.
  reflexivity.
Qed.

(* ------------------------------------------------------------------- *)
(** ** The calendar *)

Lemma month_day_table :
  forallb (fun k => month_day_ok (Z.of_nat k) false)
          (List.seq 0 365) = true /\
  forallb (fun k => month_day_ok (Z.of_nat k) true)
          (List.seq 0 366) = true.
Proof. split; vm_compute; reflexivity. Qed.

Lemma month_day_spec (n : Z) (leapyear : bool) :
  0 <= n < 365 + (if leapyear then 1 else 0) ->
  month_day_ok n leapyear = true.
Proof.
  intros Hn. destruct month_day_table as [Hf Ht].
  rewrite <- (Z2Nat.id n) by lia.
  destruct leapyear.
  - rewrite forallb_forall in Ht. apply Ht, in_seq. lia.
  - rewrite forallb_forall in Hf. apply Hf, in_seq. lia.
Qed.

Lemma ord2ymd_spec (n : Z) :
  1 <= n <= MAXORDINAL ->
  valid_date (ord2ymd n).1.1 (ord2ymd n).1.2 (ord2ymd n).2 = true /\
  ymd2ord (ord2ymd n).1.1 (ord2ymd n).1.2 (ord2ymd n).2 = n.
Proof.
  unfold MAXORDINAL. intros Hn. unfold ord2ymd, DI400Y, DI100Y, DI4Y.
  set (a := (n - 1) / 146097).
  set (r := (n - 1) mod 146097).
  set (b := r / 36524).
  set (r2 := r mod 36524).
  set (c := r2 / 1461).
  set (r3 := r2 mod 1461).
  set (e := r3 / 365).
  set (r4 := r3 mod 365).
  assert (Ha : n - 1 = 146097 * a + r /\ 0 <= r < 146097)
    by (subst a r; zdiv).
  assert (Hb : r = 36524 * b + r2 /\ 0 <= r2 < 36524) by (subst b r2; zdiv).
  assert (Hc : r2 = 1461 * c + r3 /\ 0 <= r3 < 1461) by (subst c r3; zdiv).
  assert (He : r3 = 365 * e + r4 /\ 0 <= r4 < 365) by (subst e r4; zdiv).
  clearbody a r b r2 c r3 e r4.
  destruct ((e =? 4) || (b =? 4)) eqn:Hlast.
  - cbn [fst snd].
    assert (Hy : exists k, a * 400 + 1 + b * 100 + c * 4 + e - 1 = 4 * k /\
                   (k mod 25 <> 0 \/ k mod 100 = 0) /\ 1 <= k <= 2499 /\
                   n = 1461 * k - (k / 25) + (k / 100)).
    { apply orb_true_iff in Hlast as [H4|H4]; apply Z.eqb_eq in H4.
      - exists (100 * a + 25 * b + c + 1). zdiv.
      - exists (100 * a + 100). zdiv. }
    destruct Hy as (k & -> & Hk & Hkr & Hnk).
    unfold valid_date, ymd2ord, days_in_month, days_before_month,
      days_before_year, is_leap, MINYEAR, MAXYEAR.
    assert (H4 : (4 * k) mod 4 = 0) by zdiv.
    assert (H100 : (4 * k) mod 100 = 0 <-> k mod 25 = 0) by zdiv.
    assert (H400 : (4 * k) mod 400 = 0 <-> k mod 100 = 0) by zdiv.
    rewrite H4.
    assert (Hleap : negb ((4 * k) mod 100 =? 0) || ((4 * k) mod 400 =? 0)
                    = true).
    { destruct (Z.eqb_spec ((4 * k) mod 100) 0) as [E|E];
        destruct (Z.eqb_spec ((4 * k) mod 400) 0) as [E'|E'];
        try reflexivity. tauto. }
    rewrite Hleap. cbn [Z.eqb andb DAYS_IN_MONTH DAYS_BEFORE_MONTH].
    split.
    + repeat (apply andb_true_intro; split); try reflexivity;
        apply Z.leb_le; lia.
    + change (2 <? 12) with true. cbn [andb]. zdiv.
  - apply orb_false_iff in Hlast as [He4 Hb4].
    apply Z.eqb_neq in He4, Hb4.
    set (leapyear := (e =? 3) && (negb (c =? 24) || (b =? 3))).
    set (y := a * 400 + 1 + b * 100 + c * 4 + e).
    assert (Hleap : is_leap y = leapyear).
    { unfold is_leap, leapyear. subst y.
      destruct (Z.eqb_spec e 3) as [E3|E3];
        destruct (Z.eqb_spec c 24) as [C24|C24];
        destruct (Z.eqb_spec b 3) as [B3|B3]; cbn [andb orb negb];
        repeat match goal with
        | |- context [?x mod ?m =? 0] =>
            destruct (Z.eqb_spec (x mod m) 0)
        end; cbn [andb orb negb]; try reflexivity; exfalso; zdiv. }
    pose proof (month_day_spec r4 leapyear) as Hmd.
    unfold month_day_ok in Hmd.
    destruct (month_day r4 leapyear) as [m d]. cbn [fst snd].
    assert (Hr4 : 0 <= r4 < 365 + (if leapyear then 1 else 0))
      by (destruct leapyear; lia).
    specialize (Hmd Hr4).
    repeat (apply andb_true_iff in Hmd as [Hmd ?]).
    unfold valid_date, ymd2ord, days_in_month, days_before_month.
    rewrite Hleap.
    match goal with H : (_ =? r4 + 1) = true |- _ =>
      apply Z.eqb_eq in H; rename H into Hsum end.
    split.
    + assert (Hdim : d <= (if (m =? 2) && leapyear then 29
                           else DAYS_IN_MONTH m)).
      { match goal with H : (d <=? _) = true |- _ =>
          apply Z.leb_le in H; revert H end.
        destruct (Z.eqb_spec m 2) as [->|_]; cbn [andb];
          [destruct leapyear; cbn; lia|lia]. }
      repeat (apply andb_true_intro; split); try assumption;
        apply Z.leb_le; unfold MINYEAR, MAXYEAR; subst y; lia.
    + rewrite <- Z.add_assoc, Hsum. unfold days_before_year. subst y.
      zdiv.
Qed.

Lemma days_in_month_le_31 (y m : Z) : days_in_month y m <= 31.
Proof.
  unfold days_in_month. destruct ((m =? 2) && is_leap y); [lia|].
  unfold DAYS_IN_MONTH.
  repeat match goal with
         | |- context [match ?x with _ => _ end] => destruct x
         end; lia.
Qed.

(** Adding a duration: the result is the instant asked for when that
    instant lies in the years 1 to 9999, and [OverflowError] otherwise. *)
Lemma add_timedelta_spec (dt : datetime) (delta : Z) :
  (in_range (to_us dt + delta) = true ->
   exists l : datetime,
     add_timedelta dt delta = Ok l /\ to_us l = to_us dt + delta /\
     valid_datetime l = true /\ tzinfo l = tzinfo dt) /\
  (in_range (to_us dt + delta) = false ->
   add_timedelta dt delta = Raise OverflowError).
Proof.
  unfold in_range, add_timedelta, MAXORDINAL, US_PER_DAY, US_PER_SECOND.
  set (t := to_us dt + delta).
  set (days := t / (86400 * 1000000)).
  set (rem := t mod (86400 * 1000000)).
  set (secs := rem / 1000000).
  assert (Hd : t = 86400 * 1000000 * days + rem
               /\ 0 <= rem < 86400 * 1000000) by (subst days rem; zdiv).
  assert (Hs : rem = 1000000 * secs + rem mod 1000000
               /\ 0 <= rem mod 1000000 < 1000000) by (subst secs; zdiv).
  clearbody t days rem secs.
  split.
  - intros Hr. apply andb_true_iff in Hr as [H1 H2].
    apply Z.leb_le in H1. apply Z.ltb_lt in H2.
    assert (Hdays : 1 <= days <= 3652059) by lia.
    destruct (Z.ltb_spec 0 days); [|lia].
    destruct (Z.leb_spec days 3652059); [|lia]. cbn [andb].
    destruct (ord2ymd_spec days Hdays) as [Hv Ho].
    destruct (ord2ymd days) as [[y m] d]. cbn [fst snd] in Hv, Ho.
    eexists. split; [reflexivity|].
    unfold to_us, valid_datetime, valid_time, US_PER_SECOND. cbn.
    rewrite Ho, Hv. repeat split.
    + zdiv.
    + cbn [andb]. repeat (apply andb_true_intro; split);
        apply Z.leb_le; zdiv.
  - intros Hr. apply andb_false_iff in Hr.
    destruct (Z.ltb_spec 0 days); [|reflexivity].
    destruct (Z.leb_spec days 3652059); [|reflexivity].
    exfalso. destruct Hr as [Hr|Hr];
      [apply Z.leb_gt in Hr|apply Z.ltb_ge in Hr]; lia.
Qed.

Lemma to_us_replace_tzinfo (dt : datetime) (tz : option Z) :
  to_us (replace_tzinfo dt tz) = to_us dt.
Proof. reflexivity. Qed.

(** The conversion to a zone: the instant in UTC and the instant on the
    clock of the zone must both be in range. *)
Lemma astimezone_spec (dt : datetime) (off tz : Z) :
  (in_range (to_us dt - off) && in_range (to_us dt - off + tz) = true ->
   exists l : datetime,
     astimezone dt off tz = Ok l /\ to_us l = to_us dt - off + tz /\
     valid_datetime l = true) /\
  (in_range (to_us dt - off) && in_range (to_us dt - off + tz) = false ->
   astimezone dt off tz = Raise OverflowError).
Proof.
  unfold astimezone.
  destruct (add_timedelta_spec dt (- off)) as [Hok Hbad].
  replace (to_us dt + - off) with (to_us dt - off) in Hok, Hbad by lia.
  destruct (in_range (to_us dt - off)) eqn:Hr1; cbn [andb].
  - destruct (Hok eq_refl) as (utc & -> & Hutc & _ & _). cbn [rbind].
    destruct (add_timedelta_spec (replace_tzinfo utc (Some tz)) tz)
      as [Hok2 Hbad2].
    rewrite to_us_replace_tzinfo, Hutc in Hok2, Hbad2.
    split.
    + intros Hr2. destruct (Hok2 Hr2) as (l & -> & Hl & Hv & _).
      exists l. repeat split; assumption.
    + intros Hr2. apply Hbad2, Hr2.
  - split; [discriminate|]. intros _. rewrite (Hbad eq_refl). reflexivity.
Qed.

(** The text of a valid date and time has the shape
    [YYYY-MM-DD HH:MM]. *)
(** From the year 1000 on the year has its four digits without
    padding. *)
Lemma str_of_int_pad4 (n : Z) :
  1000 <= n <= 9999 -> str_of_int n = fmt_0d 4 n.
Proof.
  intros Hn. rewrite pad4_small by lia. unfold str_of_int.
  destruct (Z.ltb_spec n 0); [lia|].
  rewrite (digits_ge_10 n) by lia.
  rewrite (digits_ge_10 (n / 10)) by zdiv.
  rewrite (digits_ge_10 (n / 10 / 10)) by zdiv.
  rewrite (digits_lt_10 (n / 10 / 10 / 10)) by zdiv.
  rewrite !Z.div_div by lia. cbn [Z.mul Pos.mul].
  rewrite !sapp_cons, !sapp_nil_l. reflexivity.
Qed.

(** The answer has the sixteen characters [YYYY-MM-DD HH:MM] from the
    year 1000 on. *)
Lemma strftime_ymd_hm_shape (l : datetime) :
  valid_datetime l = true -> 1000 <= year l ->
  is_ymd_hm (strftime_ymd_hm l) = true.
Proof.
  unfold valid_datetime, valid_date, valid_time, MINYEAR, MAXYEAR.
  intros Hv Hy1000. repeat (apply andb_true_iff in Hv as [Hv ?]).
  repeat match goal with
         | H : (_ <=? _) = true |- _ => apply Z.leb_le in H
         end.
  apply Z.leb_le in Hv.
  pose proof (days_in_month_le_31 (year l) (month l)) as Hdim.
  unfold strftime_ymd_hm.
  rewrite (str_of_int_pad4 (year l)) by lia.
  rewrite (pad4_small (year l)) by lia.
  rewrite (pad2_small (month l)), (pad2_small (day l)),
    (pad2_small (hour l)), (pad2_small (minute l)) by lia.
  cbn [String.append is_ymd_hm].
  rewrite !sapp_cons, !sapp_nil_l. cbn [is_ymd_hm].
  rewrite !isdigit_digit_char by zdiv. reflexivity.
Qed.

(* ------------------------------------------------------------------- *)
(** ** The normalizer *)

(** X18. The normalizer answers none for the empty string and for a
    string that none of the four formats parses; the formats are tried
    in the order seconds and offset, offset only, seconds only,
    neither, and the first that parses decides. A parsed value without
    an offset is taken as UTC. When the instant, in UTC and on the
    local clock, lies in the years 1 to 9999, the answer is the local
    date and time without seconds and offset, of the shape
    [YYYY-MM-DD HH:MM] from the year 1000 on; when it does not, the
    conversion raises [OverflowError]. With the local zone at UTC the
    string [2025-01-15 10:30:45+0000] gives [2025-01-15 10:30]. *)
Theorem to_local_no_seconds_cases (s : string) :
  (truthy s = false -> to_local_no_seconds s = Ok None) /\
  (first_parse s fmts = None -> to_local_no_seconds s = Ok None) /\
  first_parse s fmts
  = match strptime s "%Y-%m-%d %H:%M:%S%z" with
    | Some dt => Some dt
    | None =>
        match strptime s "%Y-%m-%d %H:%M%z" with
        | Some dt => Some dt
        | None =>
            match strptime s "%Y-%m-%d %H:%M:%S" with
            | Some dt => Some dt
            | None => strptime s "%Y-%m-%d %H:%M"
            end
        end
    end /\
  (forall dt : datetime,
      truthy s = true -> first_parse s fmts = Some dt ->
      let utc := to_us dt - match tzinfo dt with
                            | Some off => off
                            | None => 0
                            end in
      let loc := utc + local_utcoffset * US_PER_SECOND in
      (in_range utc && in_range loc = true ->
       exists l : datetime,
         to_local_no_seconds s = Ok (Some (strftime_ymd_hm l)) /\
         to_us l = loc /\ valid_datetime l = true /\
         (1000 <= year l -> is_ymd_hm (strftime_ymd_hm l) = true)) /\
      (in_range utc && in_range loc = false ->
       to_local_no_seconds s = Raise OverflowError)) /\
  (local_utcoffset = 0 ->
   to_local_no_seconds "2025-01-15 10:30:45+0000"
   = Ok (Some "2025-01-15 10:30")).
Proof.
  split; [intros Ht; unfold to_local_no_seconds; rewrite Ht; reflexivity|].
  split.
  { intros Hp. unfold to_local_no_seconds. rewrite Hp.
    destruct (negb (truthy s)); reflexivity. }
  split.
  { cbn [first_parse fmts].
    destruct (strptime s "%Y-%m-%d %H:%M:%S%z"); [reflexivity|].
    destruct (strptime s "%Y-%m-%d %H:%M%z"); [reflexivity|].
    destruct (strptime s "%Y-%m-%d %H:%M:%S"); [reflexivity|].
    destruct (strptime s "%Y-%m-%d %H:%M"); reflexivity. }
  split.
  { intros dt Ht Hp utc loc. unfold to_local_no_seconds.
    rewrite Ht, Hp. cbn [negb].
    set (off := match tzinfo dt with Some o => o | None => 0 end).
    destruct (astimezone_spec (replace_tzinfo dt (Some off)) off
                (local_utcoffset * US_PER_SECOND)) as [Hok Hbad].
    rewrite to_us_replace_tzinfo in Hok, Hbad.
    split.
    - intros Hr. destruct (Hok Hr) as (l & -> & Hl & Hv).
      exists l. cbn [rbind].
      split; [reflexivity|]. split; [exact Hl|]. split; [exact Hv|].
      apply strftime_ymd_hm_shape, Hv.
    - intros Hr. rewrite (Hbad Hr). reflexivity. }
  intros Hutc. unfold to_local_no_seconds. rewrite Hutc.
  vm_compute. reflexivity.
Qed.

(* ------------------------------------------------------------------- *)
(** ** Binary64 arithmetic: digits and shifts *)

(** Forget the parameters of the script in a proof about arithmetic
    alone. *)
Ltac pure :=
  repeat match goal with
         | f : string -> _ |- _ => clear f
         | f : nat -> float |- _ => clear f
         | f : float -> string |- _ => clear f
         end.

Lemma digits2_pos_log2 (p : positive) :
  Zpos (digits2_pos p) = Z.log2 (Zpos p) + 1.
Proof.
  induction p as [p IH|p IH|]; cbn [digits2_pos]; try reflexivity;
    rewrite Pos2Z.inj_succ, IH.
  - change (Z.log2 (Zpos p~1)) with (Zpos (Pos.size p)).
    clear IH. induction p; cbn; try lia.
  - change (Z.log2 (Zpos p~0)) with (Zpos (Pos.size p)).
    clear IH. induction p; cbn; try lia.
Qed.

(** The number of binary digits of a positive integer. *)
Lemma Zdigits2_bounds (m : Z) :
  0 < m -> 2 ^ (Zdigits2 m - 1) <= m < 2 ^ Zdigits2 m.
Proof.
  intros Hm. destruct m as [|p|p]; try lia.
  cbn [Zdigits2]. rewrite digits2_pos_log2.
  replace (Z.log2 (Zpos p) + 1 - 1) with (Z.log2 (Zpos p)) by lia.
  apply Z.log2_spec. lia.
Qed.

Lemma Zdigits2_unique (m d : Z) :
  2 ^ (d - 1) <= m < 2 ^ d -> 0 < d -> Zdigits2 m = d.
Proof.
  intros Hm Hd.
  assert (Hpos : 0 < m).
  { pose proof (Z.pow_pos_nonneg 2 (d - 1)). lia. }
  destruct m as [|p|p]; try lia.
  cbn [Zdigits2]. rewrite digits2_pos_log2.
  rewrite (Z.log2_unique (Zpos p) (d - 1)); [lia|lia|].
  replace (Z.succ (d - 1)) with d by lia. exact Hm.
Qed.

Lemma Zdigits2_pos (m : Z) : 0 < m -> 0 < Zdigits2 m.
Proof. destruct m; cbn; lia. Qed.

Lemma Zdigits2_nonneg (m : Z) : 0 <= Zdigits2 m.
Proof. destruct m; cbn; lia. Qed.

Lemma Zdigits2_le (a b : Z) : 0 < a <= b -> Zdigits2 a <= Zdigits2 b.
Proof.
  intros Hab.
  pose proof (Zdigits2_bounds a ltac:(lia)) as [Ha _].
  pose proof (Zdigits2_bounds b ltac:(lia)) as [_ Hb].
  destruct (Z_le_gt_dec (Zdigits2 a) (Zdigits2 b)) as [H|H]; [exact H|].
  exfalso.
  assert (2 ^ Zdigits2 b <= 2 ^ (Zdigits2 a - 1))
    by (apply Z.pow_le_mono_r; lia).
  lia.
Qed.

Lemma Zdigits2_lt_pow2 (m d : Z) : 0 <= d -> 0 <= m < 2 ^ d -> Zdigits2 m <= d.
Proof.
  intros Hd Hm. destruct (Z.eq_dec m 0) as [->|Hnz]; [exact Hd|].
  pose proof (Zdigits2_bounds m ltac:(lia)) as [Hlo _].
  destruct (Z_le_gt_dec (Zdigits2 m) d) as [H|H]; [exact H|].
  exfalso.
  assert (2 ^ d <= 2 ^ (Zdigits2 m - 1)) by (apply Z.pow_le_mono_r; lia).
  lia.
Qed.

Lemma Zdigits2_mul_pow2 (m k : Z) :
  0 < m -> 0 <= k -> Zdigits2 (m * 2 ^ k) = Zdigits2 m + k.
Proof.
  intros Hm Hk. pose proof (Zdigits2_bounds m Hm) as [Hlo Hhi].
  pose proof (Zdigits2_pos m Hm) as Hd.
  apply Zdigits2_unique; [|lia].
  replace (Zdigits2 m + k - 1) with (Zdigits2 m - 1 + k) by lia.
  rewrite !Z.pow_add_r by lia.
  pose proof (Z.pow_pos_nonneg 2 k ltac:(lia) Hk). nia.
Qed.

Lemma Zdigits2_div_pow2 (m k : Z) :
  0 < m -> 0 <= k < Zdigits2 m -> Zdigits2 (m / 2 ^ k) = Zdigits2 m - k.
Proof.
  intros Hm Hk. pose proof (Zdigits2_bounds m Hm) as [Hlo Hhi].
  pose proof (Z.pow_pos_nonneg 2 k ltac:(lia) ltac:(lia)) as Hk2.
  apply Zdigits2_unique; [|lia].
  replace (Zdigits2 m - 1) with (Zdigits2 m - k - 1 + k) in Hlo by lia.
  replace (Zdigits2 m) with (Zdigits2 m - k + k) in Hhi at 1 by lia.
  rewrite Z.pow_add_r in Hlo, Hhi by lia.
  split.
  - apply Z.div_le_lower_bound; lia.
  - apply Z.div_lt_upper_bound; lia.
Qed.

Lemma div_pow2_small (m k : Z) :
  0 <= m -> Zdigits2 m <= k -> m / 2 ^ k = 0.
Proof.
  intros Hm Hk. apply Z.div_small. split; [exact Hm|].
  destruct (Z.eq_dec m 0) as [->|Hnz].
  - apply Z.pow_pos_nonneg; [lia|]. pose proof (Zdigits2_nonneg 0). lia.
  - pose proof (Zdigits2_bounds m ltac:(lia)) as [_ Hhi].
    pose proof (Zdigits2_pos m ltac:(lia)).
    assert (2 ^ Zdigits2 m <= 2 ^ k) by (apply Z.pow_le_mono_r; lia).
    lia.
Qed.

Abbreviation iterate n f x := (@Nat.iter n _ f x) (only parsing).

(** [iter_pos] is iteration. *)
Lemma iter_pos_nat {A : Type} (f : A -> A) (p : positive) :
  forall x : A, SpecFloat.iter_pos f p x = iterate (Pos.to_nat p) f x.
Proof.
  assert (Hadd : forall (a b : nat) (x : A),
             iterate (a + b) f x = iterate a f (iterate b f x)).
  { intros a b x. induction a as [|a IH]; [reflexivity|].
    change (f (iterate (a + b) f x) = f (iterate a f (iterate b f x))).
    f_equal. exact IH. }
  assert (Hsw : forall (a : nat) (x : A),
             iterate a f (f x) = f (iterate a f x)).
  { intros a x. induction a as [|a IH]; [reflexivity|].
    change (f (iterate a f (f x)) = f (f (iterate a f x))).
    f_equal. exact IH. }
  induction p as [p IH|p IH|]; intros x; cbn [SpecFloat.iter_pos].
  - rewrite !IH, Pos2Nat.inj_xI.
    change (iterate (S (2 * Pos.to_nat p)) f x)
      with (f (iterate (2 * Pos.to_nat p) f x)).
    replace (2 * Pos.to_nat p)%nat with (Pos.to_nat p + Pos.to_nat p)%nat
      by lia.
    rewrite Hadd, <- !Hsw. reflexivity.
  - rewrite !IH, Pos2Nat.inj_xO.
    replace (2 * Pos.to_nat p)%nat with (Pos.to_nat p + Pos.to_nat p)%nat
      by lia.
    rewrite Hadd. reflexivity.
  - reflexivity.
Qed.

Lemma shr_1_m (mrs : shr_record) :
  0 <= shr_m mrs -> shr_m (shr_1 mrs) = shr_m mrs / 2.
Proof.
  destruct mrs as [m r s]. cbn [shr_m]. intros Hm.
  destruct m as [|[p|p|]|p]; cbn [shr_1 shr_m]; try reflexivity; try lia.
  - rewrite Pos2Z.inj_xI. zdiv.
  - rewrite Pos2Z.inj_xO. zdiv.
Qed.

(** Shifting a mantissa right by [n] divides it by [2^n]. *)
Lemma iter_shr_1_m (n : nat) (mrs : shr_record) :
  0 <= shr_m mrs ->
  shr_m (iterate n shr_1 mrs) = shr_m mrs / 2 ^ Z.of_nat n.
Proof.
  intros Hm. induction n as [|n IH].
  - cbn. now rewrite Z.div_1_r.
  - change (iterate (S n) shr_1 mrs) with (shr_1 (iterate n shr_1 mrs)).
    rewrite shr_1_m.
    + rewrite IH, Nat2Z.inj_succ, Z.pow_succ_r by lia.
      rewrite Z.div_div by (try apply Z.pow_pos_nonneg; lia).
      f_equal. lia.
    + rewrite IH. apply Z.div_pos; [exact Hm|].
      apply Z.pow_pos_nonneg; lia.
Qed.

(** When only zero bits are shifted out of an exact record, the result
    is exact too. *)
Lemma iter_shr_1_exact (n : nat) (m : Z) :
  0 <= m -> m mod 2 ^ Z.of_nat n = 0 ->
  iterate n shr_1 (Build_shr_record m false false)
  = Build_shr_record (m / 2 ^ Z.of_nat n) false false.
Proof.
  pure. intros Hm. induction n as [|n IH]; intros Hdiv.
  - cbn. now rewrite Z.div_1_r.
  - change (iterate (S n) shr_1 (Build_shr_record m false false))
      with (shr_1 (iterate n shr_1 (Build_shr_record m false false))).
    rewrite Nat2Z.inj_succ, Z.pow_succ_r in Hdiv |- * by lia.
    pose proof (Z.pow_pos_nonneg 2 (Z.of_nat n) ltac:(lia) ltac:(lia)) as Hp.
    assert (Hn : m mod 2 ^ Z.of_nat n = 0).
    { rewrite Z.mul_comm in Hdiv. rewrite Z.rem_mul_r in Hdiv by lia.
      pose proof (Z.mod_pos_bound m (2 ^ Z.of_nat n) Hp).
      pose proof (Z.mod_pos_bound (m / 2 ^ Z.of_nat n) 2 ltac:(lia)).
      nia. }
    rewrite (IH Hn).
    assert (Heven : (m / 2 ^ Z.of_nat n) mod 2 = 0).
    { rewrite Z.mul_comm in Hdiv. rewrite Z.rem_mul_r in Hdiv by lia.
      pose proof (Z.mod_pos_bound (m / 2 ^ Z.of_nat n) 2 ltac:(lia)).
      nia. }
    assert (Hq : 0 <= m / 2 ^ Z.of_nat n) by (apply Z.div_pos; lia).
    replace (m / (2 * 2 ^ Z.of_nat n)) with (m / 2 ^ Z.of_nat n / 2)
      by (rewrite Z.div_div by lia; f_equal; lia).
    destruct (m / 2 ^ Z.of_nat n) as [|[p|p|]|p] eqn:E; cbn [shr_1 orb];
      try lia; try reflexivity.
    + exfalso. pose proof (Pos2Z.inj_xI p). zdiv.
    + f_equal. pose proof (Pos2Z.inj_xO p). zdiv.
    + cbn in Heven. discriminate Heven.
Qed.

(* ------------------------------------------------------------------- *)
(** ** Binary64 arithmetic: rounding *)

Lemma fexp_eq (k : Z) : fexp prec emax k = Z.max (k - 53) (-1074).
Proof. reflexivity. Qed.

Lemma pow2_pos (k : Z) : 0 <= k -> 0 < 2 ^ k.
Proof. intros. apply Z.pow_pos_nonneg; lia. Qed.

Lemma shr_spec (mrs : shr_record) (e n : Z) :
  0 <= shr_m mrs -> 0 <= n ->
  shr_m (shr mrs e n).1 = shr_m mrs / 2 ^ n /\ (shr mrs e n).2 = e + n.
Proof.
  intros Hm Hn. destruct n as [|p|p]; [| |lia].
  - cbn. rewrite Z.div_1_r. lia.
  - cbn [shr fst snd]. split; [|reflexivity].
    rewrite iter_pos_nat, iter_shr_1_m by exact Hm.
    rewrite positive_nat_Z. reflexivity.
Qed.

Lemma shr_exact (m e n : Z) :
  0 <= m -> 0 <= n -> m mod 2 ^ n = 0 ->
  shr (Build_shr_record m false false) e n
  = (Build_shr_record (m / 2 ^ n) false false, e + n).
Proof.
  intros Hm Hn Hdiv. destruct n as [|p|p]; [| |lia].
  - cbn. rewrite Z.div_1_r, Z.add_0_r. reflexivity.
  - cbn [shr]. rewrite iter_pos_nat.
    rewrite <- (positive_nat_Z p) in Hdiv |- *.
    rewrite (iter_shr_1_exact _ _ Hm Hdiv). reflexivity.
Qed.

Lemma round_nearest_even_cases (m : Z) (l : location) :
  round_nearest_even m l = m \/ round_nearest_even m l = m + 1.
Proof.
  destruct l as [|[| |]]; cbn; auto. destruct (Z.even m); auto.
Qed.

(** The first shift of [binary_round_aux]: the mantissa is cut to the
    canonical exponent. *)
Lemma shr_fexp_first (mx ex : Z) (lx : location) :
  0 <= mx -> ex <= fexp prec emax (Zdigits2 mx + ex) ->
  let e' := fexp prec emax (Zdigits2 mx + ex) in
  let q := mx / 2 ^ (e' - ex) in
  shr_m (shr_fexp prec emax mx ex lx).1 = q /\
  (shr_fexp prec emax mx ex lx).2 = e' /\
  (lx = loc_Exact -> mx mod 2 ^ (e' - ex) = 0 ->
   (shr_fexp prec emax mx ex lx).1 = Build_shr_record q false false) /\
  0 <= q < 2 ^ 53 /\
  (0 < q -> Zdigits2 q + e' = Zdigits2 mx + ex) /\
  (-1074 < e' -> 2 ^ 52 <= q).
Proof.
  pure. intros Hmx Hex e' q. unfold shr_fexp. fold e'.
  assert (Hn : 0 <= e' - ex) by lia.
  assert (Hrec : shr_m (shr_record_of_loc mx lx) = mx)
    by (destruct lx as [|[| |]]; reflexivity).
  destruct (shr_spec (shr_record_of_loc mx lx) ex (e' - ex)) as [H1 H2];
    [rewrite Hrec; exact Hmx|exact Hn|].
  rewrite Hrec in H1.
  split; [exact H1|]. split; [rewrite H2; lia|].
  split.
  { intros -> Hdiv. cbn [shr_record_of_loc].
    rewrite (shr_exact mx ex (e' - ex) Hmx Hn Hdiv). reflexivity. }
  assert (He' : e' = Z.max (Zdigits2 mx + ex - 53) (-1074))
    by (subst e'; apply fexp_eq).
  pose proof (pow2_pos (e' - ex) Hn) as Hp.
  assert (Hq0 : 0 <= q) by (subst q; apply Z.div_pos; lia).
  destruct (Z.eq_dec mx 0) as [->|Hnz].
  { subst q. rewrite Z.div_0_l by lia. cbn [Zdigits2] in *.
    repeat split; try lia. }
  pose proof (Zdigits2_pos mx ltac:(lia)) as Hd.
  destruct (Z_lt_le_dec (e' - ex) (Zdigits2 mx)) as [Hlt|Hge].
  - assert (Hdq : Zdigits2 q = Zdigits2 mx - (e' - ex))
      by (subst q; apply Zdigits2_div_pow2; lia).
    assert (Hqpos : 0 < q).
    { subst q. apply Z.div_str_pos. split; [lia|].
      pose proof (Zdigits2_bounds mx ltac:(lia)) as [Hlo _].
      assert (2 ^ (e' - ex) <= 2 ^ (Zdigits2 mx - 1))
        by (apply Z.pow_le_mono_r; lia).
      lia. }
    pose proof (Zdigits2_bounds q Hqpos) as [Hlo Hhi].
    assert (Hle : Zdigits2 q <= 53) by lia.
    assert (2 ^ Zdigits2 q <= 2 ^ 53) by (apply Z.pow_le_mono_r; lia).
    repeat split; try lia.
    intros Hnorm. assert (Zdigits2 q = 53) by lia.
    replace 52 with (Zdigits2 q - 1) by lia. exact Hlo.
  - assert (Hq : q = 0) by (subst q; apply div_pow2_small; lia).
    rewrite Hq. repeat split; try lia.
Qed.

(** The second shift: one more bit when rounding carried into a 54th
    digit, nothing otherwise. *)
Lemma shr_fexp_second (m1 e' : Z) :
  0 <= m1 <= 2 ^ 53 -> -1074 <= e' ->
  shr_fexp prec emax m1 e' loc_Exact
  = if m1 =? 2 ^ 53 then (Build_shr_record (2 ^ 52) false false, e' + 1)
    else (Build_shr_record m1 false false, e').
Proof.
  pure. intros Hm He. unfold shr_fexp. rewrite fexp_eq.
  cbn [shr_record_of_loc].
  destruct (Z.eqb_spec m1 (2 ^ 53)) as [->|Hne].
  - change (Zdigits2 (2 ^ 53)) with 54.
    replace (Z.max (54 + e' - 53) (-1074) - e') with 1 by lia.
    reflexivity.
  - assert (Hd : Zdigits2 m1 <= 53) by (apply Zdigits2_lt_pow2; lia).
    destruct (Z.max (Zdigits2 m1 + e' - 53) (-1074) - e') eqn:E;
      try reflexivity.
    lia.
Qed.

(** The value [binary_round_aux] returns: the mantissa cut to the
    canonical exponent and rounded up by at most one unit. *)
Lemma binary_round_aux_spec (sx : bool) (mx ex : Z) (lx : location) :
  0 <= mx -> ex <= fexp prec emax (Zdigits2 mx + ex) ->
  let e' := fexp prec emax (Zdigits2 mx + ex) in
  let q := mx / 2 ^ (e' - ex) in
  exists m1 : Z,
    (m1 = q \/ m1 = q + 1) /\
    (lx = loc_Exact -> mx mod 2 ^ (e' - ex) = 0 -> m1 = q) /\
    0 <= m1 <= 2 ^ 53 /\
    (-1074 < e' -> 2 ^ 52 <= m1) /\
    binary_round_aux prec emax sx mx ex lx
    = if m1 =? 0 then S754_zero sx
      else if m1 =? 2 ^ 53 then
        if e' + 1 <=? 971 then S754_finite sx (Z.to_pos (2 ^ 52)) (e' + 1)
        else S754_infinity sx
      else if e' <=? 971 then S754_finite sx (Z.to_pos m1) e'
      else S754_infinity sx.
Proof.
  pure. intros Hmx Hex e' q.
  destruct (shr_fexp_first mx ex lx Hmx Hex)
    as (Hq & He & Hexact & Hqr & Hdq & Hnorm).
  fold e' in Hq, He, Hexact, Hqr, Hdq, Hnorm. fold q in Hq, Hexact, Hqr, Hdq, Hnorm.
  unfold binary_round_aux.
  destruct (shr_fexp prec emax mx ex lx) as [mrs1 e1] eqn:E1.
  cbn [fst snd] in Hq, He, Hexact. subst e1.
  set (m1 := round_nearest_even (shr_m mrs1) (loc_of_shr_record mrs1)).
  assert (Hm1 : m1 = q \/ m1 = q + 1).
  { subst m1. rewrite Hq. apply round_nearest_even_cases. }
  assert (He' : -1074 <= e') by (subst e'; rewrite fexp_eq; lia).
  exists m1. split; [exact Hm1|]. split.
  { intros Hl Hdiv. subst m1. rewrite (Hexact Hl Hdiv). reflexivity. }
  split; [lia|]. split; [intros H; specialize (Hnorm H); lia|].
  rewrite (shr_fexp_second m1 e') by lia.
  destruct (Z.eqb_spec m1 0) as [->|Hnz].
  { reflexivity. }
  destruct (Z.eqb_spec m1 (2 ^ 53)) as [->|Hne]; cbn [shr_m].
  - reflexivity.
  - destruct m1 as [|p|p]; try lia. reflexivity.
Qed.

Lemma bounded_iff (m : positive) (e : Z) :
  bounded prec emax m e = true <->
  e = Z.max (Zdigits2 (Zpos m) + e - 53) (-1074) /\ e <= 971.
Proof.
  unfold bounded, canonical_mantissa. rewrite fexp_eq.
  rewrite andb_true_iff, Z.eqb_eq, Z.leb_le. cbn [Zdigits2].
  change (emax - prec) with 971. intuition lia.
Qed.

(** What [binary_round_aux] returns is zero, a canonical finite double
    or an infinity, of the sign it was given. *)
Lemma binary_round_aux_class (sx : bool) (mx ex : Z) (lx : location) :
  0 <= mx -> ex <= fexp prec emax (Zdigits2 mx + ex) ->
  match binary_round_aux prec emax sx mx ex lx with
  | S754_zero s => s = sx
  | S754_infinity s => s = sx
  | S754_finite s m e => s = sx /\ bounded prec emax m e = true
  | S754_nan => False
  end.
Proof.
  pure. intros Hmx Hex.
  destruct (binary_round_aux_spec sx mx ex lx Hmx Hex)
    as (m1 & _ & _ & Hr & Hnorm & ->).
  set (e' := fexp prec emax (Zdigits2 mx + ex)) in *.
  assert (He' : -1074 <= e') by (subst e'; rewrite fexp_eq; lia).
  destruct (Z.eqb_spec m1 0); [reflexivity|].
  destruct (Z.eqb_spec m1 (2 ^ 53)) as [->|Hne].
  - destruct (Z.leb_spec (e' + 1) 971); [|reflexivity].
    split; [reflexivity|]. apply bounded_iff.
    change (Zdigits2 (Zpos (Z.to_pos (2 ^ 52)))) with 53. lia.
  - destruct (Z.leb_spec e' 971); [|reflexivity].
    split; [reflexivity|]. apply bounded_iff.
    rewrite Z2Pos.id by lia. split; [|lia].
    destruct (Z.eq_dec e' (-1074)) as [E|E].
    + assert (Zdigits2 m1 <= 53) by (apply Zdigits2_lt_pow2; lia). lia.
    + assert (H52 : 2 ^ 52 <= m1) by (apply Hnorm; lia).
      rewrite (Zdigits2_unique m1 53); lia.
Qed.

Lemma iter_xO (m d : positive) :
  Zpos (Pos.iter xO m d) = Zpos m * 2 ^ Zpos d.
Proof.
  induction d as [|d IH] using Pos.peano_ind.
  - cbn [Pos.iter]. lia.
  - rewrite Pos.iter_succ, Pos2Z.inj_xO, IH, Pos2Z.inj_succ.
    rewrite Z.pow_succ_r by lia. lia.
Qed.

Lemma shl_align_spec (mx : positive) (ex ex' : Z) :
  (shl_align mx ex ex').2 = Z.min ex ex' /\
  Zpos (shl_align mx ex ex').1 = Zpos mx * 2 ^ (ex - Z.min ex ex').
Proof.
  unfold shl_align. destruct (ex' - ex) as [|d|d] eqn:E; cbn [fst snd].
  - replace (Z.min ex ex') with ex by lia. rewrite Z.sub_diag. lia.
  - replace (Z.min ex ex') with ex by lia. rewrite Z.sub_diag. lia.
  - replace (Z.min ex ex') with ex' by lia.
    rewrite iter_xO. split; [reflexivity|]. f_equal. f_equal. lia.
Qed.

(** [binary_round] on a mantissa and an exponent: the canonical form of
    the value when the value is a double, without any rounding. *)
Lemma binary_round_exact (sx : bool) (mx : positive) (ex : Z) :
  let ec := fexp prec emax (Zdigits2 (Zpos mx) + ex) in
  ec <= ex \/ Zpos mx mod 2 ^ (ec - ex) = 0 ->
  ec <= 971 ->
  exists M : positive,
    binary_round prec emax sx mx ex = S754_finite sx M ec /\
    bounded prec emax M ec = true /\
    (ec <= ex -> Zpos M = Zpos mx * 2 ^ (ex - ec)) /\
    (ex <= ec -> Zpos M * 2 ^ (ec - ex) = Zpos mx).
Proof.
  pure. intros ec Hrep Hec. unfold binary_round.
  change (fexp prec emax (Z.pos (digits2_pos mx) + ex)) with ec.
  destruct (shl_align_spec mx ex ec) as [He Hm].
  destruct (shl_align mx ex ec) as [mz ez]. cbn [fst snd] in He, Hm.
  cbv beta iota. rewrite <- He in Hm.
  assert (Hk : Zdigits2 (Zpos mz) + ez = Zdigits2 (Zpos mx) + ex).
  { rewrite Hm, Zdigits2_mul_pow2 by lia. lia. }
  assert (Hpre : ez <= fexp prec emax (Zdigits2 (Zpos mz) + ez)).
  { rewrite Hk. fold ec. lia. }
  pose proof (binary_round_aux_class sx (Zpos mz) ez loc_Exact
                ltac:(lia) Hpre) as Hclass.
  destruct (binary_round_aux_spec sx (Zpos mz) ez loc_Exact
              ltac:(lia) Hpre) as (m1 & _ & Hexact & Hr & _ & Hres).
  rewrite Hk in Hexact, Hres. fold ec in Hexact, Hres.
  assert (Hdiv : Zpos mz mod 2 ^ (ec - ez) = 0).
  { destruct (Z_le_gt_dec ec ex) as [Hle|Hgt].
    - replace ez with ec by lia. rewrite Z.sub_diag. apply Z.mod_1_r.
    - replace ez with ex in * by lia. rewrite Z.sub_diag in Hm.
      rewrite Hm, Z.mul_1_r. destruct Hrep; [lia|assumption]. }
  specialize (Hexact eq_refl Hdiv). subst m1.
  pose proof (pow2_pos (ec - ez) ltac:(lia)) as Hp.
  assert (Hq : Zpos mz = Zpos mz / 2 ^ (ec - ez) * 2 ^ (ec - ez)) by zdiv.
  set (q := Zpos mz / 2 ^ (ec - ez)) in *.
  assert (Hqpos : 0 < q) by nia.
  assert (Hq53 : q <> 2 ^ 53).
  { intros Hq'.
    pose proof (shr_fexp_first (Zpos mz) ez loc_Exact ltac:(lia) Hpre)
      as (_ & _ & _ & Hlt & _).
    rewrite Hk in Hlt. fold ec in Hlt. fold q in Hlt. lia. }
  rewrite Hres in Hclass |- *.
  destruct (Z.eqb_spec q 0); [lia|].
  destruct (Z.eqb_spec q (2 ^ 53)); [lia|].
  destruct (Z.leb_spec ec 971); [|lia].
  exists (Z.to_pos q). split; [reflexivity|].
  split; [apply Hclass|].
  rewrite Z2Pos.id by lia. split.
  - intros Hle. replace ez with ec in * by lia.
    rewrite Z.sub_diag, Z.mul_1_r in Hq. lia.
  - intros Hle. replace ez with ex in * by lia.
    rewrite Z.sub_diag, Z.mul_1_r in Hm. lia.
Qed.

(* ------------------------------------------------------------------- *)
(** ** Binary64 arithmetic: conversions *)

Lemma binary_round_class (sx : bool) (mx : positive) (ex : Z) :
  match binary_round prec emax sx mx ex with
  | S754_zero s => s = sx
  | S754_infinity s => s = sx
  | S754_finite s m e => s = sx /\ bounded prec emax m e = true
  | S754_nan => False
  end.
Proof.
  pure. unfold binary_round.
  set (ec := fexp prec emax (Z.pos (digits2_pos mx) + ex)).
  destruct (shl_align_spec mx ex ec) as [He Hm].
  destruct (shl_align mx ex ec) as [mz ez]. cbn [fst snd] in He, Hm.
  rewrite <- He in Hm.
  apply binary_round_aux_class; [lia|].
  rewrite Hm, Zdigits2_mul_pow2 by lia.
  replace (Zdigits2 (Z.pos mx) + (ex - ez) + ez)
    with (Z.pos (digits2_pos mx) + ex) by (cbn [Zdigits2]; lia).
  fold ec. lia.
Qed.

Lemma of_int_zero : of_int 0 = Ok (S754_zero false).
Proof. reflexivity. Qed.

(** [float(n)] for a natural number is zero or a positive canonical
    double, unless it overflows. *)
Lemma of_int_class (n : Z) (x : float) :
  0 <= n -> of_int n = Ok x -> nonneg_finite x = true.
Proof.
  pure. intros Hn. unfold of_int, binary_normalize.
  destruct n as [|p|p]; [intros [= <-]; reflexivity| |lia].
  pose proof (binary_round_class false p 0) as Hc.
  destruct (binary_round prec emax false p 0) as [s|s| |s m e].
  - intros [= <-]. cbn. now rewrite Hc.
  - discriminate.
  - contradiction.
  - intros [= <-]. cbn. destruct Hc as [-> ->]. reflexivity.
Qed.

(** [float(n)] is exact when [n] has at most 53 significant bits. *)
Lemma of_int_exact (n : Z) :
  0 < n ->
  Zdigits2 n <= 53 \/ n mod 2 ^ (Zdigits2 n - 53) = 0 ->
  Zdigits2 n <= 1024 ->
  exists M : positive,
    of_int n = Ok (S754_finite false M (Z.max (Zdigits2 n - 53) (-1074))) /\
    bounded prec emax M (Z.max (Zdigits2 n - 53) (-1074)) = true /\
    scaled (S754_finite false M (Z.max (Zdigits2 n - 53) (-1074)))
    = n * UNIT.
Proof.
  pure. intros Hn Hrep Hd. destruct n as [|p|p]; try lia.
  pose proof (Zdigits2_pos (Zpos p) Hn) as Hdp.
  destruct (binary_round_exact false p 0) as (M & HM & Hb & Hle & Hge).
  - rewrite fexp_eq, Z.add_0_r, Z.sub_0_r.
    destruct Hrep as [H53|Hdiv]; [left; lia|].
    destruct (Z_le_gt_dec (Zdigits2 (Zpos p)) 53); [left; lia|].
    right. replace (Z.max (Zdigits2 (Z.pos p) - 53) (-1074))
      with (Zdigits2 (Zpos p) - 53) by lia. exact Hdiv.
  - rewrite fexp_eq. lia.
  - rewrite fexp_eq, Z.add_0_r in HM, Hb, Hle, Hge.
    set (ec := Z.max (Zdigits2 (Z.pos p) - 53) (-1074)) in *.
    exists M. unfold of_int, binary_normalize. rewrite HM.
    split; [reflexivity|]. split; [exact Hb|].
    unfold scaled, UNIT. cbn [cond_Zopp].
    destruct (Z_le_gt_dec ec 0) as [H0|H0].
    + rewrite (Hle H0), <- Z.mul_assoc, <- Z.pow_add_r by lia.
      f_equal. f_equal. lia.
    + rewrite <- (Hge ltac:(lia)), Z.sub_0_r, <- Z.mul_assoc,
        <- Z.pow_add_r by lia.
      reflexivity.
Qed.

(** [int(x)] of a double that is not negative: the integer part. *)
Lemma trunc_spec (x : float) :
  nonneg_finite x = true ->
  trunc x = Ok (scaled x / UNIT) /\ 0 <= scaled x.
Proof.
  pure. destruct x as [s|s| |s m e]; try discriminate.
  - intros _. split; [reflexivity|]. cbn. lia.
  - cbn [nonneg_finite]. intros H. apply andb_true_iff in H as [Hs Hb].
    destruct s; [discriminate|]. apply bounded_iff in Hb as [He _].
    assert (Hemin : -1074 <= e) by lia.
    unfold trunc, scaled, UNIT. cbn [cond_Zopp].
    pose proof (pow2_pos (e + 1074) ltac:(lia)) as Hp.
    split; [|lia]. f_equal.
    destruct (Z.leb_spec 0 e) as [H0|H0].
    + rewrite Z.shiftl_mul_pow2 by lia.
      rewrite Z.pow_add_r, Z.mul_assoc by lia.
      rewrite Z.div_mul; [reflexivity|]. pose proof (pow2_pos 1074). lia.
    + rewrite Z.shiftr_div_pow2 by lia.
      replace 1074 with (- e + (e + 1074)) at 2 by lia.
      rewrite (Z.pow_add_r 2 (- e) (e + 1074)) by lia.
      rewrite Z.div_mul_cancel_r; [reflexivity| |lia].
      pose proof (pow2_pos (- e)). lia.
Qed.

Lemma nonneg_finite_inv (x : float) :
  nonneg_finite x = true ->
  x = S754_zero false \/
  exists (m : positive) (e : Z),
    x = S754_finite false m e /\ -1074 <= e <= 971 /\
    Zdigits2 (Zpos m) <= 53 /\
    (-1074 < e -> Zdigits2 (Zpos m) = 53).
Proof.
  pure. destruct x as [s|s| |s m e]; try discriminate; cbn [nonneg_finite].
  - destruct s; [discriminate|]. auto.
  - intros H. apply andb_true_iff in H as [Hs Hb].
    destruct s; [discriminate|]. apply bounded_iff in Hb.
    right. exists m, e. split; [reflexivity|]. lia.
Qed.

(** The whole part of a double converts back to a double without
    rounding. *)
Lemma of_int_trunc (x : float) :
  nonneg_finite x = true ->
  exists w : float,
    of_int (scaled x / UNIT) = Ok w /\ nonneg_finite w = true /\
    scaled w = scaled x / UNIT * UNIT.
Proof.
  pure. intros Hx.
  destruct (nonneg_finite_inv x Hx) as [->|(m & e & -> & He & Hd & Hnorm)].
  { exists (S754_zero false). repeat split. }
  unfold scaled at 1 3. cbn [cond_Zopp]. unfold UNIT.
  set (s := Z.pos m * 2 ^ (e + 1074) / 2 ^ 1074).
  pose proof (pow2_pos 1074 ltac:(lia)) as HU.
  pose proof (pow2_pos (e + 1074) ltac:(lia)) as HP.
  assert (Hs0 : 0 <= s) by (subst s; apply Z.div_pos; lia).
  destruct (Z.eq_dec s 0) as [Hz|Hnz].
  { rewrite Hz. exists (S754_zero false). repeat split. }
  assert (Hrep : (Zdigits2 s <= 53 \/ s mod 2 ^ (Zdigits2 s - 53) = 0)
                 /\ Zdigits2 s <= 1024).
  { destruct (Z_le_gt_dec 0 e) as [H0|H0].
    - assert (Hse : s = Zpos m * 2 ^ e).
      { subst s. rewrite Z.pow_add_r, Z.mul_assoc by lia.
        apply Z.div_mul. lia. }
      rewrite Hse, Zdigits2_mul_pow2 by lia.
      rewrite (Hnorm ltac:(lia)). split; [|lia]. right.
      replace (53 + e - 53) with e by lia. apply Z.mod_mul.
      pose proof (pow2_pos e). lia.
    - assert (Hse : s = Zpos m / 2 ^ (- e)).
      { subst s. replace 1074 with (- e + (e + 1074)) at 2 by lia.
        rewrite (Z.pow_add_r 2 (- e) (e + 1074)) by lia.
        apply Z.div_mul_cancel_r; [|lia]. pose proof (pow2_pos (- e)). lia. }
      assert (Hle : s <= Zpos m).
      { rewrite Hse. pose proof (pow2_pos (- e) ltac:(lia)).
        apply Z.div_le_upper_bound; [lia|nia]. }
      assert (Zdigits2 s <= 53).
      { pose proof (Zdigits2_le s (Zpos m) ltac:(lia)). lia. }
      split; [left|]; lia. }
  destruct Hrep as [Hrep H1024].
  destruct (of_int_exact s ltac:(lia) Hrep H1024) as (M & HM & Hb & Hsc).
  eexists. split; [exact HM|]. split; [|exact Hsc].
  cbn [nonneg_finite]. rewrite Hb. reflexivity.
Qed.

Lemma scaled_finite_pos (m : positive) (e : Z) :
  -1074 <= e -> 0 < scaled (S754_finite false m e).
Proof.
  intros He. cbn. pose proof (pow2_pos (e + 1074) ltac:(lia)). lia.
Qed.

(** Subtraction is exact when the difference is a double: in units of
    [2^-1074], when it has at most 53 significant bits. *)
Lemma sub_exact (x y : float) :
  nonneg_finite x = true -> nonneg_finite y = true ->
  scaled y <= scaled x ->
  let D := scaled x - scaled y in
  Zdigits2 D <= 53 \/ D mod 2 ^ (Zdigits2 D - 53) = 0 ->
  nonneg_finite (sub x y) = true /\ scaled (sub x y) = D.
Proof.
  pure. intros Hx Hy Hle D Hrep.
  destruct (nonneg_finite_inv x Hx) as [->|(mx & ex & -> & Hex & Hdx & _)];
    destruct (nonneg_finite_inv y Hy) as [->|(my & ey & -> & Hey & Hdy & _)].
  - split; reflexivity.
  - pose proof (scaled_finite_pos my ey ltac:(lia)). cbn [scaled] in Hle.
    cbn in *. lia.
  - split; [exact Hx|]. subst D. cbn. lia.
  - unfold sub, SFsub. cbn [cond_Zopp].
    set (ez := Z.min ex ey).
    destruct (shl_align_spec mx ex ez) as [_ Hmx].
    destruct (shl_align_spec my ey ez) as [_ Hmy].
    replace (Z.min ex ez) with ez in Hmx by lia.
    replace (Z.min ey ez) with ez in Hmy by lia.
    rewrite Hmx, Hmy.
    set (Dz := Z.pos mx * 2 ^ (ex - ez) - Z.pos my * 2 ^ (ey - ez)).
    assert (HD : D = Dz * 2 ^ (ez + 1074)).
    { subst D Dz. cbn [scaled cond_Zopp].
      rewrite Z.mul_sub_distr_r, <- !Z.mul_assoc, <- !Z.pow_add_r by lia.
      f_equal; f_equal; f_equal; lia. }
    pose proof (pow2_pos (ez + 1074) ltac:(lia)) as HP.
    assert (HDz : 0 <= Dz) by nia.
    destruct (Z.eq_dec Dz 0) as [Hz|Hnz].
    { rewrite Hz. cbn. split; [reflexivity|]. rewrite HD, Hz. reflexivity. }
    destruct Dz as [|p|p] eqn:EDz; try lia. fold Dz in HD.
    cbn [binary_normalize].
    assert (HdD : Zdigits2 D = Zdigits2 (Zpos p) + (ez + 1074)).
    { rewrite HD. apply Zdigits2_mul_pow2; lia. }
    assert (Hdmax : Zdigits2 D <= 2098).
    { assert (Hsx : scaled (S754_finite false mx ex) < 2 ^ 2098).
      { cbn. pose proof (Zdigits2_bounds (Zpos mx) ltac:(lia)) as [_ Hhi].
        assert (2 ^ Zdigits2 (Zpos mx) <= 2 ^ 53)
          by (apply Z.pow_le_mono_r; lia).
        assert (2 ^ (ex + 1074) <= 2 ^ 2045)
          by (apply Z.pow_le_mono_r; lia).
        change (2 ^ 2098) with (2 ^ 53 * 2 ^ 2045).
        pose proof (pow2_pos (ex + 1074) ltac:(lia)). nia. }
      apply Zdigits2_lt_pow2; [lia|].
      pose proof (scaled_finite_pos my ey ltac:(lia)). subst D. lia. }
    destruct (binary_round_exact false p ez) as (M & HM & Hb & Hle' & Hge').
    + rewrite fexp_eq.
      destruct (Z_le_gt_dec (Z.max (Zdigits2 (Z.pos p) + ez - 53) (-1074)) ez)
        as [Hl|Hg]; [left; exact Hl|right].
      destruct Hrep as [H53|Hdiv]; [lia|].
      replace (Z.max (Zdigits2 (Z.pos p) + ez - 53) (-1074))
        with (Zdigits2 (Zpos p) + ez - 53) by lia.
      rewrite HdD, HD in Hdiv.
      replace (Zdigits2 (Z.pos p) + (ez + 1074) - 53)
        with (Zdigits2 (Z.pos p) + ez - 53 - ez + (ez + 1074)) in Hdiv by lia.
      rewrite (Z.pow_add_r 2 (Zdigits2 (Z.pos p) + ez - 53 - ez) (ez + 1074))
        in Hdiv by lia.
      rewrite Z.mul_mod_distr_r in Hdiv;
        [|pose proof (pow2_pos (Zdigits2 (Z.pos p) + ez - 53 - ez)); lia|lia].
      nia.
    + rewrite fexp_eq. lia.
    + rewrite fexp_eq in HM, Hb, Hle', Hge'.
      set (ec := Z.max (Zdigits2 (Z.pos p) + ez - 53) (-1074)) in *.
      rewrite HM. cbn [nonneg_finite negb andb]. split; [exact Hb|].
      rewrite HD. cbn [scaled cond_Zopp].
      destruct (Z_le_gt_dec ec ez) as [Hl|Hg].
      * rewrite (Hle' Hl), <- Z.mul_assoc, <- Z.pow_add_r by lia.
        f_equal. f_equal. lia.
      * rewrite <- (Hge' ltac:(lia)), <- Z.mul_assoc, <- Z.pow_add_r by lia.
        f_equal. f_equal. lia.
Qed.

(** The fractional part: subtracting the whole part is exact. *)
Lemma sub_trunc (x w : float) :
  nonneg_finite x = true ->
  of_int (scaled x / UNIT) = Ok w ->
  nonneg_finite (sub x w) = true /\
  scaled (sub x w) = scaled x mod UNIT.
Proof.
  pure. intros Hx Hw.
  destruct (of_int_trunc x Hx) as (w' & Hw' & Hnw & Hsw).
  rewrite Hw in Hw'. injection Hw' as <-.
  pose proof (pow2_pos 1074 ltac:(lia)) as HU. fold UNIT in HU.
  destruct (trunc_spec x Hx) as [_ Hx0].
  assert (Hmod : scaled x - scaled w = scaled x mod UNIT) by (rewrite Hsw; zdiv).
  rewrite <- Hmod. apply sub_exact; try assumption.
  - rewrite Hsw. zdiv.
  - rewrite Hmod.
    destruct (nonneg_finite_inv x Hx) as [->|(m & e & -> & He & Hd & Hnorm)].
    { left. change (scaled (S754_zero false)) with 0.
      rewrite Z.mod_0_l by lia. cbn. lia. }
    cbn [scaled cond_Zopp]. unfold UNIT.
    destruct (Z_le_gt_dec 0 e) as [H0|H0].
    + left. rewrite Z.pow_add_r, Z.mul_assoc by lia.
      rewrite Z.mod_mul by lia. cbn. lia.
    + pose proof (pow2_pos (- e) ltac:(lia)) as Hp1.
      pose proof (pow2_pos (e + 1074) ltac:(lia)) as Hp2.
      assert (HD : (Z.pos m * 2 ^ (e + 1074)) mod 2 ^ 1074
                   = Zpos m mod 2 ^ (- e) * 2 ^ (e + 1074)).
      { replace 1074 with (- e + (e + 1074)) at 2 by lia.
        rewrite (Z.pow_add_r 2 (- e) (e + 1074)) by lia.
        apply Z.mul_mod_distr_r; lia. }
      rewrite HD.
      set (r := Zpos m mod 2 ^ (- e)).
      assert (Hr : 0 <= r <= Zpos m).
      { subst r. pose proof (Z.mod_pos_bound (Zpos m) (2 ^ (- e)) Hp1).
        split; [lia|]. apply Z.mod_le; lia. }
      clearbody r.
      destruct (Z.eq_dec r 0) as [->|Hnz];
        [left; rewrite Z.mul_0_l; cbn; lia|].
      assert (Hdr : Zdigits2 r <= 53).
      { pose proof (Zdigits2_le r (Zpos m) ltac:(lia)). lia. }
      rewrite Zdigits2_mul_pow2 by lia.
      destruct (Z_le_gt_dec (Zdigits2 r + (e + 1074)) 53); [left; lia|].
      right.
      replace (e + 1074)
        with (e + 1074 - (Zdigits2 r + (e + 1074) - 53)
              + (Zdigits2 r + (e + 1074) - 53)) at 1 by lia.
      rewrite Z.pow_add_r, Z.mul_assoc by lia.
      apply Z.mod_mul.
      pose proof (pow2_pos (Zdigits2 r + (e + 1074) - 53)). lia.
Qed.

(* ------------------------------------------------------------------- *)
(** ** Binary64 arithmetic: the operations of the time code *)

Lemma Zdigits2_pow2 (j : Z) : 0 <= j -> Zdigits2 (2 ^ j) = j + 1.
Proof.
  intros Hj. apply Zdigits2_unique; [|lia].
  replace (j + 1 - 1) with j by lia. split; [lia|].
  apply Z.pow_lt_mono_r; lia.
Qed.

(** The quotient of a double that is not negative by a positive double
    is zero, a positive canonical double or the positive infinity. *)
Lemma div_class (x : float) (my : positive) (ey : Z) :
  nonneg_finite x = true ->
  bounded prec emax my ey = true ->
  is_finite (SFdiv prec emax x (S754_finite false my ey)) = true ->
  nonneg_finite (SFdiv prec emax x (S754_finite false my ey)) = true.
Proof.
  pure. intros Hx Hy.
  destruct (nonneg_finite_inv x Hx) as [->|(mx & ex & -> & Hex & Hdx & _)];
    [reflexivity|].
  apply bounded_iff in Hy as [Hcy Hey].
  unfold SFdiv, SFdiv_core_binary. cbn [xorb].
  set (d1 := Zdigits2 (Zpos mx)). set (d2 := Zdigits2 (Zpos my)).
  set (k := d1 + ex - (d2 + ey)).
  set (e' := Z.min (fexp prec emax k) (ex - ey)).
  set (s := ex - ey - e').
  assert (Hs : 0 <= s) by (subst s e'; lia).
  set (m' := match s with
             | 0 => Z.pos mx
             | Z.pos _ => Z.shiftl (Z.pos mx) s
             | Z.neg _ => 0
             end).
  assert (Hm' : m' = Zpos mx * 2 ^ s).
  { subst m'. destruct s as [|p|p] eqn:Es; [cbn; lia| |lia].
    rewrite Z.shiftl_mul_pow2 by lia. reflexivity. }
  pose proof (pow2_pos s Hs) as Hps.
  assert (Hq : (Z.div_eucl m' (Zpos my)).1 = m' / Zpos my) by reflexivity.
  destruct (Z.div_eucl m' (Z.pos my)) as [q r]. cbn [fst] in Hq.
  assert (Hq0 : 0 <= q) by (rewrite Hq; apply Z.div_pos; lia).
  pose proof (Zdigits2_pos (Zpos mx) ltac:(lia)) as Hd1.
  pose proof (Zdigits2_pos (Zpos my) ltac:(lia)) as Hd2.
  fold d1 in Hd1. fold d2 in Hd2.
  assert (Hdm' : Zdigits2 m' = d1 + s)
    by (rewrite Hm'; apply Zdigits2_mul_pow2; lia).
  assert (Hpre : e' <= fexp prec emax (Zdigits2 q + e')).
  { rewrite fexp_eq. assert (He'k : e' <= Z.max (k - 53) (-1074))
      by (subst e'; rewrite fexp_eq; lia).
    destruct (Z.eq_dec q 0) as [Hz|Hnz].
    - rewrite Hz. cbn [Zdigits2].
      assert (Hlt : m' < Zpos my).
      { destruct (Z_lt_le_dec m' (Zpos my)) as [H|H]; [exact H|].
        exfalso. assert (1 <= m' / Zpos my)
          by (apply Z.div_le_lower_bound; lia). lia. }
      assert (Zdigits2 m' <= d2)
        by (apply Zdigits2_le; lia).
      lia.
    - assert (Hdq : d1 + s - d2 <= Zdigits2 q).
      { pose proof (Zdigits2_pos q ltac:(lia)) as Hdq.
        destruct (Z_le_gt_dec (d1 + s - d2) 0) as [Hle|Hgt]; [lia|].
        set (j := d1 + s - 1 - d2).
        assert (Hj : 0 <= j) by lia.
        pose proof (Zdigits2_bounds m' ltac:(lia)) as [Hlo _].
        pose proof (Zdigits2_bounds (Zpos my) ltac:(lia)) as [_ Hhi].
        fold d2 in Hhi. rewrite Hdm' in Hlo.
        replace (d1 + s - 1) with (j + d2) in Hlo by lia.
        rewrite Z.pow_add_r in Hlo by lia.
        pose proof (pow2_pos j Hj) as Hpj.
        assert (Hqm : m' < (q + 1) * Zpos my).
        { rewrite Hq. pose proof (Z.mod_pos_bound m' (Zpos my) ltac:(lia)).
          pose proof (Z.div_mod m' (Zpos my) ltac:(lia)). nia. }
        assert (H2j : 2 ^ j <= q) by nia.
        pose proof (Zdigits2_le (2 ^ j) q ltac:(lia)) as Hmono.
        rewrite Zdigits2_pow2 in Hmono by lia. lia. }
      subst k. lia. }
  pose proof (binary_round_aux_class false q e' (new_location (Z.pos my) r)
                Hq0 Hpre) as Hc.
  destruct (binary_round_aux prec emax false q e' (new_location (Z.pos my) r))
    as [sg|sg| |sg m e]; try discriminate; try contradiction; intros _.
  - subst sg. reflexivity.
  - destruct Hc as [-> Hb]. cbn [nonneg_finite negb andb]. exact Hb.
Qed.

Lemma of_int_1000 : of_int 1000 = Ok f1000.
Proof. reflexivity. Qed.

(** A fraction below one times 1000.0 is at most 1000.0. *)
Lemma mul_1000_bound (f : float) :
  nonneg_finite f = true -> scaled f < UNIT ->
  nonneg_finite (mul f f1000) = true /\ scaled (mul f f1000) <= 1000 * UNIT.
Proof.
  pure. intros Hf Hlt.
  pose proof (pow2_pos 1074 ltac:(lia)) as HU. fold UNIT in HU.
  destruct (nonneg_finite_inv f Hf) as [->|(mf & ef & -> & Hef & Hdf & _)].
  { split; [reflexivity|]. cbn [mul SFmul f1000 xorb scaled]. lia. }
  unfold mul, f1000, SFmul. cbn [xorb].
  rewrite Pos2Z.inj_mul.
  set (M := Zpos mf * 8796093022208000).
  set (E := ef + -43).
  cbn [scaled cond_Zopp] in Hlt. unfold UNIT in Hlt.
  pose proof (pow2_pos (ef + 1074) ltac:(lia)) as HP.
  assert (Hneg : ef < 0).
  { destruct (Z_lt_le_dec ef 0) as [H|H]; [exact H|]. exfalso.
    assert (2 ^ 1074 <= 2 ^ (ef + 1074)) by (apply Z.pow_le_mono_r; lia).
    nia. }
  assert (Hmf : Zpos mf < 2 ^ (- ef)).
  { replace 1074 with (- ef + (ef + 1074)) in Hlt at 2 by lia.
    rewrite (Z.pow_add_r 2 (- ef) (ef + 1074)) in Hlt by lia. nia. }
  assert (HM : M < 1000 * 2 ^ (- E)).
  { subst M E. replace (- (ef + -43)) with (- ef + 43) by lia.
    rewrite Z.pow_add_r by lia. change (2 ^ 43) with 8796093022208. nia. }
  assert (HM0 : 0 < M) by (subst M; lia).
  pose proof (Zdigits2_pos (Zpos mf) ltac:(lia)) as Hdmf.
  assert (HdM_lo : Zdigits2 (Zpos mf) + 52 <= Zdigits2 M).
  { rewrite <- (Zdigits2_mul_pow2 (Zpos mf) 52) by lia.
    apply Zdigits2_le. subst M. change (2 ^ 52) with 4503599627370496. lia. }
  assert (HdM_hi : Zdigits2 M + E <= 10).
  { assert (Zdigits2 M <= 10 - E); [|lia].
    apply Zdigits2_lt_pow2; [subst E; lia|]. split; [lia|].
    replace (10 - E) with (10 + - E) by lia.
    rewrite Z.pow_add_r by (subst E; lia). change (2 ^ 10) with 1024.
    pose proof (pow2_pos (- E) ltac:(subst E; lia)). lia. }
  assert (Hpre : E <= fexp prec emax (Zdigits2 M + E)).
  { rewrite fexp_eq. lia. }
  pose proof (binary_round_aux_class false M E loc_Exact ltac:(lia) Hpre)
    as Hclass.
  destruct (binary_round_aux_spec false M E loc_Exact ltac:(lia) Hpre)
    as (m1 & Hm1 & _ & Hr & _ & Hres).
  rewrite fexp_eq in Hm1, Hres.
  set (e' := Z.max (Zdigits2 M + E - 53) (-1074)) in *.
  assert (He' : -1074 <= e' <= -43) by (subst e'; lia).
  assert (HE : E <= e') by (rewrite fexp_eq in Hpre; subst e'; lia).
  set (K := 1000 * 2 ^ (- e')).
  pose proof (pow2_pos (e' - E) ltac:(lia)) as Hp1.
  pose proof (pow2_pos (- e') ltac:(lia)) as Hp2.
  pose proof (pow2_pos (e' + 1074) ltac:(lia)) as Hp3.
  assert (HK : 1000 * 2 ^ (- E) = K * 2 ^ (e' - E)).
  { subst K. rewrite <- Z.mul_assoc, <- Z.pow_add_r by lia.
    f_equal. f_equal. lia. }
  assert (Hq : M / 2 ^ (e' - E) < K)
    by (apply Z.div_lt_upper_bound; lia).
  assert (Hm1K : m1 <= K) by lia.
  assert (HKU : K * 2 ^ (e' + 1074) = 1000 * UNIT).
  { subst K. unfold UNIT. rewrite <- Z.mul_assoc, <- Z.pow_add_r by lia.
    f_equal. f_equal. lia. }
  rewrite Hres in Hclass |- *.
  destruct (Z.eqb_spec m1 0); [split; [reflexivity|cbn; lia]|].
  destruct (Z.eqb_spec m1 (2 ^ 53)) as [E53|N53].
  - destruct (Z.leb_spec (e' + 1) 971); [|lia].
    destruct Hclass as [_ Hb]. cbn [nonneg_finite negb andb].
    split; [exact Hb|]. cbn [scaled cond_Zopp].
    replace (e' + 1 + 1074) with (1 + (e' + 1074)) by lia.
    rewrite (Z.pow_add_r 2 1 (e' + 1074)) by lia.
    change (Z.pos (Z.to_pos (2 ^ 52)) * (2 ^ 1 * 2 ^ (e' + 1074)))
      with (4503599627370496 * (2 * 2 ^ (e' + 1074))).
    rewrite <- HKU. change (2 ^ 53) with 9007199254740992 in E53. nia.
  - destruct (Z.leb_spec e' 971); [|lia].
    destruct Hclass as [_ Hb]. cbn [nonneg_finite negb andb].
    split; [exact Hb|]. cbn [scaled cond_Zopp].
    rewrite Z2Pos.id by lia. rewrite <- HKU. nia.
Qed.

(** Rounding a double between 0 and 1000 gives an integer between 0 and
    1000. *)
Lemma round_bound (p : float) :
  nonneg_finite p = true -> scaled p <= 1000 * UNIT ->
  exists ms : Z, round p = Ok ms /\ 0 <= ms <= 1000.
Proof.
  pure. intros Hp Hle.
  destruct (nonneg_finite_inv p Hp) as [->|(m & e & -> & He & Hd & _)].
  { exists 0. split; [reflexivity|lia]. }
  cbn [round cond_Zopp]. eexists. split; [reflexivity|].
  cbn [scaled cond_Zopp] in Hle. unfold UNIT in Hle.
  unfold round_magnitude.
  pose proof (pow2_pos (e + 1074) ltac:(lia)) as HP.
  destruct (Z.leb_spec 0 e) as [H0|H0].
  - rewrite Z.shiftl_mul_pow2 by lia.
    rewrite Z.pow_add_r, Z.mul_assoc in Hle by lia.
    pose proof (pow2_pos e H0). pose proof (pow2_pos 1074 ltac:(lia)). nia.
  - rewrite Z.shiftr_div_pow2, Z.shiftl_mul_pow2 by lia.
    rewrite Z.shiftl_mul_pow2 by lia. rewrite Z.mul_1_l.
    pose proof (pow2_pos (- e) ltac:(lia)) as Hpe.
    assert (Hm : Zpos m <= 1000 * 2 ^ (- e)).
    { replace 1074 with (- e + (e + 1074)) in Hle at 2 by lia.
      rewrite (Z.pow_add_r 2 (- e) (e + 1074)) in Hle by lia. nia. }
    set (q := Zpos m / 2 ^ (- e)).
    assert (Hq : 0 <= q <= 1000).
    { subst q. split; [apply Z.div_pos; lia|].
      apply Z.div_le_upper_bound; lia. }
    assert (Hqm : q * 2 ^ (- e) <= Zpos m).
    { subst q. rewrite Z.mul_comm. apply Z.mul_div_le. lia. }
    assert (Hhalf : 0 < 2 ^ (- e - 1)) by (apply pow2_pos; lia).
    destruct (Z.compare_spec (Zpos m - q * 2 ^ (- e)) (2 ^ (- e - 1)))
      as [Heq|Hlt|Hgt].
    + destruct (Z.even q); [lia|].
      destruct (Z.eq_dec q 1000) as [E|E]; [|lia]. exfalso.
      rewrite E in *. lia.
    + lia.
    + destruct (Z.eq_dec q 1000) as [E|E]; [|lia]. exfalso.
      rewrite E in *. lia.
Qed.

(* ------------------------------------------------------------------- *)
(** ** The time code *)

Lemma all_digits_app (a b : string) :
  all_digits (a +:+ b) = all_digits a && all_digits b.
Proof.
  induction a as [|x a IH]; [reflexivity|].
  rewrite sapp_cons. cbn [all_digits]. rewrite IH, andb_assoc. reflexivity.
Qed.

Lemma all_digits_zeros (k : nat) : all_digits (zeros k) = true.
Proof. induction k as [|k IH]; [reflexivity|exact IH]. Qed.

Lemma length_zeros (k : nat) : String.length (zeros k) = k.
Proof. induction k as [|k IH]; [reflexivity|]. cbn. f_equal. exact IH. Qed.

(** The decimal digits of a number that is not negative: one digit or
    more, and digits only. *)
Lemma digits_shape (n : Z) :
  0 <= n ->
  all_digits (digits n) = true /\ (1 <= String.length (digits n))%nat.
Proof.
  pure. intros Hn. revert Hn.
  induction n as [n IH] using (well_founded_induction (Z.lt_wf 0)).
  intros Hn. destruct (Z_lt_le_dec n 10) as [Hs|Hb].
  - rewrite digits_lt_10 by lia. cbn [all_digits String.length].
    rewrite isdigit_digit_char by lia. split; [reflexivity|lia].
  - rewrite digits_ge_10 by lia.
    destruct (IH (n / 10)) as [Hd Hl]; [zdiv|zdiv|].
    rewrite all_digits_app, Hd, length_sapp. cbn [all_digits String.length].
    rewrite isdigit_digit_char by zdiv. split; [reflexivity|lia].
Qed.

(** [{n:02d}] of a number that is not negative: two digits or more. *)
Lemma pad2_shape (n : Z) :
  0 <= n ->
  all_digits (pad2 n) = true /\ (2 <= String.length (pad2 n))%nat.
Proof.
  pure. intros Hn. unfold pad2, fmt_0d.
  destruct (Z.ltb_spec n 0); [lia|].
  destruct (digits_shape n Hn) as [Hd Hl].
  rewrite all_digits_app, all_digits_zeros, Hd, length_sapp, length_zeros.
  split; [reflexivity|lia].
Qed.

(** [{n:03d}] below a thousand: three digits. *)
Lemma pad3_small (n : Z) :
  0 <= n < 1000 ->
  pad3 n
  = String (digit_char (n / 100))
      (String (digit_char (n / 10 mod 10))
         (String (digit_char (n mod 10)) "")).
Proof.
  pure. intros Hn. unfold pad3, fmt_0d.
  destruct (Z.ltb_spec n 0); [lia|].
  destruct (Z_lt_le_dec n 10) as [H1|H1].
  { rewrite digits_lt_10 by lia.
    rewrite !Z.div_small, !Z.mod_small by lia. reflexivity. }
  rewrite digits_ge_10 by lia.
  destruct (Z_lt_le_dec n 100) as [H2|H2].
  { rewrite digits_lt_10 by zdiv.
    replace (n / 100) with 0 by zdiv.
    rewrite (Z.mod_small (n / 10)) by zdiv. reflexivity. }
  rewrite (digits_ge_10 (n / 10)) by zdiv.
  rewrite Z.div_div by lia. change (10 * 10) with 100.
  rewrite digits_lt_10 by zdiv. reflexivity.
Qed.

(** [{n:03d}] of a thousand: four characters. *)
Lemma pad3_1000 : pad3 1000 = "1000".
Proof. reflexivity. Qed.

Lemma tc_hours_app (d t : string) (n : nat) :
  all_digits d = true -> tc_tail t = true ->
  (2 <= n + String.length d)%nat ->
  tc_hours n (d +:+ t) = true.
Proof.
  pure. revert n. induction d as [|c d IH]; intros n Hd Ht Hn.
  - rewrite sapp_nil_l. cbn [String.length] in Hn.
    destruct t as [|c t]; [discriminate|].
    assert (c = ":"%char) as ->.
    { cbn [tc_tail] in Ht.
      destruct (Ascii.ascii_dec c ":") as [E|E]; [exact E|].
      destruct c as [[] [] [] [] [] [] [] []]; try discriminate;
        contradiction E; reflexivity. }
    cbn [tc_hours]. change (isdigit ":") with false. cbv iota.
    rewrite Ht, andb_true_r. apply Nat.leb_le. lia.
  - rewrite sapp_cons. cbn [all_digits] in Hd.
    apply andb_true_iff in Hd as [Hc Hd]. cbn [tc_hours]. rewrite Hc.
    apply IH; [exact Hd|exact Ht|]. cbn [String.length] in Hn. lia.
Qed.

(** A time code assembled from hours, minutes, seconds and milliseconds
    in their ranges has the shape [HH:MM:SS,mmm]. *)
Lemma timecode_shape (hh mm ss ms : Z) :
  0 <= hh -> 0 <= mm < 60 -> 0 <= ss < 60 -> 0 <= ms < 1000 ->
  is_timecode (pad2 hh +:+ ":" +:+ pad2 mm +:+ ":" +:+ pad2 ss +:+ ","
               +:+ pad3 ms) = true.
Proof.
  pure. intros Hh Hm Hs Hms. unfold is_timecode.
  destruct (pad2_shape hh Hh) as [Hd Hl].
  apply tc_hours_app; [exact Hd| |lia].
  unfold pad2 at 1 2. rewrite !pad2_small by lia. rewrite pad3_small by lia.
  sapp. cbn [tc_tail].
  rewrite !isdigit_digit_char by zdiv. reflexivity.
Qed.

(** The conversion of a frame count that is not negative at a positive
    rate, where the quotient does not overflow: the whole seconds [s]
    are [int(seconds)], the milliseconds [round((seconds - s) * 1000)]
    lie between 0 and 1000, the fields come from [s] by the 3600/60
    decomposition, and the string has the shape [HH:MM:SS,mmm] unless
    the milliseconds are 1000. *)
Lemma frames_to_tc_ms_spec (frames : Z) (x : float) (my : positive) (ey : Z) :
  let fps := S754_finite false my ey in
  let seconds := SFdiv prec emax x fps in
  0 <= frames -> of_int frames = Ok x ->
  bounded prec emax my ey = true ->
  is_finite seconds = true ->
  exists (s ms : Z) (w : float),
    trunc seconds = Ok s /\ 0 <= s /\ s * UNIT <= scaled seconds < (s + 1) * UNIT /\
    of_int s = Ok w /\
    round (mul (sub seconds w) f1000) = Ok ms /\ 0 <= ms <= 1000 /\
    frames_to_tc_ms frames fps
    = Ok (pad2 (s / 3600) +:+ ":" +:+ pad2 (s mod 3600 / 60) +:+ ":"
          +:+ pad2 (s mod 60) +:+ "," +:+ pad3 ms) /\
    (ms < 1000 ->
     is_timecode (pad2 (s / 3600) +:+ ":" +:+ pad2 (s mod 3600 / 60) +:+ ":"
                  +:+ pad2 (s mod 60) +:+ "," +:+ pad3 ms) = true).
Proof.
  pure. intros fps seconds Hf Hx Hb Hfin.
  pose proof (of_int_class frames x Hf Hx) as Hnx.
  pose proof (div_class x my ey Hnx Hb Hfin) as Hsec. fold fps seconds in Hsec.
  destruct (trunc_spec seconds Hsec) as [Htr Hpos].
  destruct (of_int_trunc seconds Hsec) as (w & Hw & Hnw & Hsw).
  destruct (sub_trunc seconds w Hsec Hw) as [Hnf Hsf].
  pose proof (pow2_pos 1074 ltac:(lia)) as HU. fold UNIT in HU.
  pose proof (Z.mod_pos_bound (scaled seconds) UNIT HU) as Hmod.
  destruct (mul_1000_bound (sub seconds w) Hnf ltac:(lia)) as [Hnp Hsp].
  destruct (round_bound _ Hnp Hsp) as (ms & Hms & Hrange).
  set (s := scaled seconds / UNIT) in *.
  assert (Hs0 : 0 <= s) by (subst s; apply Z.div_pos; lia).
  exists s, ms, w. split; [exact Htr|]. split; [exact Hs0|].
  split.
  { pose proof (Z.div_mod (scaled seconds) UNIT ltac:(lia)) as Hdm.
    fold s in Hdm. lia. }
  split; [exact Hw|]. split; [exact Hms|]. split; [exact Hrange|]. split.
  - unfold frames_to_tc_ms. rewrite Hx. cbn [rbind].
    unfold div. fold seconds. cbn [is_zero fps]. cbn [rbind].
    rewrite Htr. cbn [rbind]. rewrite Hw. cbn [rbind].
    rewrite of_int_1000. cbn [rbind]. rewrite Hms. cbn [rbind]. reflexivity.
  - intros Hlt. apply timecode_shape; [zdiv|zdiv|zdiv|lia].
Qed.

(* ------------------------------------------------------------------- *)
(** ** The sequence rate *)

(** [float(n)] is exact up to [2^53] in absolute value. *)
Lemma of_int_small (n : Z) :
  Z.abs n <= 2 ^ 53 ->
  exists x : float,
    of_int n = Ok x /\ is_finite x = true /\ scaled x = n * UNIT.
Proof.
  pure. intros Hn.
  assert (Hd : forall p : positive,
             Zpos p <= 2 ^ 53 ->
             let ec := fexp prec emax (Zdigits2 (Zpos p) + 0) in
             (ec <= 0 \/ Zpos p mod 2 ^ (ec - 0) = 0) /\ ec <= 971).
  { intros p Hp ec. subst ec. rewrite fexp_eq, Z.add_0_r.
    assert (Hdp : Zdigits2 (Zpos p) <= 54).
    { destruct (Z.eq_dec (Zpos p) (2 ^ 53)) as [E|E].
      - rewrite E, Zdigits2_pow2 by lia. lia.
      - assert (Zdigits2 (Zpos p) <= 53); [|lia].
        apply Zdigits2_lt_pow2; lia. }
    split; [|lia].
    destruct (Z_le_gt_dec (Zdigits2 (Zpos p)) 53) as [H53|H54]; [left; lia|].
    right. assert (E : Zpos p = 2 ^ 53).
    { destruct (Z.eq_dec (Zpos p) (2 ^ 53)) as [E|E]; [exact E|].
      assert (Zdigits2 (Zpos p) <= 53); [|lia].
      apply Zdigits2_lt_pow2; lia. }
    rewrite E, Zdigits2_pow2 by lia. reflexivity. }
  destruct n as [|p|p].
  - exists (S754_zero false). repeat split.
  - destruct (Hd p ltac:(lia)) as [Hrep Hec].
    destruct (binary_round_exact false p 0 Hrep Hec) as (M & HM & _ & Hle & Hge).
    set (ec := fexp prec emax (Zdigits2 (Z.pos p) + 0)) in *.
    exists (S754_finite false M ec). unfold of_int, binary_normalize.
    rewrite HM. split; [reflexivity|]. split; [reflexivity|].
    assert (Hlo : -1074 <= ec) by (subst ec; rewrite fexp_eq; lia).
    assert (Hv : Zpos M * 2 ^ (ec + 1074) = Zpos p * 2 ^ 1074).
    { destruct (Z_le_gt_dec ec 0) as [H0|H0].
      - rewrite (Hle H0), <- Z.mul_assoc, <- Z.pow_add_r by lia.
        f_equal. f_equal. lia.
      - rewrite <- (Hge ltac:(lia)), Z.sub_0_r, <- Z.mul_assoc,
          <- Z.pow_add_r by lia.
        reflexivity. }
    unfold scaled, UNIT. cbn [cond_Zopp]. lia.
  - destruct (Hd p ltac:(lia)) as [Hrep Hec].
    destruct (binary_round_exact true p 0 Hrep Hec) as (M & HM & _ & Hle & Hge).
    set (ec := fexp prec emax (Zdigits2 (Z.pos p) + 0)) in *.
    exists (S754_finite true M ec). unfold of_int, binary_normalize.
    rewrite HM. split; [reflexivity|]. split; [reflexivity|].
    assert (Hlo : -1074 <= ec) by (subst ec; rewrite fexp_eq; lia).
    assert (Hv : Zpos M * 2 ^ (ec + 1074) = Zpos p * 2 ^ 1074).
    { destruct (Z_le_gt_dec ec 0) as [H0|H0].
      - rewrite (Hle H0), <- Z.mul_assoc, <- Z.pow_add_r by lia.
        f_equal. f_equal. lia.
      - rewrite <- (Hge ltac:(lia)), Z.sub_0_r, <- Z.mul_assoc,
          <- Z.pow_add_r by lia.
        reflexivity. }
    unfold scaled, UNIT. cbn [cond_Zopp]. lia.
Qed.

(* ------------------------------------------------------------------- *)
(** ** The order of the gathered clips *)

Lemma insert_clip_sorted (c : Clip) (l : list Clip) :
  Sorted.StronglySorted (fun a b => start_frames a <= start_frames b) l ->
  Sorted.StronglySorted (fun a b => start_frames a <= start_frames b)
    (insert_clip c l).
Proof.
  pure. induction 1 as [|x l Hl IH Hx]; cbn [insert_clip].
  - constructor; constructor.
  - destruct (Z.leb_spec (start_frames c) (start_frames x)) as [Hle|Hgt].
    + constructor; [constructor; assumption|].
      constructor; [exact Hle|].
      eapply Forall_impl; [exact Hx|]. cbn. intros; lia.
    + constructor; [exact IH|].
      apply Forall_forall. intros y Hy.
      apply list_elem_of_In, insert_clip_In in Hy as [->|Hy]; [lia|].
      rewrite Forall_forall in Hx. apply Hx, list_elem_of_In, Hy.
Qed.

Lemma sort_clips_sorted (l : list Clip) :
  Sorted.StronglySorted (fun a b => start_frames a <= start_frames b)
    (sort_clips l).
Proof.
  pure. induction l as [|c l IH]; [constructor|].
  apply insert_clip_sorted, IH.
Qed.

Lemma insert_clip_perm (c : Clip) (l : list Clip) :
  Permutation (insert_clip c l) (c :: l).
Proof.
  pure. induction l as [|x l IH]; cbn [insert_clip]; [reflexivity|].
  destruct (start_frames c <=? start_frames x); [reflexivity|].
  rewrite IH. apply perm_swap.
Qed.

Lemma sort_clips_perm (l : list Clip) : Permutation (sort_clips l) l.
Proof.
  pure. induction l as [|c l IH]; [reflexivity|].
  cbn [sort_clips fold_right]. rewrite insert_clip_perm.
  constructor. exact IH.
Qed.

(** Inserting a clip puts it before the clips of the same start. *)
Lemma insert_clip_filter (k : Z) (c : Clip) (l : list Clip) :
  Sorted.StronglySorted (fun a b => start_frames a <= start_frames b) l ->
  List.filter (fun x => start_frames x =? k) (insert_clip c l)
  = List.filter (fun x => start_frames x =? k) (c :: l).
Proof.
  pure. induction 1 as [|x l Hl IH Hx]; cbn [insert_clip]; [reflexivity|].
  destruct (Z.leb_spec (start_frames c) (start_frames x)) as [Hle|Hgt];
    [reflexivity|].
  cbn [List.filter] in IH |- *. rewrite IH.
  destruct (Z.eqb_spec (start_frames x) k) as [Ex|Nx];
    destruct (Z.eqb_spec (start_frames c) k) as [Ec|Nc];
    try reflexivity.
  lia.
Qed.

Lemma sort_clips_filter (k : Z) (l : list Clip) :
  List.filter (fun x => start_frames x =? k) (sort_clips l)
  = List.filter (fun x => start_frames x =? k) l.
Proof.
  pure. induction l as [|c l IH]; [reflexivity|].
  cbn [sort_clips fold_right].
  rewrite insert_clip_filter by apply sort_clips_sorted.
  cbn [List.filter]. fold (sort_clips l). rewrite IH. reflexivity.
Qed.

(** X1. The clips gathered from a timeline are in the order of their start
    frames, whatever the order of the clip items in the document. *)
Theorem gather_v1_clips_sorted (root : Element) :
  Sorted.StronglySorted (fun a b => start_frames a <= start_frames b)
    (gather_v1_clips root).
Proof.
  unfold gather_v1_clips.
  destruct (find_desc "sequence" ["media"; "video"] root) as [video|];
    [|constructor].
  destruct (findall "track" video) as [|v1 others]; [constructor|].
  apply sort_clips_sorted.
Qed.

(** X2. The sort keeps every clip read from the first track, once each, and
    it is stable: the clips that start at the same frame stay in the
    order of the document. *)
Theorem gather_v1_clips_stable
    (root video v1 : Element) (others : list Element) :
  find_desc "sequence" ["media"; "video"] root = Some video ->
  findall "track" video = v1 :: others ->
  Permutation (gather_v1_clips root)
    (omap clip_of_item (findall "clipitem" v1)) /\
  forall k : Z,
    List.filter (fun c => start_frames c =? k) (gather_v1_clips root)
    = List.filter (fun c => start_frames c =? k)
        (omap clip_of_item (findall "clipitem" v1)).
Proof.
  intros Hv Ht. unfold gather_v1_clips. rewrite Hv, Ht.
  split; [apply sort_clips_perm|]. intros k. apply sort_clips_filter.
Qed.

(* ------------------------------------------------------------------- *)
(** ** What the helpers never return *)

Lemma rev_string_app (a b : string) :
  rev_string (a +:+ b) = rev_string b +:+ rev_string a.
Proof.
  induction a as [|x a IH]; sapp; cbn [rev_string].
  - rewrite sapp_nil_r. reflexivity.
  - rewrite IH, sapp_assoc. reflexivity.
Qed.

Lemma year_field_head (y : string) :
  year_field y = true ->
  exists a b : ascii, y = String "2" (String "0" (String a (String b ""))).
Proof.
  destruct y as [|c1 [|c2 [|a [|b [|? ?]]]]]; cbn [year_field];
    try discriminate;
    try (destruct c1 as [[] [] [] [] [] [] [] []]; discriminate);
    try (destruct c1 as [[] [] [] [] [] [] [] []]; try discriminate;
         destruct c2 as [[] [] [] [] [] [] [] []]; discriminate).
  destruct c1 as [[] [] [] [] [] [] [] []]; try discriminate;
    destruct c2 as [[] [] [] [] [] [] [] []]; try discriminate.
  intros _. exists a, b. reflexivity.
Qed.

(** A string built by the file name fallback passes the test of the
    metadata loop. *)
Lemma stamp_accepted (y mo d H Mi : string) :
  year_field y = true -> accepted (stamp y mo d H Mi) = true.
Proof.
  intros Hy. destruct (year_field_head y Hy) as (a & b & ->).
  apply accepted_iff. split; [|split].
  - unfold stamp. rewrite !sapp_cons. discriminate.
  - unfold stamp, endswith.
    rewrite <- !sapp_assoc, rev_string_app.
    change (rev_string ":00+0000") with "0000+00:". rewrite sapp_cons.
    reflexivity.
  - unfold stamp. rewrite !sapp_cons. reflexivity.
Qed.

Lemma query_tags_accepted (ts : list string) (p raw : string) :
  query_tags ts p = Some raw -> accepted raw = true.
Proof.
  induction ts as [|t ts IH]; cbn [query_tags]; [discriminate|].
  unfold accepted. set (out := answer t p).
  destruct (truthy out) eqn:Ht; destruct (endswith ":" out) eqn:He;
    cbn [andb negb]; try exact IH.
  destruct (degenerate out) eqn:Hd; [exact IH|].
  intros [= <-]. rewrite Ht, He, Hd. reflexivity.
Qed.

Lemma filename_fallback_accepted (fn raw : string) :
  filename_fallback fn = Some raw -> accepted raw = true.
Proof.
  unfold filename_fallback.
  destruct (search pattern_ymd fn) as [c|] eqn:Hs.
  - destruct (search_sound _ _ _ Hs) as (pre & s' & rest & _ & Hm).
    destruct (rmatch_pattern_ymd _ _ _ Hm)
      as (y & mo & d & H & Mi & S & s1 & s2 & s3 & s4 & s5 & _ & Hg & Hy & _).
    rewrite Hg. intros [= <-]. apply stamp_accepted, Hy.
  - destruct (search pattern_mdy fn) as [c|] eqn:Hs'; [|discriminate].
    destruct (search_sound _ _ _ Hs') as (pre & s' & rest & _ & Hm).
    destruct (rmatch_pattern_mdy _ _ _ Hm)
      as (mo & d & y & H & Mi & S & s3 & _ & Hg & Hy & _).
    rewrite Hg. intros [= <-]. apply stamp_accepted, Hy.
Qed.

(** X4. Whatever the resolver returns, from a metadata field or from the
    file name, is not empty, does not end in a colon and does not start
    with [0000]: the caller's test [if not dt] tells exactly the case of
    no date. *)
Theorem run_exiftool_never_degenerate (p raw : string) :
  run_exiftool p = Some raw ->
  raw <> "" /\ endswith ":" raw = false /\ startswith "0000" raw = false.
Proof.
  intros H. apply accepted_iff. revert H. unfold run_exiftool.
  destruct (query_tags tags p) as [out|] eqn:Hq.
  - intros [= <-]. eapply query_tags_accepted, Hq.
  - apply filename_fallback_accepted.
Qed.

(** X5. No cue has an empty caption: the caption is the marker with the
    display name, the normalized time or the raw string, and none of
    them is empty. *)
Theorem caption_of_never_empty (c : Clip) (cap : string) :
  caption_of c = Ok cap -> cap <> "".
Proof.
  unfold caption_of.
  destruct (run_exiftool (path c)) as [raw|] eqn:Hr;
    cbn [truthy_opt or_empty negb].
  - rewrite (run_exiftool_truthy _ _ Hr). cbn [negb].
    destruct (to_local_no_seconds raw) as [[n|]|e] eqn:Hn;
      cbn [rbind truthy_opt or_empty]; [| |discriminate].
    + rewrite (to_local_no_seconds_truthy _ _ Hn).
      intros [= <-] ->. apply to_local_no_seconds_truthy in Hn.
      discriminate Hn.
    + intros [= <-] ->. apply run_exiftool_truthy in Hr. discriminate Hr.
  - intros [= <-]. discriminate.
Qed.

(* ------------------------------------------------------------------- *)
(** ** The diagnostics of a run *)

(** The events of the loop are progress lines for clip numbers that
    increase, one line at most for a clip, and none at all while the
    clock stays within three seconds of the last line. *)
Lemma build_events (fps : float) (total : Z) (clips : list Clip) :
  forall (i idx : Z) (lines : list string) (last_print : float),
  0 <= i ->
  exists js : list Z,
    (build fps total clips i idx lines last_print).1
    = (fun j => Stderr (progress_msg j total)) <$> js /\
    Forall (fun j => i <= j < i + Z.of_nat (List.length clips)) js /\
    Sorted.StronglySorted Z.lt js /\
    ((forall k : nat, (Z.to_nat i <= k)%nat ->
        geb (sub (clock k) last_print) f3 = false) -> js = []).
Proof.
  induction clips as [|c rest IH]; intros i idx lines last_print Hi.
  - exists []. repeat split; constructor.
  - cbn [build].
    destruct (frames_to_tc_ms (start_frames c) fps) as [s|e];
      [|exists []; repeat split; constructor].
    destruct (frames_to_tc_ms (end_frames c) fps) as [e'|e];
      [|exists []; repeat split; constructor].
    destruct (caption_of c) as [cap|e];
      [|exists []; repeat split; constructor].
    cbn [lift bind rbind app].
    set (lines' := (lines ++ cue_lines idx s e' cap)%list).
    destruct (geb (sub (clock (Z.to_nat i)) last_print) f3) eqn:Hg.
    + destruct (IH (i + 1) (idx + 1) lines' (clock (Z.to_nat i))
                  ltac:(lia)) as (js & Hev & Hin & Hs & _).
      exists (i :: js). cbn [emit bind app].
      destruct (build fps total rest (i + 1) (idx + 1) lines'
                  (clock (Z.to_nat i))) as [evs r].
      cbn [fst] in Hev |- *. subst evs. repeat split.
      * constructor.
        -- cbn [List.length]. lia.
        -- eapply Forall_impl; [exact Hin|]. cbn [List.length].
           cbn beta. intros; lia.
      * constructor; [exact Hs|].
        eapply Forall_impl; [exact Hin|]. cbn beta. intros; lia.
      * intros Hq. rewrite (Hq (Z.to_nat i)) in Hg by lia. discriminate Hg.
    + destruct (IH (i + 1) (idx + 1) lines' last_print ltac:(lia))
        as (js & Hev & Hin & Hs & Hquiet).
      exists js.
      destruct (build fps total rest (i + 1) (idx + 1) lines' last_print)
        as [evs r].
      cbn [fst] in Hev |- *. repeat split.
      * exact Hev.
      * eapply Forall_impl; [exact Hin|]. cbn [List.length].
        cbn beta. intros; lia.
      * exact Hs.
      * intros Hq. apply Hquiet. intros k Hk. apply Hq. lia.
Qed.

(** X6. A run that writes the document says so in its last line: the path,
    the number of cues, which is the number of clips gathered, and the
    rate. Before the write it emits progress lines only, for clip
    numbers between 1 and the total that increase, and none when no
    reading of the clock is three seconds or more after the first. *)
Theorem main_diagnostics (a xml_path : string) (rest : list string)
    (fs : gmap string string) (content : string) (root : Element)
    (fps : float) (cues : list Cue) :
  fs !! xml_path = Some content ->
  xml_fromstring content = Some root ->
  get_sequence_rate root = Ok fps ->
  gather_v1_clips root <> [] ->
  cues_of fps 1 (gather_v1_clips root) = Ok cues ->
  let total := Z.of_nat (List.length (gather_v1_clips root)) in
  exists js : list Z,
    main (a :: xml_path :: rest) fs
    = ((((fun j => Stderr (progress_msg j total)) <$> js)
        ++ [Write (out_path_of xml_path) (document cues);
            Stderr ("Wrote " +:+ out_path_of xml_path +:+ " with "
                    +:+ str_of_int total +:+ " cues at "
                    +:+ float_repr fps +:+ " fps")])%list,
       Ok tt) /\
    Forall (fun j => 1 <= j <= total) js /\
    Sorted.StronglySorted Z.lt js /\
    ((forall k : nat, geb (sub (clock k) (clock 0)) f3 = false) -> js = []).
Proof.
  intros Hfs Hxml Hrate Hne Hcues total. unfold main.
  rewrite Hfs, Hxml, Hrate. cbn [lift bind app].
  destruct (gather_v1_clips root) as [|c clips] eqn:Hg; [congruence|].
  destruct (build_events fps total (c :: clips) 1 1 [] (clock 0) ltac:(lia))
    as (js & Hev & Hin & Hs & Hquiet).
  destruct (build_spec fps total (c :: clips) 1 1 [] (clock 0))
    as (evs & _ & Hb).
  fold total. rewrite Hb in Hev |- *. cbn [fst] in Hev. subst evs.
  rewrite Hcues. cbn [bind emit app fst snd].
  exists js. split; [|split; [|split]].
  - rewrite (cues_of_length _ _ _ _ Hcues). fold total.
    replace (1 + total - 1) with total by lia. reflexivity.
  - eapply Forall_impl; [exact Hin|]. cbn beta. subst total. intros; lia.
  - exact Hs.
  - intros Hq. apply Hquiet. intros k _. apply Hq.
Qed.

(** X7. At the timebase 0 the rate is 0.0 and the first conversion of a
    frame count divides by it: the run raises [ZeroDivisionError]
    before any line is printed and nothing is written. *)
Theorem main_zero_timebase (a xml_path : string) (rest : list string)
    (fs : gmap string string) (content : string) (root rate : Element)
    (c : Clip) (cs : list Clip) :
  fs !! xml_path = Some content ->
  xml_fromstring content = Some root ->
  find_desc "sequence" ["rate"] root = Some rate ->
  int_opt (findtext "timebase" rate) = Some 0 ->
  gather_v1_clips root = c :: cs ->
  Z.abs (start_frames c) <= 2 ^ 53 ->
  main (a :: xml_path :: rest) fs = ([], Raise ZeroDivisionError).
Proof.
  intros Hfs Hxml Hrate Htb Hg Hsmall.
  assert (Hfps : get_sequence_rate root = Ok (S754_zero false)).
  { unfold get_sequence_rate. rewrite Hrate, Htb.
    destruct (lower (or_empty (findtext "ntsc" rate)) =? "true")%string;
      reflexivity. }
  unfold main. rewrite Hfs, Hxml, Hfps. cbn [lift bind app]. rewrite Hg.
  cbn [build].
  destruct (of_int_small (start_frames c) Hsmall) as (x & Hx & _).
  unfold frames_to_tc_ms at 1. rewrite Hx. reflexivity.
Qed.

(* ------------------------------------------------------------------- *)
(** ** The output path *)

Lemma contains_app (ch : ascii) (a b : string) :
  contains ch (a +:+ b) = contains ch a || contains ch b.
Proof.
  induction a as [|x a IH]; sapp; cbn [contains]; [reflexivity|].
  rewrite IH, orb_assoc. reflexivity.
Qed.

Lemma rpartition_spec (ch : ascii) (s : string) :
  match rpartition ch s with
  | Some (h, t) => s = h +:+ String ch t /\ contains ch t = false
  | None => contains ch s = false
  end.
Proof.
  induction s as [|a s IH]; cbn [rpartition contains]; [reflexivity|].
  destruct (rpartition ch s) as [[h t]|].
  - destruct IH as [-> Ht]. split; [reflexivity|exact Ht].
  - destruct (Ascii.eqb_spec a ch) as [->|Hne].
    + split; [reflexivity|exact IH].
    + exact IH.
Qed.

Lemma basename_no_slash (p : string) : contains "/" (basename p) = false.
Proof.
  unfold basename, split_last. pose proof (rpartition_spec "/" p) as H.
  destruct (rpartition "/" p) as [[h t]|]; [apply H|exact H].
Qed.

Lemma rev_string_involutive (s : string) : rev_string (rev_string s) = s.
Proof.
  induction s as [|c s IH]; [reflexivity|].
  cbn [rev_string]. rewrite rev_string_snoc, IH. reflexivity.
Qed.

Lemma endswith_char (c : ascii) (s : string) :
  endswith (String c "") s = true -> exists s', s = s' +:+ String c "".
Proof.
  unfold endswith. change (rev_string (String c "")) with (String c "").
  intros H. destruct (rev_string s) as [|x r] eqn:E; [discriminate|].
  cbn [startswith] in H. rewrite andb_true_r in H.
  apply Ascii.eqb_eq in H as <-.
  exists (rev_string r). rewrite <- (rev_string_involutive s), E.
  reflexivity.
Qed.

(** The last component of a path joined from a directory and a name
    without a slash is the name. *)
Lemma basename_path_join (d n : string) :
  contains "/" n = false -> basename (path_join d n) = n.
Proof.
  intros Hn. unfold path_join.
  assert (Hs : startswith "/" n = false).
  { destruct n as [|x n]; [reflexivity|]. cbn [contains] in Hn.
    apply orb_false_iff in Hn as [Hx _]. cbn [startswith].
    rewrite Ascii.eqb_sym, Hx. reflexivity. }
  rewrite Hs. unfold basename, split_last.
  destruct (negb (truthy d) || endswith "/" d) eqn:Hd.
  - apply orb_true_iff in Hd as [Hd|Hd].
    + destruct d; [|discriminate Hd]. rewrite sapp_nil_l.
      rewrite (rpartition_absent _ _ Hn). reflexivity.
    + destruct (endswith_char _ _ Hd) as (d' & ->).
      rewrite sapp_assoc, sapp_cons, sapp_nil_l.
      rewrite (rpartition_last "/" d' n Hn). reflexivity.
  - rewrite sapp_cons, sapp_nil_l.
    rewrite (rpartition_last "/" d n Hn). reflexivity.
Qed.

(** What [splitext] leaves of a name without a slash: the name itself,
    or the part before a last dot that is followed by no other dot. *)
Lemma splitext_root_cases (b : string) :
  contains "/" b = false ->
  splitext_root b = b \/
  exists ext : string,
    b = splitext_root b +:+ String "." ext /\ contains "." ext = false.
Proof.
  intros Hb. unfold splitext_root.
  rewrite (rpartition_absent _ _ Hb).
  pose proof (rpartition_spec "." b) as H.
  destruct (rpartition "." b) as [[pre post]|]; [|left; reflexivity].
  destruct (all_char "." pre); [left; reflexivity|].
  right. exists post. rewrite sapp_nil_l. exact H.
Qed.

Lemma sapp_suffix (a b c d : string) :
  a +:+ b = c +:+ d -> (String.length d <= String.length b)%nat ->
  exists z : string, b = z +:+ d.
Proof.
  revert c. induction a as [|x a IH]; intros c H Hl.
  - exists c. exact H.
  - destruct c as [|y c].
    + rewrite sapp_nil_l in H. subst d. rewrite length_sapp in Hl.
      cbn [String.length] in Hl. lia.
    + rewrite !sapp_cons in H. injection H as _ H. exact (IH c H Hl).
Qed.

(** X8. The output path is never the path of the input: the run cannot
    overwrite the timeline it reads. *)
Theorem out_path_of_differs (xml_path : string) :
  out_path_of xml_path <> xml_path.
Proof.
  pure. intros Heq.
  pose proof (basename_no_slash xml_path) as Hb.
  set (b := basename xml_path) in *.
  assert (Hr : contains "/" (splitext_root b) = false).
  { destruct (splitext_root_cases b Hb) as [->|(ext & E & _)]; [exact Hb|].
    rewrite E, contains_app in Hb. apply orb_false_iff in Hb as [H _].
    exact H. }
  assert (Hn : contains "/" ("timestamps_" +:+ splitext_root b +:+ ".srt")
               = false).
  { rewrite !contains_app, Hr. reflexivity. }
  assert (Hbase : b = "timestamps_" +:+ splitext_root b +:+ ".srt").
  { subst b. rewrite <- Heq at 1. unfold out_path_of.
    apply basename_path_join. exact Hn. }
  destruct (splitext_root_cases b Hb) as [E|(ext & E & Hdot)].
  - rewrite E in Hbase. apply (f_equal String.length) in Hbase.
    rewrite !length_sapp in Hbase. cbn [String.length] in Hbase. lia.
  - rewrite E in Hbase at 1.
    assert (Hlen : String.length ext = 14%nat).
    { apply (f_equal String.length) in Hbase.
      rewrite !length_sapp in Hbase. cbn [String.length] in Hbase. lia. }
    rewrite <- (sapp_assoc "timestamps_") in Hbase.
    change (String "." ext) with ("." +:+ ext) in Hbase.
    rewrite <- sapp_assoc in Hbase.
    destruct (sapp_suffix _ _ _ _ Hbase) as (z & Hz).
    { rewrite Hlen. cbn. lia. }
    rewrite Hz, contains_app in Hdot.
    apply orb_false_iff in Hdot as [_ Hdot]. discriminate Hdot.
Qed.

Lemma rstrip_char_cases (ch : ascii) (s : string) :
  (all_char ch s = true /\ rstrip_char ch s = "") \/
  exists (d : string) (c : ascii),
    c <> ch /\ rstrip_char ch s = d +:+ String c "".
Proof.
  induction s as [|a r IH]; [left; split; reflexivity|].
  cbn [all_char rstrip_char].
  destruct IH as [[Hall Hr]|(d & c & Hc & Hr)]; rewrite Hr.
  - cbn [String.eqb andb]. destruct (Ascii.eqb_spec a ch) as [->|Hne].
    + left. rewrite Hall. split; reflexivity.
    + right. exists "", a. split; [exact Hne|reflexivity].
  - right. exists (String a d), c. split; [exact Hc|].
    destruct (d +:+ String c "") eqn:E; [destruct d; discriminate E|].
    cbn [String.eqb andb]. rewrite sapp_cons, E. reflexivity.
Qed.

Lemma endswith_snoc (c : ascii) (h : string) :
  endswith (String c "") (h +:+ String c "") = true.
Proof.
  unfold endswith. rewrite rev_string_snoc. cbn [rev_string].
  rewrite sapp_nil_l. cbn [startswith].
  rewrite Ascii.eqb_refl. reflexivity.
Qed.

(** The directory of a path joined from the directory of [p] and a name
    without a slash is the directory of [p]. *)
Lemma dirname_path_join (p n : string) :
  contains "/" n = false ->
  dirname (path_join (dirname p) n) = dirname p.
Proof.
  intros Hn.
  assert (Hs : startswith "/" n = false).
  { destruct n as [|x n]; [reflexivity|]. cbn [contains] in Hn.
    apply orb_false_iff in Hn as [Hx _]. cbn [startswith].
    rewrite Ascii.eqb_sym, Hx. reflexivity. }
  unfold dirname at 2 3.
  destruct (rpartition "/" p) as [[h t]|].
  - destruct (all_char "/" (h +:+ "/")) eqn:Hall.
    + unfold path_join. rewrite Hs, endswith_snoc, orb_true_r.
      unfold dirname. rewrite sapp_assoc, sapp_cons, sapp_nil_l.
      rewrite (rpartition_last "/" h n Hn), Hall. reflexivity.
    + destruct (rstrip_char_cases "/" (h +:+ "/"))
        as [[Hall' _]|(d & c & Hc & ->)]; [congruence|].
      rewrite (path_join_dir d c n Hc Hs).
      unfold dirname. rewrite sapp_cons, sapp_nil_l.
      rewrite (rpartition_last "/" (d +:+ String c "") n Hn).
      rewrite sapp_assoc, sapp_cons, sapp_nil_l.
      rewrite (all_char_snoc "/" c d "/" Hc).
      apply rstrip_char_snoc, Hc.
  - unfold path_join. rewrite Hs. cbn [truthy String.eqb negb orb].
    rewrite sapp_nil_l. unfold dirname.
    rewrite (rpartition_absent _ _ Hn). reflexivity.
Qed.

(** X9. The document is written into the directory of the timeline, under
    the name [timestamps_<stem>.srt], where the stem is the name of the
    timeline without its extension. *)
Theorem out_path_of_same_directory (xml_path : string) :
  dirname (out_path_of xml_path) = dirname xml_path /\
  basename (out_path_of xml_path)
  = "timestamps_" +:+ splitext_root (basename xml_path) +:+ ".srt".
Proof.
  pure.
  pose proof (basename_no_slash xml_path) as Hb.
  assert (Hr : contains "/" (splitext_root (basename xml_path)) = false).
  { destruct (splitext_root_cases _ Hb) as [->|(ext & E & _)]; [exact Hb|].
    rewrite E, contains_app in Hb. apply orb_false_iff in Hb as [H _].
    exact H. }
  assert (Hn : contains "/"
                 ("timestamps_" +:+ splitext_root (basename xml_path)
                  +:+ ".srt") = false).
  { rewrite !contains_app, Hr. reflexivity. }
  unfold out_path_of. split.
  - apply dirname_path_join, Hn.
  - apply basename_path_join, Hn.
Qed.

(* ------------------------------------------------------------------- *)
(** ** Timestamps in the format asked of exiftool *)

Lemma Z_enum (P : Z -> Prop) (lo : Z) (cnt : nat) :
  (forall k : nat, (k < cnt)%nat -> P (lo + Z.of_nat k)) ->
  forall n : Z, lo <= n < lo + Z.of_nat cnt -> P n.
Proof.
  intros H n Hn. replace n with (lo + Z.of_nat (Z.to_nat (n - lo))) by lia.
  apply H. lia.
Qed.

(** Case analysis over the integers [lo], ..., [lo + cnt - 1]; the goal
    is a property of [n] with the bounds of [n] in the context. *)
Ltac enum_from k lo tac :=
  first
    [ exfalso; lia
    | destruct k as [|k];
      [ match goal with
        | |- context [lo + Z.of_nat ?j] =>
            let v := eval vm_compute in (lo + Z.of_nat j) in
            change (lo + Z.of_nat j) with v
        end; tac
      | enum_from k lo tac ] ].

Ltac enum_cases n lo cnt tac :=
  let k := fresh "k" in
  let Hk := fresh "Hk" in
  pattern n; apply (Z_enum _ lo cnt); [|lia];
  intros k Hk; enum_from k lo tac.

Ltac literal_pad2 :=
  repeat match goal with
         | |- context [pad2 ?n] =>
             let t := eval vm_compute in (pad2 n) in
             change (pad2 n) with t
         end.

Ltac eval_tests :=
  repeat (match goal with
          | |- context [if ?b then _ else _] =>
              let v := eval vm_compute in b in change b with v
          end; cbv iota).

(** A field of two digits in the range of its directive is matched as a
    whole, and the match goes on after it. *)
Ltac run_field :=
  literal_pad2; intros; rewrite ?sapp_cons, ?sapp_nil_l;
  cbn [run seq alt lit set range digit]; eval_tests;
  rewrite consumed_2;
  match goal with
  | H : _ = Some _ |- _ => rewrite H; reflexivity
  end.

Lemma run_directive_m {A : Type} (n : Z) (rest : string) (c : captures)
    (k : string -> captures -> option A) (res : A) (r : re) :
  directive "m" = Some r -> 1 <= n <= 12 ->
  k rest ((gm, pad2 n) :: c) = Some res ->
  run r (pad2 n +:+ rest) c k = Some res.
Proof.
  pure. intros [= <-] Hn. revert rest c k res.
  enum_cases n 1 12%nat run_field.
Qed.

Lemma run_directive_d {A : Type} (n : Z) (rest : string) (c : captures)
    (k : string -> captures -> option A) (res : A) (r : re) :
  directive "d" = Some r -> 1 <= n <= 31 ->
  k rest ((gd, pad2 n) :: c) = Some res ->
  run r (pad2 n +:+ rest) c k = Some res.
Proof.
  pure. intros [= <-] Hn. revert rest c k res.
  enum_cases n 1 31%nat run_field.
Qed.

Lemma run_directive_H {A : Type} (n : Z) (rest : string) (c : captures)
    (k : string -> captures -> option A) (res : A) (r : re) :
  directive "H" = Some r -> 0 <= n <= 23 ->
  k rest ((gH, pad2 n) :: c) = Some res ->
  run r (pad2 n +:+ rest) c k = Some res.
Proof.
  pure. intros [= <-] Hn. revert rest c k res.
  enum_cases n 0 24%nat run_field.
Qed.

Lemma run_directive_M {A : Type} (n : Z) (rest : string) (c : captures)
    (k : string -> captures -> option A) (res : A) (r : re) :
  directive "M" = Some r -> 0 <= n <= 59 ->
  k rest ((gM, pad2 n) :: c) = Some res ->
  run r (pad2 n +:+ rest) c k = Some res.
Proof.
  pure. intros [= <-] Hn. revert rest c k res.
  enum_cases n 0 60%nat run_field.
Qed.

Lemma run_directive_S {A : Type} (n : Z) (rest : string) (c : captures)
    (k : string -> captures -> option A) (res : A) (r : re) :
  directive "S" = Some r -> 0 <= n <= 59 ->
  k rest ((gS, pad2 n) :: c) = Some res ->
  run r (pad2 n +:+ rest) c k = Some res.
Proof.
  pure. intros [= <-] Hn. revert rest c k res.
  enum_cases n 0 60%nat run_field.
Qed.

Lemma run_directive_Y {A : Type} (n : Z) (rest : string) (c : captures)
    (k : string -> captures -> option A) (res : A) (r : re) :
  directive "Y" = Some r -> 0 <= n <= 9999 ->
  k rest ((gY, fmt_0d 4 n) :: c) = Some res ->
  run r (fmt_0d 4 n +:+ rest) c k = Some res.
Proof.
  pure. intros [= <-] Hn. rewrite pad4_small by lia. intros Hk.
  rewrite !sapp_cons, sapp_nil_l. cbn [run seq digit].
  rewrite !isdigit_digit_char by zdiv.
  rewrite consumed_4. exact Hk.
Qed.

Lemma colon_digit_char (d : Z) :
  0 <= d <= 9 -> Ascii.eqb ":" (digit_char d) = false.
Proof.
  pure. intros Hd.
  enum_cases d 0 10%nat ltac:(reflexivity).
Qed.

Lemma consumed_all (s : string) : consumed s "" = s.
Proof.
  unfold consumed. cbn [String.length]. rewrite Nat.sub_0_r.
  induction s as [|a s IH]; [reflexivity|].
  cbn [String.length String.substring]. f_equal. exact IH.
Qed.

(** An offset of a sign, two digits of hours and two of minutes at the
    end of the string is matched as a whole. *)
Lemma run_directive_z {A : Type} (neg : bool) (oh om : Z) (c : captures)
    (k : string -> captures -> option A) (res : A) (r : re) :
  directive "z" = Some r -> 0 <= oh <= 99 -> 0 <= om <= 59 ->
  let z := String (if neg then "-" else "+")%char (pad2 oh +:+ pad2 om) in
  k "" ((gz, z) :: c) = Some res ->
  run r z c k = Some res.
Proof.
  pure. intros [= <-] Hoh Hom z. subst z. unfold pad2.
  rewrite !pad2_small by lia. rewrite !sapp_cons, sapp_nil_l.
  assert (Hx : 0 <= om / 10 <= 5) by zdiv.
  assert (Hy : 0 <= om mod 10 <= 9) by zdiv.
  generalize dependent (om mod 10). generalize dependent (om / 10).
  clear om Hom. intros x Hx y Hy.
  assert (Ha : 0 <= oh / 10 <= 9) by zdiv.
  assert (Hb : 0 <= oh mod 10 <= 9) by zdiv.
  generalize dependent (oh mod 10). generalize dependent (oh / 10).
  clear oh Hoh. intros a Ha b Hb.
  cbn [run seq alt lit set range digit].
  rewrite (isdigit_digit_char a Ha), (isdigit_digit_char b Hb),
    (isdigit_digit_char y Hy).
  rewrite (colon_digit_char x) by lia.
  revert k res. enum_cases x 0 6%nat
    ltac:(intros k res Hrun; destruct neg; eval_tests;
          rewrite consumed_all, Hrun; reflexivity).
Qed.

Lemma digit_val_digit_char (d : Z) :
  0 <= d <= 9 -> digit_val (digit_char d) = d.
Proof.
  pure. intros Hd. enum_cases d 0 10%nat ltac:(reflexivity).
Qed.

Lemma isspace_digit_char (d : Z) :
  0 <= d <= 9 -> isspace (digit_char d) = false.
Proof.
  pure. intros Hd. enum_cases d 0 10%nat ltac:(reflexivity).
Qed.

Lemma digit_char_colon (d : Z) :
  0 <= d <= 9 -> Ascii.eqb (digit_char d) ":" = false.
Proof.
  pure. intros Hd. enum_cases d 0 10%nat ltac:(reflexivity).
Qed.

(** [int] of two and of four digits. *)
Lemma int_pad2 (n : Z) : 0 <= n <= 99 -> int (pad2 n) = Some n.
Proof.
  pure. intros Hn. enum_cases n 0 100%nat ltac:(vm_compute; reflexivity).
Qed.

Lemma int_two_digits (a b : Z) :
  0 <= a <= 9 -> 0 <= b <= 9 ->
  int (String (digit_char a) (String (digit_char b) "")) = Some (10 * a + b).
Proof.
  pure. intros Ha Hb. revert b Hb.
  enum_cases a 0 10%nat
    ltac:(intros b Hb; enum_cases b 0 10%nat ltac:(vm_compute; reflexivity)).
Qed.

Lemma isdigit_not_space (c : ascii) :
  isdigit c = true -> isspace_int c = false.
Proof.
  destruct c as [[] [] [] [] [] [] [] []]; try discriminate; reflexivity.
Qed.

Lemma rstrip_int_digits (s : string) :
  all_digits s = true -> rstrip_int s = s.
Proof.
  induction s as [|c s IH]; [reflexivity|].
  cbn [all_digits rstrip_int]. intros H.
  apply andb_true_iff in H as [Hc Hs].
  rewrite (IH Hs), (isdigit_not_space c Hc), andb_false_r. reflexivity.
Qed.

Lemma int_pad4 (n : Z) : 0 <= n <= 9999 -> int (fmt_0d 4 n) = Some n.
Proof.
  pure. intros Hn. rewrite pad4_small by lia.
  assert (Ha : 0 <= n / 1000 <= 9) by zdiv.
  assert (Hb : 0 <= n / 100 mod 10 <= 9) by zdiv.
  assert (Hc : 0 <= n / 10 mod 10 <= 9) by zdiv.
  assert (Hd : 0 <= n mod 10 <= 9) by zdiv.
  transitivity (Some (10 * (10 * (10 * (n / 1000) + n / 100 mod 10)
                            + n / 10 mod 10) + n mod 10));
    [|f_equal; zdiv].
  generalize dependent (n mod 10). generalize dependent (n / 10 mod 10).
  generalize dependent (n / 100 mod 10). generalize dependent (n / 1000).
  clear n Hn. intros a Ha b Hb c Hc d Hd.
  unfold int. cbn [lstrip_int].
  rewrite (isdigit_not_space _ (isdigit_digit_char a Ha)).
  rewrite rstrip_int_digits
    by (cbn [all_digits]; rewrite !isdigit_digit_char by assumption;
        reflexivity).
  assert (Hrest :
            int_body (String (digit_char a) (String (digit_char b)
              (String (digit_char c) (String (digit_char d) ""))))
            = Some (10 * (10 * (10 * a + b) + c) + d)).
  { unfold int_body. cbn [count_digits int_digits].
    rewrite !isdigit_digit_char, !digit_val_digit_char by assumption.
    change (MAX_STR_DIGITS <? Z.of_nat (1 + (1 + (1 + (1 + 0))))) with false.
    cbv iota. f_equal; lia. }
  rewrite <- Hrest. clear Hrest.
  enum_cases a 0 10%nat ltac:(reflexivity).
Qed.

(** The offset [+hhmm] or [-hhmm] in microseconds. *)
Lemma parse_z_hhmm (neg : bool) (oh om : Z) :
  0 <= oh <= 99 -> 0 <= om <= 59 ->
  parse_z (String (if neg then "-" else "+")%char (pad2 oh +:+ pad2 om))
  = Some ((if neg then -1 else 1)
          * ((oh * 60 * 60 + om * 60) * US_PER_SECOND)).
Proof.
  pure. intros Hoh Hom. unfold pad2.
  rewrite !pad2_small by lia. rewrite !sapp_cons, sapp_nil_l.
  pose proof (int_two_digits (oh / 10) (oh mod 10) ltac:(zdiv) ltac:(zdiv))
    as Hh.
  pose proof (int_two_digits (om / 10) (om mod 10) ltac:(zdiv) ltac:(zdiv))
    as Hm.
  replace (10 * (oh / 10) + oh mod 10) with oh in Hh by zdiv.
  replace (10 * (om / 10) + om mod 10) with om in Hm by zdiv.
  pose proof (digit_char_colon (om / 10) ltac:(zdiv)) as Hcolon.
  generalize dependent (om mod 10). generalize dependent (om / 10).
  generalize dependent (oh mod 10). generalize dependent (oh / 10).
  intros a b Hh x Hcolon y Hm.
  unfold parse_z.
  replace (String (if neg then "-"%char else "+"%char)
             (String (digit_char a) (String (digit_char b)
                (String (digit_char x) (String (digit_char y) ""))))
           =? "Z")%string with false by (destruct neg; reflexivity).
  cbn [slice slice_from String.substring String.length Nat.sub].
  cbn [String.eqb]. rewrite Hcolon.
  cbn [mbind option_bind slice slice_from String.substring String.length
       Nat.sub].
  rewrite Hh.
  cbn [mbind option_bind slice slice_from String.substring String.length
       Nat.sub].
  rewrite Hm.
  cbn [mbind option_bind slice slice_from String.substring String.length
       Nat.sub truthy String.eqb negb zeros].
  rewrite sapp_nil_l.
  change (int "000000") with (Some 0).
  cbn [mbind option_bind]. f_equal.
  destruct neg; cbn [startswith]; eval_tests; lia.
Qed.

Lemma pattern_seconds_offset :
  exists rY rm rd rH rM rS rz : re,
    directive "Y" = Some rY /\ directive "m" = Some rm /\
    directive "d" = Some rd /\ directive "H" = Some rH /\
    directive "M" = Some rM /\ directive "S" = Some rS /\
    directive "z" = Some rz /\
    pattern "%Y-%m-%d %H:%M:%S%z" false
    = Some [rY; lit "-"; rm; lit "-"; rd; Plus isspace; rH; lit ":"; rM;
            lit ":"; rS; rz].
Proof. do 7 eexists. repeat split; reflexivity. Qed.

Lemma star_isspace_pad2 {A : Type} (n : Z) (rest : string)
    (k : string -> option A) :
  0 <= n <= 99 ->
  star isspace (pad2 n +:+ rest) k = k (pad2 n +:+ rest).
Proof.
  pure. intros Hn. unfold pad2. rewrite pad2_small by lia.
  rewrite !sapp_cons. cbn [star].
  rewrite isspace_digit_char by zdiv. reflexivity.
Qed.

(** The first format of the normalizer matches a date in the format
    asked of exiftool, and the groups are its fields. *)
Lemma rmatch_exiftool_date (y m d H M S : Z) (neg : bool) (oh om : Z)
    (rs : list re) :
  pattern "%Y-%m-%d %H:%M:%S%z" false = Some rs ->
  0 <= y <= 9999 -> 1 <= m <= 12 -> 1 <= d <= 31 -> 0 <= H <= 23 ->
  0 <= M <= 59 -> 0 <= S <= 59 -> 0 <= oh <= 99 -> 0 <= om <= 59 ->
  rmatch (seq rs) (exiftool_date y m d H M S neg oh om)
  = Some ("", [(gz, String (if neg then "-" else "+")%char
                      (pad2 oh +:+ pad2 om));
               (gS, pad2 S); (gM, pad2 M); (gH, pad2 H); (gd, pad2 d);
               (gm, pad2 m); (gY, fmt_0d 4 y)]).
Proof.
  pure. intros Hp Hy Hm Hd HH HM HS Hoh Hom.
  destruct pattern_seconds_offset
    as (rY & rm & rd & rH & rM & rS & rz & EY & Em & Ed & EH & EM & ES & Ez
        & Hpat).
  rewrite Hpat in Hp. injection Hp as <-.
  unfold rmatch, exiftool_date. cbn [seq run].
  apply (run_directive_Y _ _ _ _ _ _ EY Hy). cbv beta.
  rewrite sapp_cons, sapp_nil_l. cbn [run lit]. eval_tests.
  apply (run_directive_m _ _ _ _ _ _ Em Hm). cbv beta.
  rewrite sapp_cons, sapp_nil_l. cbn [run lit]. eval_tests.
  apply (run_directive_d _ _ _ _ _ _ Ed Hd). cbv beta.
  rewrite sapp_cons, sapp_nil_l. cbn [run]. eval_tests.
  rewrite star_isspace_pad2 by lia.
  apply (run_directive_H _ _ _ _ _ _ EH HH). cbv beta.
  rewrite sapp_cons, sapp_nil_l. cbn [run lit]. eval_tests.
  apply (run_directive_M _ _ _ _ _ _ EM HM). cbv beta.
  rewrite sapp_cons, sapp_nil_l. cbn [run lit]. eval_tests.
  apply (run_directive_S _ _ _ _ _ _ ES HS). cbv beta.
  apply (run_directive_z neg oh om _ _ _ _ Ez Hoh Hom). reflexivity.
Qed.

(** [strptime] with the first format on such a date: the fields, and
    the offset as the zone. *)
Lemma strptime_exiftool_date (y m d H M S : Z) (neg : bool) (oh om : Z) :
  1 <= y <= 9999 -> 1 <= m <= 12 -> 1 <= d <= days_in_month y m ->
  0 <= H <= 23 -> 0 <= M <= 59 -> 0 <= S <= 59 ->
  0 <= oh <= 23 -> 0 <= om <= 59 ->
  strptime (exiftool_date y m d H M S neg oh om) "%Y-%m-%d %H:%M:%S%z"
  = Some {| year := y; month := m; day := d; hour := H; minute := M;
            second := S; microsecond := 0;
            tzinfo := Some (offset_seconds neg oh om * US_PER_SECOND) |}.
Proof.
  pure. intros Hy Hm Hd HH HM HS Hoh Hom.
  pose proof (days_in_month_le_31 y m) as H31.
  unfold strptime.
  destruct pattern_seconds_offset
    as (rY & rm & rd & rH & rM & rS & rz & _ & _ & _ & _ & _ & _ & _ & Hpat).
  rewrite Hpat. cbn [mbind option_bind].
  rewrite (rmatch_exiftool_date y m d H M S neg oh om _ Hpat)
    by lia.
  cbn [mbind option_bind truthy String.eqb negb].
  cbn [field lookup_group gY gm gd gH gM gS gz Nat.eqb].
  rewrite int_pad4 by lia. cbn [mbind option_bind].
  rewrite !int_pad2 by lia. cbn [mbind option_bind].
  assert (Hvd : valid_date y m d = true).
  { unfold valid_date, MINYEAR, MAXYEAR.
    repeat (apply andb_true_intro; split); apply Z.leb_le; lia. }
  rewrite Hvd. rewrite parse_z_hhmm by lia. cbn [mbind option_bind].
  assert (Hvo : valid_offset ((if neg then -1 else 1)
                  * ((oh * 60 * 60 + om * 60) * US_PER_SECOND)) = true).
  { unfold valid_offset, US_PER_DAY, US_PER_SECOND.
    apply andb_true_intro. split; apply Z.ltb_lt; destruct neg; lia. }
  rewrite Hvo. unfold new_datetime. rewrite Hvd.
  assert (Hvt : valid_time H M S 0 = true).
  { unfold valid_time.
    repeat (apply andb_true_intro; split); apply Z.leb_le; lia. }
  rewrite Hvt. cbn [andb]. unfold offset_seconds.
  do 2 f_equal. f_equal. lia.
Qed.

(* ------------------------------------------------------------------- *)
(** ** The calendar: one date for an ordinal *)

Lemma days_before_year_succ (y : Z) :
  days_before_year (y + 1)
  = days_before_year y + 365 + (if is_leap y then 1 else 0).
Proof.
  pure. unfold days_before_year, is_leap.
  replace (y + 1 - 1) with y by lia.
  destruct (Z.eqb_spec (y mod 4) 0), (Z.eqb_spec (y mod 100) 0),
    (Z.eqb_spec (y mod 400) 0); cbn [negb andb orb]; zdiv.
Qed.

Lemma days_before_year_mono (y y' : Z) :
  y < y' -> days_before_year (y + 1) <= days_before_year y'.
Proof. pure. unfold days_before_year. intros H. zdiv. Qed.

Lemma day_of_year_bounds (y m d : Z) :
  1 <= m <= 12 -> 1 <= d <= days_in_month y m ->
  1 <= days_before_month y m + d <= 365 + (if is_leap y then 1 else 0).
Proof.
  pure. intros Hm. unfold days_in_month, days_before_month. revert d.
  enum_cases m 1 12%nat
    ltac:(intros d; destruct (is_leap y); cbn; lia).
Qed.

Lemma day_of_year_inj (y m d m' d' : Z) :
  1 <= m <= 12 -> 1 <= d <= days_in_month y m ->
  1 <= m' <= 12 -> 1 <= d' <= days_in_month y m' ->
  days_before_month y m + d = days_before_month y m' + d' ->
  m = m' /\ d = d'.
Proof.
  pure. intros Hm Hd Hm'. revert d Hd d'.
  unfold days_in_month, days_before_month.
  enum_cases m 1 12%nat
    ltac:(intros d Hd d'; revert d Hd d';
          enum_cases m' 1 12%nat
            ltac:(intros d Hd d'; destruct (is_leap y); cbn in *; lia)).
Qed.

Lemma ymd2ord_bounds (y m d : Z) :
  1 <= m <= 12 -> 1 <= d <= days_in_month y m ->
  days_before_year y < ymd2ord y m d <= days_before_year (y + 1).
Proof.
  pure. intros Hm Hd. unfold ymd2ord. rewrite days_before_year_succ.
  pose proof (day_of_year_bounds y m d Hm Hd). lia.
Qed.

Lemma valid_date_inv (y m d : Z) :
  valid_date y m d = true ->
  1 <= y <= 9999 /\ 1 <= m <= 12 /\ 1 <= d <= days_in_month y m.
Proof.
  pure. unfold valid_date, MINYEAR, MAXYEAR. intros H.
  repeat (apply andb_true_iff in H as [H ?]).
  repeat match goal with
         | H : (_ <=? _) = true |- _ => apply Z.leb_le in H
         end.
  lia.
Qed.

Lemma ymd2ord_inj (y m d y' m' d' : Z) :
  valid_date y m d = true -> valid_date y' m' d' = true ->
  ymd2ord y m d = ymd2ord y' m' d' ->
  y = y' /\ m = m' /\ d = d'.
Proof.
  pure. intros Hv Hv' Heq.
  apply valid_date_inv in Hv as (Hy & Hm & Hd).
  apply valid_date_inv in Hv' as (Hy' & Hm' & Hd').
  pose proof (ymd2ord_bounds y m d Hm Hd) as Hb.
  pose proof (ymd2ord_bounds y' m' d' Hm' Hd') as Hb'.
  assert (y = y') as <-.
  { destruct (Z.lt_trichotomy y y') as [Hlt|[E|Hgt]]; [|exact E|].
    - pose proof (days_before_year_mono y y' Hlt). lia.
    - pose proof (days_before_year_mono y' y ltac:(lia)). lia. }
  split; [reflexivity|].
  unfold ymd2ord in Heq.
  apply (day_of_year_inj y m d m' d' Hm Hd Hm' Hd'). lia.
Qed.

Lemma valid_time_inv (H M S us : Z) :
  valid_time H M S us = true ->
  0 <= H <= 23 /\ 0 <= M <= 59 /\ 0 <= S <= 59 /\ 0 <= us <= 999999.
Proof.
  pure. unfold valid_time. intros Hv.
  repeat (apply andb_true_iff in Hv as [Hv ?]).
  repeat match goal with
         | H : (_ <=? _) = true |- _ => apply Z.leb_le in H
         end.
  lia.
Qed.

(** Two valid values at the same count of microseconds show the same
    date and time. *)
Lemma to_us_inj (a b : datetime) :
  valid_datetime a = true -> valid_datetime b = true ->
  to_us a = to_us b ->
  year a = year b /\ month a = month b /\ day a = day b /\
  hour a = hour b /\ minute a = minute b /\ second a = second b /\
  microsecond a = microsecond b.
Proof.
  pure. unfold valid_datetime, to_us, US_PER_SECOND. intros Ha Hb Heq.
  apply andb_true_iff in Ha as [Hda Hta].
  apply andb_true_iff in Hb as [Hdb Htb].
  apply valid_time_inv in Hta. apply valid_time_inv in Htb.
  assert (Hord : ymd2ord (year a) (month a) (day a)
                 = ymd2ord (year b) (month b) (day b)) by lia.
  destruct (ymd2ord_inj _ _ _ _ _ _ Hda Hdb Hord) as (Ey & Em & Ed).
  repeat split; try assumption; lia.
Qed.

(* ------------------------------------------------------------------- *)
(** ** The normalizer on the dates exiftool prints *)

Lemma truthy_exiftool_date (y m d H M S : Z) (neg : bool) (oh om : Z) :
  0 <= y <= 9999 ->
  truthy (exiftool_date y m d H M S neg oh om) = true.
Proof.
  pure. intros Hy. unfold exiftool_date. rewrite pad4_small by lia.
  rewrite sapp_cons. reflexivity.
Qed.

(** X14. A date in the format asked of exiftool is always recognised, by the
    first format: the normalizer answers the local date and time of the
    instant, and raises [OverflowError] only when the instant in UTC or
    on the local clock leaves the years 1 to 9999. It never answers none
    for such a date. The answer spells the local year without padding
    and the other fields on two digits, so that it has the shape
    [YYYY-MM-DD HH:MM] when the local year is 1000 or later. *)
Theorem to_local_no_seconds_exiftool_date
    (y m d H M S : Z) (neg : bool) (oh om : Z) :
  1 <= y <= 9999 -> 1 <= m <= 12 -> 1 <= d <= days_in_month y m ->
  0 <= H <= 23 -> 0 <= M <= 59 -> 0 <= S <= 59 ->
  0 <= oh <= 23 -> 0 <= om <= 59 ->
  let t := (((ymd2ord y m d * 24 + H) * 60 + M) * 60 + S) * US_PER_SECOND in
  let utc := t - offset_seconds neg oh om * US_PER_SECOND in
  let loc := utc + local_utcoffset * US_PER_SECOND in
  (in_range utc && in_range loc = true ->
   exists l : datetime,
     to_local_no_seconds (exiftool_date y m d H M S neg oh om)
     = Ok (Some (strftime_ymd_hm l)) /\
     to_us l = loc /\ valid_datetime l = true /\
     strftime_ymd_hm l
     = str_of_int (year l) +:+ "-" +:+ pad2 (month l) +:+ "-"
       +:+ pad2 (day l) +:+ " " +:+ pad2 (hour l) +:+ ":"
       +:+ pad2 (minute l) /\
     (1000 <= year l -> is_ymd_hm (strftime_ymd_hm l) = true)) /\
  (in_range utc && in_range loc = false ->
   to_local_no_seconds (exiftool_date y m d H M S neg oh om)
   = Raise OverflowError).
Proof.
  intros Hy Hm Hd HH HM HS Hoh Hom t utc loc.
  unfold to_local_no_seconds.
  rewrite truthy_exiftool_date by lia. cbn [negb].
  unfold fmts. cbn [first_parse].
  rewrite strptime_exiftool_date by assumption.
  cbn [tzinfo].
  set (dt := replace_tzinfo _ _).
  assert (Ht : to_us dt = t).
  { subst dt t. rewrite to_us_replace_tzinfo. unfold to_us.
    cbn [year month day hour minute second microsecond]. lia. }
  destruct (astimezone_spec dt (offset_seconds neg oh om * US_PER_SECOND)
              (local_utcoffset * US_PER_SECOND)) as [Hin Hout].
  rewrite Ht in Hin, Hout. fold utc loc in Hin, Hout. split.
  - intros Hr. destruct (Hin Hr) as (l & Hl & Hus & Hv).
    exists l. rewrite Hl. cbn [rbind].
    split; [reflexivity|]. split; [exact Hus|]. split; [exact Hv|].
    split; [reflexivity|]. apply strftime_ymd_hm_shape, Hv.
  - intros Hr. rewrite (Hout Hr). reflexivity.
Qed.

(** X15. When the offset of the date is the offset of the local zone, the
    normalizer only drops the seconds and the offset, and prints the
    year without padding: from the year 1000 on the answer is the first
    sixteen characters of the date, and below it the year has lost its
    leading zeros. *)
Theorem to_local_no_seconds_own_zone
    (y m d H M S : Z) (neg : bool) (oh om : Z) :
  2 <= y <= 9998 -> 1 <= m <= 12 -> 1 <= d <= days_in_month y m ->
  0 <= H <= 23 -> 0 <= M <= 59 -> 0 <= S <= 59 ->
  0 <= oh <= 23 -> 0 <= om <= 59 ->
  local_utcoffset = offset_seconds neg oh om ->
  to_local_no_seconds (exiftool_date y m d H M S neg oh om)
  = Ok (Some (str_of_int y +:+ "-" +:+ pad2 m +:+ "-" +:+ pad2 d +:+ " "
              +:+ pad2 H +:+ ":" +:+ pad2 M)) /\
  (1000 <= y ->
   to_local_no_seconds (exiftool_date y m d H M S neg oh om)
   = Ok (Some (fmt_0d 4 y +:+ "-" +:+ pad2 m +:+ "-" +:+ pad2 d +:+ " "
               +:+ pad2 H +:+ ":" +:+ pad2 M))).
Proof.
  intros Hy Hm Hd HH HM HS Hoh Hom Hloc.
  assert (Hmain :
    to_local_no_seconds (exiftool_date y m d H M S neg oh om)
    = Ok (Some (str_of_int y +:+ "-" +:+ pad2 m +:+ "-" +:+ pad2 d +:+ " "
                +:+ pad2 H +:+ ":" +:+ pad2 M)));
    [|split; [exact Hmain|];
      intros H1000; rewrite Hmain, str_of_int_pad4 by lia; reflexivity].
  unfold to_local_no_seconds.
  rewrite truthy_exiftool_date by lia. cbn [negb].
  unfold fmts. cbn [first_parse].
  rewrite strptime_exiftool_date by (assumption || lia).
  cbn [tzinfo].
  set (dt0 := {| year := y; month := m; day := d; hour := H; minute := M;
                 second := S; microsecond := 0;
                 tzinfo := Some (offset_seconds neg oh om * US_PER_SECOND) |}).
  set (dt := replace_tzinfo dt0 _).
  assert (Hvd : valid_datetime dt0 = true).
  { unfold valid_datetime, valid_date, valid_time, MINYEAR, MAXYEAR.
    cbn [year month day hour minute second microsecond dt0].
    repeat (apply andb_true_intro; split); apply Z.leb_le; lia. }
  assert (Ht : to_us dt = to_us dt0) by apply to_us_replace_tzinfo.
  pose proof (ymd2ord_bounds y m d Hm Hd) as Hord.
  pose proof (days_before_year_mono 1 y ltac:(lia)) as Hlo.
  pose proof (days_before_year_mono y 9999 ltac:(lia)) as Hhi.
  change (days_before_year (1 + 1)) with 365 in Hlo.
  change (days_before_year 9999) with 3651694 in Hhi.
  assert (Hoff : - US_PER_DAY < offset_seconds neg oh om * US_PER_SECOND
                 < US_PER_DAY).
  { unfold offset_seconds, US_PER_DAY, US_PER_SECOND. destruct neg; lia. }
  assert (Hus : 366 * US_PER_DAY <= to_us dt0 < 3651695 * US_PER_DAY).
  { unfold to_us, US_PER_DAY, US_PER_SECOND in *.
    cbn [year month day hour minute second microsecond dt0]. lia. }
  destruct (astimezone_spec dt (offset_seconds neg oh om * US_PER_SECOND)
              (local_utcoffset * US_PER_SECOND)) as [Hin _].
  destruct Hin as (l & Hl & Hlus & Hv).
  { rewrite Ht, Hloc. unfold in_range, MAXORDINAL.
    unfold US_PER_DAY, US_PER_SECOND in *.
    repeat (apply andb_true_intro; split);
      first [apply Z.leb_le | apply Z.ltb_lt]; lia. }
  rewrite Hl. cbn [rbind]. do 2 f_equal.
  assert (Heq : to_us l = to_us dt0) by (rewrite Hlus, Ht, Hloc; lia).
  destruct (to_us_inj l dt0 Hv Hvd Heq) as (Ey & Em & Ed & EH & EM & _).
  unfold strftime_ymd_hm, pad2. rewrite Ey, Em, Ed, EH, EM. reflexivity.
Qed.

(* ------------------------------------------------------------------- *)
(** ** Whole seconds *)

Lemma new_location_exact (n : Z) : new_location n 0 = loc_Exact.
Proof.
  unfold new_location, new_location_even, new_location_odd.
  destruct (Z.even n); reflexivity.
Qed.

(** A quotient that is an integer below [2^53] is computed exactly. *)
Lemma div_exact (mx : positive) (ex : Z) (my : positive) (ey : Z) (V : Z) :
  bounded prec emax mx ex = true -> bounded prec emax my ey = true ->
  0 < V < 2 ^ 53 ->
  scaled (S754_finite false mx ex) = V * scaled (S754_finite false my ey) ->
  nonneg_finite (SFdiv prec emax (S754_finite false mx ex)
                   (S754_finite false my ey)) = true /\
  scaled (SFdiv prec emax (S754_finite false mx ex) (S754_finite false my ey))
  = V * UNIT.
Proof.
  pure. intros Hbx Hby HV Hval.
  apply bounded_iff in Hbx as [Hcx Hex]. apply bounded_iff in Hby as [Hcy Hey].
  cbn [scaled cond_Zopp] in Hval.
  assert (Hlx : -1074 <= ex) by lia. assert (Hly : -1074 <= ey) by lia.
  pose proof (Zdigits2_bounds (Zpos mx) ltac:(lia)) as [Hx1 Hx2].
  pose proof (Zdigits2_bounds (Zpos my) ltac:(lia)) as [Hy1 Hy2].
  pose proof (Zdigits2_pos (Zpos mx) ltac:(lia)) as Hd1.
  pose proof (Zdigits2_pos (Zpos my) ltac:(lia)) as Hd2.
  unfold SFdiv, SFdiv_core_binary. cbn [xorb].
  set (d1 := Zdigits2 (Zpos mx)) in *. set (d2 := Zdigits2 (Zpos my)) in *.
  set (k := d1 + ex - (d2 + ey)).
  set (e' := Z.min (fexp prec emax k) (ex - ey)).
  set (s := ex - ey - e').
  assert (Hs : 0 <= s) by (subst s e'; lia).
  pose proof (pow2_pos (ex + 1074) ltac:(lia)) as Hpx.
  pose proof (pow2_pos (ey + 1074) ltac:(lia)) as Hpy.
  assert (Hk : k <= 53).
  { assert (Hlt : 2 ^ (d1 - 1 + (ex + 1074)) < 2 ^ (53 + d2 + (ey + 1074))).
    { rewrite (Z.pow_add_r 2 (d1 - 1) (ex + 1074)) by lia.
      rewrite (Z.pow_add_r 2 (53 + d2) (ey + 1074)) by lia.
      rewrite (Z.pow_add_r 2 53 d2) by lia.
      pose proof (pow2_pos d2 ltac:(lia)).
      apply Z.le_lt_trans with (Zpos mx * 2 ^ (ex + 1074)); [nia|].
      rewrite Hval, Z.mul_assoc.
      apply Z.mul_lt_mono_pos_r; [lia|].
      fold d2 in Hy2. change (2 ^ 53) with 9007199254740992 in *. nia. }
    apply Z.pow_lt_mono_r_iff in Hlt; lia. }
  assert (He'0 : e' <= 0) by (subst e'; rewrite fexp_eq; lia).
  assert (He'lo : -1074 <= fexp prec emax k) by (rewrite fexp_eq; lia).
  set (m' := match s with
             | 0 => Z.pos mx
             | Z.pos _ => Z.shiftl (Z.pos mx) s
             | Z.neg _ => 0
             end).
  assert (Hm' : m' = Zpos mx * 2 ^ s).
  { subst m'. destruct s as [|p|p] eqn:Es; [cbn; lia| |lia].
    rewrite Z.shiftl_mul_pow2 by lia. reflexivity. }
  pose proof (pow2_pos s Hs) as Hps.
  pose proof (pow2_pos (- e') ltac:(lia)) as Hpe.
  assert (Hm'V : m' = V * 2 ^ (- e') * Zpos my).
  { apply (Z.mul_reg_r _ _ (2 ^ (ey + 1074))); [lia|].
    rewrite Hm'.
    replace (Z.pos mx * 2 ^ s * 2 ^ (ey + 1074))
      with (Z.pos mx * 2 ^ (ex + 1074) * 2 ^ (- e')).
    - rewrite Hval. ring.
    - rewrite <- !Z.mul_assoc, <- !Z.pow_add_r by lia.
      f_equal. f_equal. subst s. lia. }
  assert (Hdiv : Z.div_eucl m' (Zpos my) = (V * 2 ^ (- e'), 0)).
  { pose proof (Z.div_eucl_eq m' (Zpos my) ltac:(lia)) as Heq.
    pose proof (Z.mod_pos_bound m' (Zpos my) ltac:(lia)) as Hmod.
    assert (Hq : m' / Zpos my = V * 2 ^ (- e'))
      by (rewrite Hm'V; apply Z.div_mul; lia).
    assert (Hr : m' mod Zpos my = 0)
      by (rewrite Hm'V; apply Z.mod_mul; lia).
    unfold Z.div in Hq. unfold Z.modulo in Hr.
    destruct (Z.div_eucl m' (Z.pos my)) as [q r].
    cbn [fst snd] in Hq, Hr. congruence. }
  rewrite Hdiv, new_location_exact.
  set (Q := V * 2 ^ (- e')).
  assert (HQ : 0 < Q) by (subst Q; nia).
  pose proof (Zdigits2_pos V ltac:(lia)) as HdV0.
  assert (HdV : Zdigits2 V <= 53) by (apply Zdigits2_lt_pow2; lia).
  assert (HdQ : Zdigits2 Q = Zdigits2 V + - e')
    by (subst Q; apply Zdigits2_mul_pow2; lia).
  assert (HE : fexp prec emax (Zdigits2 Q + e') = Zdigits2 V - 53)
    by (rewrite fexp_eq, HdQ; lia).
  assert (He'k : e' <= Zdigits2 V - 53).
  { assert (Hkv : k - 1 < Zdigits2 V); [|subst e'; rewrite fexp_eq; lia].
    assert (Hlt : 2 ^ (k - 1 + (d2 + (ey + 1074)))
                  < 2 ^ (Zdigits2 V + (d2 + (ey + 1074)))).
    { pose proof (Zdigits2_bounds V ltac:(lia)) as [_ HV2].
      replace (k - 1 + (d2 + (ey + 1074))) with (d1 - 1 + (ex + 1074))
        by (subst k; lia).
      rewrite (Z.pow_add_r 2 (d1 - 1) (ex + 1074)) by lia.
      rewrite (Z.pow_add_r 2 (Zdigits2 V) (d2 + (ey + 1074))) by lia.
      rewrite (Z.pow_add_r 2 d2 (ey + 1074)) by lia.
      pose proof (pow2_pos d2 ltac:(lia)).
      apply Z.le_lt_trans with (Zpos mx * 2 ^ (ex + 1074)); [nia|].
      rewrite Hval, !Z.mul_assoc.
      apply Z.mul_lt_mono_pos_r; [lia|].
      pose proof (pow2_pos (Zdigits2 V) ltac:(lia)). nia. }
    apply Z.pow_lt_mono_r_iff in Hlt; lia. }
  pose proof (binary_round_aux_class false Q e' loc_Exact ltac:(lia)
                ltac:(rewrite HE; exact He'k)) as Hclass.
  destruct (binary_round_aux_spec false Q e' loc_Exact ltac:(lia)
              ltac:(rewrite HE; exact He'k))
    as (m1 & _ & Hexact & Hr & _ & Hres).
  rewrite HE in Hexact, Hres.
  set (n := Zdigits2 V - 53 - e') in *.
  assert (Hn : 0 <= n) by (subst n; lia).
  pose proof (pow2_pos n Hn) as Hpn.
  pose proof (pow2_pos (53 - Zdigits2 V) ltac:(lia)) as Hp53.
  assert (HQn : Q = V * 2 ^ (53 - Zdigits2 V) * 2 ^ n).
  { subst Q n. rewrite <- Z.mul_assoc, <- Z.pow_add_r by lia.
    f_equal. f_equal. lia. }
  assert (Hm1 : m1 = V * 2 ^ (53 - Zdigits2 V)).
  { rewrite Hexact; [|reflexivity|rewrite HQn; apply Z.mod_mul; lia].
    rewrite HQn. apply Z.div_mul. lia. }
  assert (Hm1lt : 0 < m1 < 2 ^ 53).
  { rewrite Hm1. split; [nia|].
    pose proof (Zdigits2_bounds V ltac:(lia)) as [_ HV2].
    replace 53 with (Zdigits2 V + (53 - Zdigits2 V)) at 2 by lia.
    rewrite (Z.pow_add_r 2 (Zdigits2 V) (53 - Zdigits2 V)) by lia. nia. }
  rewrite Hres in Hclass |- *.
  destruct (Z.eqb_spec m1 0); [lia|].
  destruct (Z.eqb_spec m1 (2 ^ 53)); [lia|].
  destruct (Z.leb_spec (Zdigits2 V - 53) 971); [|lia].
  destruct Hclass as [_ Hb]. cbn [nonneg_finite negb andb].
  split; [exact Hb|]. cbn [scaled cond_Zopp]. rewrite Z2Pos.id by lia.
  rewrite Hm1. unfold UNIT. rewrite <- Z.mul_assoc, <- Z.pow_add_r by lia.
  f_equal. f_equal. lia.
Qed.

Lemma of_int_below_2_53 (n : Z) :
  0 < n < 2 ^ 53 ->
  exists (M : positive) (e : Z),
    of_int n = Ok (S754_finite false M e) /\
    bounded prec emax M e = true /\
    scaled (S754_finite false M e) = n * UNIT.
Proof.
  pure. intros Hn.
  assert (Hd : Zdigits2 n <= 53) by (apply Zdigits2_lt_pow2; lia).
  destruct (of_int_exact n ltac:(lia) (or_introl Hd) ltac:(lia))
    as (M & HM & Hb & Hs).
  exists M, (Z.max (Zdigits2 n - 53) (-1074)). auto.
Qed.

(** X11. At an integer rate, a frame count that is a whole number [q] of
    seconds gives the time code of [q] seconds with the milliseconds
    [000]: nothing is lost in the division. *)
Theorem frames_to_tc_ms_whole_seconds (q n : Z) (fps : float) :
  0 < n < 2 ^ 53 -> 0 <= q -> q * n < 2 ^ 53 ->
  of_int n = Ok fps ->
  frames_to_tc_ms (q * n) fps
  = Ok (pad2 (q / 3600) +:+ ":" +:+ pad2 (q mod 3600 / 60) +:+ ":"
        +:+ pad2 (q mod 60) +:+ ",000") /\
  is_timecode (pad2 (q / 3600) +:+ ":" +:+ pad2 (q mod 3600 / 60) +:+ ":"
               +:+ pad2 (q mod 60) +:+ ",000") = true.
Proof.
  pure. intros Hn Hq Hqn Hfps.
  split; [|apply (timecode_shape (q / 3600) (q mod 3600 / 60) (q mod 60) 0);
           [zdiv|zdiv|zdiv|lia]].
  destruct (of_int_below_2_53 n Hn) as (my & ey & Hy & Hby & Hsy).
  rewrite Hy in Hfps. injection Hfps as <-.
  destruct (Z.eq_dec q 0) as [->|Hq0]; [reflexivity|].
  destruct (of_int_below_2_53 (q * n) ltac:(nia)) as (mx & ex & Hx & Hbx & Hsx).
  assert (HV : 0 < q < 2 ^ 53) by nia.
  destruct (div_exact mx ex my ey q Hbx Hby HV) as [Hsec Hval].
  { rewrite Hsx, Hsy. ring. }
  set (seconds := SFdiv prec emax (S754_finite false mx ex)
                    (S754_finite false my ey)) in *.
  assert (Hfin : is_finite seconds = true).
  { destruct seconds; try discriminate Hsec; reflexivity. }
  destruct (frames_to_tc_ms_spec (q * n) _ my ey ltac:(nia) Hx Hby Hfin)
    as (s & ms & w & Htr & _ & _ & Hw & Hms & _ & Hres & _).
  fold seconds in Htr, Hms.
  pose proof (pow2_pos 1074 ltac:(lia)) as HU. fold UNIT in HU.
  destruct (trunc_spec seconds Hsec) as [Htr' _].
  rewrite Htr' in Htr. rewrite Hval, Z.div_mul in Htr by lia.
  injection Htr as <-.
  destruct (sub_trunc seconds w Hsec) as [Hnf Hsf].
  { rewrite Hval, Z.div_mul by lia. exact Hw. }
  rewrite Hval, Z.mod_mul in Hsf by lia.
  assert (Hzero : sub seconds w = S754_zero false).
  { destruct (nonneg_finite_inv _ Hnf) as [E|(m & e & E & He & _)];
      [exact E|].
    rewrite E in Hsf. pose proof (scaled_finite_pos m e ltac:(lia)). lia. }
  rewrite Hzero in Hms. injection Hms as <-.
  rewrite Hres. reflexivity.
Qed.

(* ------------------------------------------------------------------- *)
(** ** Conversions that return *)

(** A quotient of a double below [2^53] by a double that is 1 or more
    does not overflow. *)
Lemma div_finite (x : float) (my : positive) (ey : Z) :
  nonneg_finite x = true -> scaled x < 2 ^ 53 * UNIT ->
  bounded prec emax my ey = true ->
  UNIT <= scaled (S754_finite false my ey) ->
  is_finite (SFdiv prec emax x (S754_finite false my ey)) = true.
Proof.
  pure. intros Hx Hxs Hy Hys.
  destruct (nonneg_finite_inv x Hx) as [->|(mx & ex & -> & Hex & Hdx & _)];
    [reflexivity|].
  apply bounded_iff in Hy as [Hcy Hey].
  assert (Hly : -1074 <= ey) by lia.
  cbn [scaled cond_Zopp] in Hxs, Hys. unfold UNIT in Hxs, Hys.
  pose proof (Zdigits2_bounds (Zpos mx) ltac:(lia)) as [Hx1 Hx2].
  pose proof (Zdigits2_bounds (Zpos my) ltac:(lia)) as [Hy1 Hy2].
  pose proof (Zdigits2_pos (Zpos mx) ltac:(lia)) as Hd1.
  pose proof (Zdigits2_pos (Zpos my) ltac:(lia)) as Hd2.
  unfold SFdiv, SFdiv_core_binary. cbn [xorb].
  set (d1 := Zdigits2 (Zpos mx)) in *. set (d2 := Zdigits2 (Zpos my)) in *.
  set (k := d1 + ex - (d2 + ey)).
  set (e' := Z.min (fexp prec emax k) (ex - ey)).
  set (s := ex - ey - e').
  assert (Hs : 0 <= s) by (subst s e'; lia).
  pose proof (pow2_pos (ex + 1074) ltac:(lia)) as Hpx.
  pose proof (pow2_pos (ey + 1074) ltac:(lia)) as Hpy.
  assert (Hvx : d1 + ex <= 53).
  { assert (Hlt : 2 ^ (d1 - 1 + (ex + 1074)) < 2 ^ (53 + 1074)).
    { rewrite (Z.pow_add_r 2 (d1 - 1) (ex + 1074)) by lia.
      rewrite (Z.pow_add_r 2 53 1074) by lia.
      apply Z.le_lt_trans with (Zpos mx * 2 ^ (ex + 1074)); [nia|lia]. }
    apply Z.pow_lt_mono_r_iff in Hlt; lia. }
  assert (Hvy : 1 <= d2 + ey).
  { assert (Hlt : 2 ^ 1074 < 2 ^ (d2 + (ey + 1074))).
    { rewrite (Z.pow_add_r 2 d2 (ey + 1074)) by lia.
      apply Z.le_lt_trans with (Zpos my * 2 ^ (ey + 1074)); [lia|nia]. }
    apply Z.pow_lt_mono_r_iff in Hlt; lia. }
  assert (Hk : k <= 52) by (subst k; lia).
  set (m' := match s with
             | 0 => Z.pos mx
             | Z.pos _ => Z.shiftl (Z.pos mx) s
             | Z.neg _ => 0
             end).
  assert (Hm' : m' = Zpos mx * 2 ^ s).
  { subst m'. destruct s as [|p|p] eqn:Es; [cbn; lia| |lia].
    rewrite Z.shiftl_mul_pow2 by lia. reflexivity. }
  pose proof (pow2_pos s Hs) as Hps.
  assert (Hq : (Z.div_eucl m' (Zpos my)).1 = m' / Zpos my) by reflexivity.
  destruct (Z.div_eucl m' (Z.pos my)) as [q r]. cbn [fst] in Hq.
  assert (Hq0 : 0 <= q) by (rewrite Hq; apply Z.div_pos; lia).
  assert (Hdm' : Zdigits2 m' = d1 + s)
    by (rewrite Hm'; apply Zdigits2_mul_pow2; lia).
  assert (Hqle : q <= m')
    by (rewrite Hq; apply Z.div_le_upper_bound; nia).
  assert (Hdq : Zdigits2 q <= d1 + s).
  { destruct (Z.eq_dec q 0) as [->|Hnz]; [cbn; lia|].
    rewrite <- Hdm'. apply Zdigits2_le. lia. }
  assert (Hdq' : Zdigits2 q + e' <= 1023).
  { assert (e' <= fexp prec emax k) by (subst e'; lia).
    rewrite fexp_eq in *. subst s. lia. }
  assert (Hpre : e' <= fexp prec emax (Zdigits2 q + e')).
  { rewrite fexp_eq. assert (He'k : e' <= Z.max (k - 53) (-1074))
      by (subst e'; rewrite fexp_eq; lia).
    destruct (Z.eq_dec q 0) as [Hz|Hnz].
    - rewrite Hz. cbn [Zdigits2].
      assert (Hlt : m' < Zpos my).
      { destruct (Z_lt_le_dec m' (Zpos my)) as [H|H]; [exact H|].
        exfalso. assert (1 <= m' / Zpos my)
          by (apply Z.div_le_lower_bound; lia). lia. }
      assert (Zdigits2 m' <= d2) by (apply Zdigits2_le; lia).
      lia.
    - assert (Hdq2 : d1 + s - d2 <= Zdigits2 q).
      { pose proof (Zdigits2_pos q ltac:(lia)) as Hdqp.
        destruct (Z_le_gt_dec (d1 + s - d2) 0) as [Hle|Hgt]; [lia|].
        set (j := d1 + s - 1 - d2).
        assert (Hj : 0 <= j) by lia.
        pose proof (Zdigits2_bounds m' ltac:(lia)) as [Hlo _].
        rewrite Hdm' in Hlo.
        replace (d1 + s - 1) with (j + d2) in Hlo by lia.
        rewrite Z.pow_add_r in Hlo by lia.
        pose proof (pow2_pos j Hj) as Hpj.
        assert (Hqm : m' < (q + 1) * Zpos my).
        { rewrite Hq. pose proof (Z.mod_pos_bound m' (Zpos my) ltac:(lia)).
          pose proof (Z.div_mod m' (Zpos my) ltac:(lia)). nia. }
        assert (H2j : 2 ^ j <= q) by nia.
        pose proof (Zdigits2_le (2 ^ j) q ltac:(lia)) as Hmono.
        rewrite Zdigits2_pow2 in Hmono by lia. lia. }
      subst k. lia. }
  destruct (binary_round_aux_spec false q e' (new_location (Z.pos my) r)
              Hq0 Hpre) as (m1 & _ & _ & _ & _ & ->).
  rewrite fexp_eq.
  destruct (m1 =? 0); [reflexivity|].
  destruct (m1 =? 2 ^ 53).
  - destruct (Z.leb_spec (Z.max (Zdigits2 q + e' - 53) (-1074) + 1) 971);
      [reflexivity|lia].
  - destruct (Z.leb_spec (Z.max (Zdigits2 q + e' - 53) (-1074)) 971);
      [reflexivity|lia].
Qed.

(** With a timebase between 1 and [2^53] when one is given, the rate is
    a double that is 1 or more. *)
Lemma get_sequence_rate_at_least_1 (root : Element) :
  (forall (rate : Element) (tb : Z),
      find_desc "sequence" ["rate"] root = Some rate ->
      int_opt (findtext "timebase" rate) = Some tb -> 0 < tb < 2 ^ 53) ->
  exists (my : positive) (ey : Z),
    get_sequence_rate root = Ok (S754_finite false my ey) /\
    bounded prec emax my ey = true /\
    UNIT <= scaled (S754_finite false my ey).
Proof.
  pure. intros Htb. unfold get_sequence_rate.
  assert (H25 : exists (my : positive) (ey : Z),
             Ok f25_0 = Ok (S754_finite false my ey) /\
             bounded prec emax my ey = true /\
             UNIT <= scaled (S754_finite false my ey)).
  { do 2 eexists. split; [reflexivity|]. split; [reflexivity|].
    apply Z.leb_le. vm_compute. reflexivity. }
  destruct (find_desc "sequence" ["rate"] root) as [rate|]; [|exact H25].
  specialize (Htb rate). cbv zeta.
  destruct (int_opt (findtext "timebase" rate)) as [tb|].
  - specialize (Htb tb eq_refl eq_refl).
    destruct (of_int_below_2_53 tb Htb) as (M & e & HM & Hb & Hs).
    assert (Hof : exists (my : positive) (ey : Z),
               of_int tb = Ok (S754_finite false my ey) /\
               bounded prec emax my ey = true /\
               UNIT <= scaled (S754_finite false my ey)).
    { exists M, e. split; [exact HM|]. split; [exact Hb|].
      rewrite Hs. pose proof (pow2_pos 1074 ltac:(lia)). unfold UNIT. nia. }
    destruct (lower (or_empty (findtext "ntsc" rate)) =? "true")%string;
      [|exact Hof].
    destruct (tb =? 30).
    { do 2 eexists. split; [reflexivity|]. split; [reflexivity|].
      apply Z.leb_le. vm_compute. reflexivity. }
    destruct (tb =? 60).
    { do 2 eexists. split; [reflexivity|]. split; [reflexivity|].
      apply Z.leb_le. vm_compute. reflexivity. }
    destruct (tb =? 24); [|exact Hof].
    do 2 eexists. split; [reflexivity|]. split; [reflexivity|].
    apply Z.leb_le. vm_compute. reflexivity.
  - destruct (lower (or_empty (findtext "ntsc" rate)) =? "true")%string;
      exact H25.
Qed.

(** X12. With a timebase between 1 and [2^53] when one is given, the rate is
    found and the conversion of every frame count from 0 to [2^53]
    returns a time code: no division by zero and no overflow. *)
Theorem frames_to_tc_ms_returns (root : Element) :
  (forall (rate : Element) (tb : Z),
      find_desc "sequence" ["rate"] root = Some rate ->
      int_opt (findtext "timebase" rate) = Some tb -> 0 < tb < 2 ^ 53) ->
  exists fps : float,
    get_sequence_rate root = Ok fps /\
    forall frames : Z,
      0 <= frames < 2 ^ 53 ->
      exists tc : string, frames_to_tc_ms frames fps = Ok tc.
Proof.
  pure. intros Htb.
  destruct (get_sequence_rate_at_least_1 root Htb)
    as (my & ey & Hrate & Hb & Hone).
  exists (S754_finite false my ey). split; [exact Hrate|].
  intros frames Hf.
  destruct (of_int_small frames ltac:(lia)) as (x & Hx & _ & Hsx).
  pose proof (of_int_class frames x ltac:(lia) Hx) as Hnx.
  pose proof (pow2_pos 1074 ltac:(lia)) as HU. fold UNIT in HU.
  assert (Hfin : is_finite (SFdiv prec emax x (S754_finite false my ey))
                 = true).
  { apply div_finite; [exact Hnx| |exact Hb|exact Hone].
    rewrite Hsx. nia. }
  destruct (frames_to_tc_ms_spec frames x my ey ltac:(lia) Hx Hb Hfin)
    as (s & ms & w & _ & _ & _ & _ & _ & _ & Hres & _).
  eexists. exact Hres.
Qed.

(** [float(n)] raises [OverflowError] from [2^1024] on. *)
Lemma of_int_overflow (n : Z) :
  2 ^ 1024 <= n -> of_int n = Raise OverflowError.
Proof.
  pure. intros Hn.
  pose proof (pow2_pos 1024 ltac:(lia)) as Hp.
  destruct n as [|p|p]; try lia.
  assert (Hd : 1025 <= Zdigits2 (Zpos p)).
  { pose proof (Zdigits2_le (2 ^ 1024) (Zpos p) ltac:(lia)) as H.
    rewrite Zdigits2_pow2 in H by lia. lia. }
  unfold of_int, binary_normalize, binary_round.
  set (ec := fexp prec emax (Z.pos (digits2_pos p) + 0)).
  assert (Hec : ec = Zdigits2 (Zpos p) - 53).
  { subst ec. change (Z.pos (digits2_pos p)) with (Zdigits2 (Zpos p)).
    rewrite fexp_eq. lia. }
  destruct (shl_align_spec p 0 ec) as [He Hm].
  destruct (shl_align p 0 ec) as [mz ez]. cbn [fst snd] in He, Hm.
  replace (Z.min 0 ec) with 0 in He, Hm by lia. subst ez.
  rewrite Z.sub_0_r, Z.mul_1_r in Hm.
  destruct (binary_round_aux_spec false (Zpos mz) 0 loc_Exact ltac:(lia))
    as (m1 & _ & _ & Hr & Hnorm & ->).
  { rewrite Hm, fexp_eq. lia. }
  rewrite Hm, Z.add_0_r, fexp_eq in Hnorm |- *.
  specialize (Hnorm ltac:(lia)).
  assert (H52 : 0 < 2 ^ 52) by (apply pow2_pos; lia).
  destruct (Z.eqb_spec m1 0); [lia|].
  destruct (m1 =? 2 ^ 53).
  - destruct (Z.leb_spec (Z.max (Zdigits2 (Z.pos p) - 53) (-1074) + 1) 971);
      [lia|reflexivity].
  - destruct (Z.leb_spec (Z.max (Zdigits2 (Z.pos p) - 53) (-1074)) 971);
      [lia|reflexivity].
Qed.

(** X13. A frame count of [2^1024] or more cannot be divided by a float: the
    conversion raises [OverflowError] whatever the rate, also a rate of
    zero. *)
Theorem frames_to_tc_ms_overflow (frames : Z) (fps : float) :
  2 ^ 1024 <= frames -> frames_to_tc_ms frames fps = Raise OverflowError.
Proof.
  pure. intros H. unfold frames_to_tc_ms.
  rewrite (of_int_overflow frames H). reflexivity.
Qed.

(* ------------------------------------------------------------------- *)
(** ** The shape of the time code *)

Lemma tc_hours_bad_tail (d t : string) (n : nat) :
  all_digits d = true -> tc_tail t = false ->
  startswith ":" t = true ->
  tc_hours n (d +:+ t) = false.
Proof.
  pure. revert n. induction d as [|c d IH]; intros n Hd Ht Hs.
  - rewrite sapp_nil_l. destruct t as [|c t]; [reflexivity|].
    cbn [startswith] in Hs. rewrite andb_true_r in Hs.
    apply Ascii.eqb_eq in Hs as <-.
    cbn [tc_hours]. change (isdigit ":") with false. cbv iota.
    rewrite Ht. apply andb_false_r.
  - rewrite sapp_cons. cbn [all_digits] in Hd.
    apply andb_true_iff in Hd as [Hc Hd]. cbn [tc_hours]. rewrite Hc.
    apply IH; assumption.
Qed.

(** X10. The conversion of a frame count that is not negative at a positive
    rate, when the quotient does not overflow: it returns, the fields
    come from [int(seconds)] by the 3600/60 decomposition, the
    milliseconds lie between 0 and 1000, and the result has the shape
    [HH:MM:SS,mmm] exactly when the milliseconds are below 1000. *)
Theorem frames_to_tc_ms_shape (frames : Z) (x : float) (my : positive)
    (ey : Z) :
  let fps := S754_finite false my ey in
  let seconds := SFdiv prec emax x fps in
  0 <= frames -> of_int frames = Ok x ->
  bounded prec emax my ey = true ->
  is_finite seconds = true ->
  exists (s ms : Z) (w : float) (tc : string),
    frames_to_tc_ms frames fps = Ok tc /\
    trunc seconds = Ok s /\ 0 <= s /\
    of_int s = Ok w /\ round (mul (sub seconds w) f1000) = Ok ms /\
    0 <= ms <= 1000 /\
    tc = pad2 (s / 3600) +:+ ":" +:+ pad2 (s mod 3600 / 60) +:+ ":"
         +:+ pad2 (s mod 60) +:+ "," +:+ pad3 ms /\
    (is_timecode tc = true <-> ms < 1000).
Proof.
  pure. intros fps seconds Hf Hx Hb Hfin.
  destruct (frames_to_tc_ms_spec frames x my ey Hf Hx Hb Hfin)
    as (s & ms & w & Htr & Hs & _ & Hw & Hms & Hrange & Hres & Hshape).
  exists s, ms, w. eexists.
  split; [exact Hres|]. split; [exact Htr|]. split; [exact Hs|].
  split; [exact Hw|]. split; [exact Hms|]. split; [exact Hrange|].
  split; [reflexivity|]. split; [|exact Hshape].
  intros Htc. destruct (Z.eq_dec ms 1000) as [->|Hne]; [|lia].
  exfalso. unfold is_timecode in Htc.
  destruct (pad2_shape (s / 3600) ltac:(zdiv)) as [Hd _].
  rewrite tc_hours_bad_tail in Htc; [discriminate Htc|exact Hd| |].
  - unfold pad2 at 1 2. rewrite !pad2_small by zdiv.
    change (pad3 1000) with "1000". rewrite !sapp_cons, !sapp_nil_l.
    reflexivity.
  - rewrite sapp_cons. reflexivity.
Qed.

(* ------------------------------------------------------------------- *)
(** ** Dates without an offset *)

Lemma digit_not_separator (b : ascii) :
  isdigit b = true ->
  Ascii.eqb "-" b = false /\ Ascii.eqb ":" b = false /\
  isspace b = false /\ mem_char "+-" b = false /\ Ascii.eqb "Z" b = false.
Proof.
  destruct b as [[] [] [] [] [] [] [] []]; try discriminate;
    intros _; repeat split; reflexivity.
Qed.

(** The year takes four digits and nothing else can happen. *)
Lemma run_directive_Y_eq {A : Type} (n : Z) (rest : string) (c : captures)
    (k : string -> captures -> option A) (r : re) :
  directive "Y" = Some r -> 0 <= n <= 9999 ->
  run r (fmt_0d 4 n +:+ rest) c k = k rest ((gY, fmt_0d 4 n) :: c).
Proof.
  pure. intros [= <-] Hn. rewrite pad4_small by lia.
  rewrite !sapp_cons, sapp_nil_l. cbn [run seq digit].
  rewrite !isdigit_digit_char by zdiv.
  rewrite consumed_4. reflexivity.
Qed.

(** A field of two digits: when what follows fails after the field and
    fails on a digit, the directive fails. *)
Ltac run_field_none :=
  literal_pad2; intros; rewrite ?sapp_cons, ?sapp_nil_l;
  cbn [run seq alt lit set range digit]; eval_tests;
  rewrite ?consumed_2;
  repeat match goal with
         | H : _ = None |- _ => rewrite H
         | H : forall _ _ _, _ -> _ = None |- _ => rewrite H by reflexivity
         end;
  reflexivity.

Lemma run_directive_m_none {A : Type} (n : Z) (rest : string) (c : captures)
    (k : string -> captures -> option A) (r : re) :
  directive "m" = Some r -> 1 <= n <= 12 ->
  k rest ((gm, pad2 n) :: c) = None ->
  (forall b rest' c', isdigit b = true -> k (String b rest') c' = None) ->
  run r (pad2 n +:+ rest) c k = None.
Proof.
  pure. intros [= <-] Hn. revert rest c k.
  enum_cases n 1 12%nat run_field_none.
Qed.

Lemma run_directive_d_none {A : Type} (n : Z) (rest : string) (c : captures)
    (k : string -> captures -> option A) (r : re) :
  directive "d" = Some r -> 1 <= n <= 31 ->
  k rest ((gd, pad2 n) :: c) = None ->
  (forall b rest' c', isdigit b = true -> k (String b rest') c' = None) ->
  run r (pad2 n +:+ rest) c k = None.
Proof.
  pure. intros [= <-] Hn. revert rest c k.
  enum_cases n 1 31%nat run_field_none.
Qed.

Lemma run_directive_H_none {A : Type} (n : Z) (rest : string) (c : captures)
    (k : string -> captures -> option A) (r : re) :
  directive "H" = Some r -> 0 <= n <= 23 ->
  k rest ((gH, pad2 n) :: c) = None ->
  (forall b rest' c', isdigit b = true -> k (String b rest') c' = None) ->
  run r (pad2 n +:+ rest) c k = None.
Proof.
  pure. intros [= <-] Hn. revert rest c k.
  enum_cases n 0 24%nat run_field_none.
Qed.

Lemma run_directive_M_none {A : Type} (n : Z) (rest : string) (c : captures)
    (k : string -> captures -> option A) (r : re) :
  directive "M" = Some r -> 0 <= n <= 59 ->
  k rest ((gM, pad2 n) :: c) = None ->
  (forall b rest' c', isdigit b = true -> k (String b rest') c' = None) ->
  run r (pad2 n +:+ rest) c k = None.
Proof.
  pure. intros [= <-] Hn. revert rest c k.
  enum_cases n 0 60%nat run_field_none.
Qed.

Lemma run_directive_S_none {A : Type} (n : Z) (rest : string) (c : captures)
    (k : string -> captures -> option A) (r : re) :
  directive "S" = Some r -> 0 <= n <= 59 ->
  k rest ((gS, pad2 n) :: c) = None ->
  (forall b rest' c', isdigit b = true -> k (String b rest') c' = None) ->
  run r (pad2 n +:+ rest) c k = None.
Proof.
  pure. intros [= <-] Hn. revert rest c k.
  enum_cases n 0 60%nat run_field_none.
Qed.

(** The offset needs a sign or a [Z]. *)
Lemma run_directive_z_none {A : Type} (s : string) (c : captures)
    (k : string -> captures -> option A) (r : re) :
  directive "z" = Some r ->
  s = "" \/ (exists rest, s = String ":" rest)
  \/ (exists b rest, s = String b rest /\ isdigit b = true) ->
  run r s c k = None.
Proof.
  pure. intros [= <-] [->|[(rest & ->)|(b & rest & -> & Hb)]];
    try reflexivity.
  destruct (digit_not_separator b Hb) as (_ & _ & _ & Hs & HZ).
  cbn [run seq alt lit set]. rewrite Hs, HZ. reflexivity.
Qed.

Lemma pattern_offset :
  exists rY rm rd rH rM rz : re,
    directive "Y" = Some rY /\ directive "m" = Some rm /\
    directive "d" = Some rd /\ directive "H" = Some rH /\
    directive "M" = Some rM /\ directive "z" = Some rz /\
    pattern "%Y-%m-%d %H:%M%z" false
    = Some [rY; lit "-"; rm; lit "-"; rd; Plus isspace; rH; lit ":"; rM; rz].
Proof. do 6 eexists. repeat split; reflexivity. Qed.

Lemma pattern_seconds :
  exists rY rm rd rH rM rS : re,
    directive "Y" = Some rY /\ directive "m" = Some rm /\
    directive "d" = Some rd /\ directive "H" = Some rH /\
    directive "M" = Some rM /\ directive "S" = Some rS /\
    pattern "%Y-%m-%d %H:%M:%S" false
    = Some [rY; lit "-"; rm; lit "-"; rd; Plus isspace; rH; lit ":"; rM;
            lit ":"; rS].
Proof. do 6 eexists. repeat split; reflexivity. Qed.

(** What follows a field in these formats fails on a digit. *)
Ltac fails_on_digit :=
  let b := fresh "b" in
  let Hb := fresh "Hb" in
  intros b ? ? Hb; cbv beta;
  destruct (digit_not_separator b Hb) as (? & ? & ? & ? & ?);
  first
    [ cbn [run lit];
      match goal with
      | H : _ = false |- _ => rewrite H; reflexivity
      end
    | eapply run_directive_z_none; [eassumption|];
      right; right; eauto ].

(** The formats with an offset do not match a date without one. *)
Lemma strptime_naive_date_offset (y m d H M S : Z) :
  0 <= y <= 9999 -> 1 <= m <= 12 -> 1 <= d <= 31 -> 0 <= H <= 23 ->
  0 <= M <= 59 -> 0 <= S <= 59 ->
  strptime (naive_date y m d H M S) "%Y-%m-%d %H:%M:%S%z" = None /\
  strptime (naive_date y m d H M S) "%Y-%m-%d %H:%M%z" = None.
Proof.
  pure. intros Hy Hm Hd HH HM HS. split.
  - unfold strptime.
    destruct pattern_seconds_offset
      as (rY & rm & rd & rH & rM & rS & rz & EY & Em & Ed & EH & EM & ES
          & Ez & ->).
    cbn [mbind option_bind].
    assert (Hr : rmatch (seq [rY; lit "-"; rm; lit "-"; rd; Plus isspace;
                              rH; lit ":"; rM; lit ":"; rS; rz])
                   (naive_date y m d H M S) = None);
      [|rewrite Hr; reflexivity].
    unfold rmatch, naive_date. cbn [seq run].
    rewrite (run_directive_Y_eq _ _ _ _ _ EY Hy).
    rewrite sapp_cons, sapp_nil_l. cbn [run lit]. eval_tests.
    apply (run_directive_m_none _ _ _ _ _ Em Hm); [|fails_on_digit].
    rewrite sapp_cons, sapp_nil_l. cbn [run lit]. eval_tests.
    apply (run_directive_d_none _ _ _ _ _ Ed Hd).
    2:{ intros b ? ? Hb. cbv beta.
        destruct (digit_not_separator b Hb) as (_ & _ & Hsp & _).
        cbn [run]. rewrite Hsp. reflexivity. }
    rewrite sapp_cons, sapp_nil_l. cbn [run]. eval_tests.
    rewrite star_isspace_pad2 by lia.
    apply (run_directive_H_none _ _ _ _ _ EH HH); [|fails_on_digit].
    rewrite sapp_cons, sapp_nil_l. cbn [run lit]. eval_tests.
    apply (run_directive_M_none _ _ _ _ _ EM HM); [|fails_on_digit].
    rewrite sapp_cons, sapp_nil_l. cbn [run lit]. eval_tests.
    rewrite <- (sapp_nil_r (pad2 S)).
    apply (run_directive_S_none _ _ _ _ _ ES HS); [|fails_on_digit].
    apply (run_directive_z_none _ _ _ _ Ez). left. reflexivity.
  - unfold strptime.
    destruct pattern_offset
      as (rY & rm & rd & rH & rM & rz & EY & Em & Ed & EH & EM & Ez & ->).
    cbn [mbind option_bind].
    assert (Hr : rmatch (seq [rY; lit "-"; rm; lit "-"; rd; Plus isspace;
                              rH; lit ":"; rM; rz])
                   (naive_date y m d H M S) = None);
      [|rewrite Hr; reflexivity].
    unfold rmatch, naive_date. cbn [seq run].
    rewrite (run_directive_Y_eq _ _ _ _ _ EY Hy).
    rewrite sapp_cons, sapp_nil_l. cbn [run lit]. eval_tests.
    apply (run_directive_m_none _ _ _ _ _ Em Hm); [|fails_on_digit].
    rewrite sapp_cons, sapp_nil_l. cbn [run lit]. eval_tests.
    apply (run_directive_d_none _ _ _ _ _ Ed Hd).
    2:{ intros b ? ? Hb. cbv beta.
        destruct (digit_not_separator b Hb) as (_ & _ & Hsp & _).
        cbn [run]. rewrite Hsp. reflexivity. }
    rewrite sapp_cons, sapp_nil_l. cbn [run]. eval_tests.
    rewrite star_isspace_pad2 by lia.
    apply (run_directive_H_none _ _ _ _ _ EH HH); [|fails_on_digit].
    rewrite sapp_cons, sapp_nil_l. cbn [run lit]. eval_tests.
    apply (run_directive_M_none _ _ _ _ _ EM HM); [|fails_on_digit].
    rewrite sapp_cons, sapp_nil_l.
    apply (run_directive_z_none _ _ _ _ Ez). right. left. eauto.
Qed.

(** The third format matches it, and the value has no zone. *)
Lemma strptime_naive_date (y m d H M S : Z) :
  1 <= y <= 9999 -> 1 <= m <= 12 -> 1 <= d <= days_in_month y m ->
  0 <= H <= 23 -> 0 <= M <= 59 -> 0 <= S <= 59 ->
  strptime (naive_date y m d H M S) "%Y-%m-%d %H:%M:%S"
  = Some {| year := y; month := m; day := d; hour := H; minute := M;
            second := S; microsecond := 0; tzinfo := None |}.
Proof.
  pure. intros Hy Hm Hd HH HM HS.
  pose proof (days_in_month_le_31 y m) as H31.
  unfold strptime.
  destruct pattern_seconds
    as (rY & rm & rd & rH & rM & rS & EY & Em & Ed & EH & EM & ES & ->).
  cbn [mbind option_bind].
  assert (Hr : rmatch (seq [rY; lit "-"; rm; lit "-"; rd; Plus isspace;
                            rH; lit ":"; rM; lit ":"; rS])
                 (naive_date y m d H M S)
               = Some ("", [(gS, pad2 S); (gM, pad2 M); (gH, pad2 H);
                            (gd, pad2 d); (gm, pad2 m); (gY, fmt_0d 4 y)])).
  { assert (Hy' : 0 <= y <= 9999) by lia.
    assert (Hd' : 1 <= d <= 31) by lia.
    unfold rmatch, naive_date. cbn [seq run].
    apply (run_directive_Y _ _ _ _ _ _ EY Hy'). cbv beta.
    rewrite sapp_cons, sapp_nil_l. cbn [run lit]. eval_tests.
    apply (run_directive_m _ _ _ _ _ _ Em Hm). cbv beta.
    rewrite sapp_cons, sapp_nil_l. cbn [run lit]. eval_tests.
    apply (run_directive_d _ _ _ _ _ _ Ed Hd'). cbv beta.
    rewrite sapp_cons, sapp_nil_l. cbn [run]. eval_tests.
    rewrite star_isspace_pad2 by lia.
    apply (run_directive_H _ _ _ _ _ _ EH HH). cbv beta.
    rewrite sapp_cons, sapp_nil_l. cbn [run lit]. eval_tests.
    apply (run_directive_M _ _ _ _ _ _ EM HM). cbv beta.
    rewrite sapp_cons, sapp_nil_l. cbn [run lit]. eval_tests.
    rewrite <- (sapp_nil_r (pad2 S)).
    apply (run_directive_S _ _ _ _ _ _ ES HS).
    rewrite sapp_nil_r. reflexivity. }
  rewrite Hr.
  cbn [mbind option_bind truthy String.eqb negb].
  cbn [field lookup_group gY gm gd gH gM gS gz Nat.eqb].
  rewrite int_pad4 by lia. cbn [mbind option_bind].
  rewrite !int_pad2 by lia. cbn [mbind option_bind].
  assert (Hvd : valid_date y m d = true).
  { unfold valid_date, MINYEAR, MAXYEAR.
    repeat (apply andb_true_intro; split); apply Z.leb_le; lia. }
  rewrite Hvd. unfold new_datetime. rewrite Hvd.
  assert (Hvt : valid_time H M S 0 = true).
  { unfold valid_time.
    repeat (apply andb_true_intro; split); apply Z.leb_le; lia. }
  rewrite Hvt. reflexivity.
Qed.

(** X16. A date with seconds and without an offset is read as UTC: the
    normalizer answers the local date and time of that instant, raises
    [OverflowError] when the local time leaves the years 1 to 9999, and
    never answers none. On a machine at UTC the answer is the date
    without its seconds, the year printed without padding: the first
    sixteen characters of the date from the year 1000 on. *)
Theorem to_local_no_seconds_naive_date (y m d H M S : Z) :
  1 <= y <= 9999 -> 1 <= m <= 12 -> 1 <= d <= days_in_month y m ->
  0 <= H <= 23 -> 0 <= M <= 59 -> 0 <= S <= 59 ->
  let utc := (((ymd2ord y m d * 24 + H) * 60 + M) * 60 + S) * US_PER_SECOND in
  let loc := utc + local_utcoffset * US_PER_SECOND in
  (in_range loc = true ->
   exists l : datetime,
     to_local_no_seconds (naive_date y m d H M S)
     = Ok (Some (strftime_ymd_hm l)) /\
     to_us l = loc /\ valid_datetime l = true) /\
  (in_range loc = false ->
   to_local_no_seconds (naive_date y m d H M S) = Raise OverflowError) /\
  (local_utcoffset = 0 ->
   to_local_no_seconds (naive_date y m d H M S)
   = Ok (Some (str_of_int y +:+ "-" +:+ pad2 m +:+ "-" +:+ pad2 d +:+ " "
               +:+ pad2 H +:+ ":" +:+ pad2 M))) /\
  (local_utcoffset = 0 -> 1000 <= y ->
   to_local_no_seconds (naive_date y m d H M S)
   = Ok (Some (fmt_0d 4 y +:+ "-" +:+ pad2 m +:+ "-" +:+ pad2 d +:+ " "
               +:+ pad2 H +:+ ":" +:+ pad2 M))).
Proof.
  intros Hy Hm Hd HH HM HS utc loc.
  pose proof (days_in_month_le_31 y m) as H31.
  assert (Hparse : first_parse (naive_date y m d H M S) fmts
                   = Some {| year := y; month := m; day := d; hour := H;
                             minute := M; second := S; microsecond := 0;
                             tzinfo := None |}).
  { unfold fmts. cbn [first_parse].
    destruct (strptime_naive_date_offset y m d H M S) as [-> ->]; try lia.
    rewrite strptime_naive_date by assumption. reflexivity. }
  assert (Htruthy : truthy (naive_date y m d H M S) = true).
  { unfold naive_date. rewrite pad4_small by lia. rewrite sapp_cons.
    reflexivity. }
  set (dt0 := {| year := y; month := m; day := d; hour := H; minute := M;
                 second := S; microsecond := 0; tzinfo := None |}) in *.
  assert (Hvd : valid_datetime dt0 = true).
  { unfold valid_datetime, valid_date, valid_time, MINYEAR, MAXYEAR.
    cbn [year month day hour minute second microsecond dt0].
    repeat (apply andb_true_intro; split); apply Z.leb_le; lia. }
  assert (Ht : to_us dt0 = utc).
  { subst utc. unfold to_us.
    cbn [year month day hour minute second microsecond dt0]. lia. }
  assert (Hutc : in_range utc = true).
  { pose proof (ymd2ord_bounds y m d Hm Hd) as Hord.
    assert (Hlo : 0 <= days_before_year y).
    { destruct (Z.eq_dec y 1) as [->|]; [vm_compute; discriminate|].
      pose proof (days_before_year_mono 1 y ltac:(lia)) as Hmono.
      change (days_before_year (1 + 1)) with 365 in Hmono. lia. }
    assert (Hhi : days_before_year (y + 1) <= MAXORDINAL).
    { destruct (Z.eq_dec y 9999) as [->|]; [vm_compute; discriminate|].
      pose proof (days_before_year_mono y 9999 ltac:(lia)) as Hmono.
      change (days_before_year 9999) with 3651694 in Hmono.
      pose proof (days_before_year_mono (y + 1) 10000 ltac:(lia)) as Hmono'.
      pose proof (days_before_year_succ (y + 1)) as Hsucc.
      destruct (is_leap (y + 1));
        change (days_before_year 10000) with 3652059 in Hmono';
        unfold MAXORDINAL; lia. }
    unfold in_range, MAXORDINAL, US_PER_DAY, US_PER_SECOND in *.
    subst utc. apply andb_true_intro.
    split; [apply Z.leb_le|apply Z.ltb_lt]; lia. }
  set (dt := replace_tzinfo dt0 (Some 0)).
  assert (Hrun : to_local_no_seconds (naive_date y m d H M S)
                 = rbind (astimezone dt 0 (local_utcoffset * US_PER_SECOND))
                     (fun local_dt => Ok (Some (strftime_ymd_hm local_dt)))).
  { unfold to_local_no_seconds. rewrite Htruthy, Hparse. cbn [negb].
    change (tzinfo dt0) with (@None Z). reflexivity. }
  rewrite Hrun.
  assert (Ht' : to_us dt = utc)
    by (subst dt; rewrite to_us_replace_tzinfo; exact Ht).
  destruct (astimezone_spec dt 0 (local_utcoffset * US_PER_SECOND))
    as [Hin Hout].
  rewrite Ht', Z.sub_0_r in Hin, Hout. fold loc in Hin, Hout.
  rewrite Hutc in Hin, Hout. cbn [andb] in Hin, Hout.
  assert (Hthird :
    local_utcoffset = 0 ->
    rbind (astimezone dt 0 (local_utcoffset * US_PER_SECOND))
      (fun local_dt => Ok (Some (strftime_ymd_hm local_dt)))
    = Ok (Some (str_of_int y +:+ "-" +:+ pad2 m +:+ "-" +:+ pad2 d +:+ " "
                +:+ pad2 H +:+ ":" +:+ pad2 M))).
  { intros Hz.
    assert (Hloc : loc = utc) by (subst loc; rewrite Hz; lia).
    destruct Hin as (l & Hl & Hlus & Hv); [rewrite Hloc; exact Hutc|].
    rewrite Hl. cbn [rbind]. do 2 f_equal.
    assert (Heq : to_us l = to_us dt0) by (rewrite Hlus, Ht, Hloc; reflexivity).
    destruct (to_us_inj l dt0 Hv Hvd Heq) as (Ey & Em' & Ed' & EH' & EM' & _).
    unfold strftime_ymd_hm, pad2. rewrite Ey, Em', Ed', EH', EM'.
    reflexivity. }
  split; [|split; [|split]].
  - intros Hr. destruct (Hin Hr) as (l & Hl & Hus & Hv).
    exists l. rewrite Hl. cbn [rbind]. repeat split; assumption.
  - intros Hr. rewrite (Hout Hr). reflexivity.
  - exact Hthird.
  - intros Hz H1000. rewrite (Hthird Hz), str_of_int_pad4 by lia.
    reflexivity.
Qed.

(* ------------------------------------------------------------------- *)
(** ** A date in the file name *)

(** A file name that begins with a date of this century in the
    year-first pattern is matched at its start. *)
Lemma search_pattern_ymd_at_start (y m d H M S : Z) (s1 s2 s3 s4 s5 : ascii)
    (post : string) :
  2000 <= y <= 2099 -> 0 <= m <= 99 -> 0 <= d <= 99 -> 0 <= H <= 99 ->
  0 <= M <= 99 -> 0 <= S <= 99 ->
  mem_char "-_" s1 = true -> mem_char "-_" s2 = true ->
  mem_char " _" s3 = true -> mem_char ":.-" s4 = true ->
  mem_char ":.-" s5 = true ->
  filename_fallback
    (fmt_0d 4 y +:+ String s1 (pad2 m) +:+ String s2 (pad2 d)
     +:+ String s3 (pad2 H) +:+ String s4 (pad2 M) +:+ String s5 (pad2 S)
     +:+ post)
  = Some (stamp (fmt_0d 4 y) (pad2 m) (pad2 d) (pad2 H) (pad2 M)).
Proof.
  pure. intros Hy Hm Hd HH HM HS H1 H2 H3 H4 H5.
  unfold filename_fallback.
  set (name := fmt_0d 4 y +:+ _).
  assert (Hr : rmatch pattern_ymd name
               = Some (post, [(6%nat, pad2 S); (5%nat, pad2 M);
                              (4%nat, pad2 H); (3%nat, pad2 d);
                              (2%nat, pad2 m); (1%nat, fmt_0d 4 y)])).
  { subst name. unfold pad2. rewrite pad4_small, !pad2_small by lia.
    replace (y / 1000) with 2 by zdiv.
    replace (y / 100 mod 10) with 0 by zdiv.
    rewrite !sapp_cons, !sapp_nil_l.
    unfold rmatch, pattern_ymd, year_20, two_digits, set, lit, digit.
    cbn [seq run].
    rewrite !isdigit_digit_char by zdiv. rewrite H1, H2, H3, H4, H5.
    eval_tests. rewrite !consumed_2, consumed_4. reflexivity. }
  assert (Hs : search pattern_ymd name
               = Some [(6%nat, pad2 S); (5%nat, pad2 M); (4%nat, pad2 H);
                       (3%nat, pad2 d); (2%nat, pad2 m);
                       (1%nat, fmt_0d 4 y)]).
  { destruct name; cbn [search]; rewrite Hr; reflexivity. }
  rewrite Hs. reflexivity.
Qed.

Lemma digit_not_slash (c : ascii) :
  isdigit c = true -> Ascii.eqb c "/" = false.
Proof.
  destruct c as [[] [] [] [] [] [] [] []]; try discriminate; reflexivity.
Qed.

Lemma all_digits_no_slash (s : string) :
  all_digits s = true -> contains "/" s = false.
Proof.
  induction s as [|c s IH]; [reflexivity|].
  cbn [all_digits contains]. intros H.
  apply andb_true_iff in H as [Hc Hs].
  rewrite (digit_not_slash c Hc), (IH Hs). reflexivity.
Qed.

Lemma separator_not_slash (a : ascii) :
  mem_char "-_" a = true \/ mem_char " _" a = true
  \/ mem_char ":.-" a = true ->
  Ascii.eqb a "/" = false.
Proof.
  destruct a as [[] [] [] [] [] [] [] []]; try reflexivity;
    intros [H|[H|H]]; discriminate H.
Qed.

Lemma all_digits_pad4 (n : Z) :
  0 <= n <= 9999 -> all_digits (fmt_0d 4 n) = true.
Proof.
  pure. intros Hn. rewrite pad4_small by lia. cbn [all_digits].
  rewrite !isdigit_digit_char by zdiv. reflexivity.
Qed.

(** X17. A file without accepted metadata whose name begins with a valid
    date and time of this century in the year-first pattern: the caption
    is the local date and time of that date read as UTC, with the
    seconds of the name dropped. *)
Theorem caption_of_dated_file_name (c : Clip) (dir post : string)
    (y m d H M S : Z) (s1 s2 s3 s4 s5 : ascii) :
  query_tags tags (path c) = None ->
  path c = dir +:+ "/" +:+ fmt_0d 4 y +:+ String s1 (pad2 m)
           +:+ String s2 (pad2 d) +:+ String s3 (pad2 H)
           +:+ String s4 (pad2 M) +:+ String s5 (pad2 S) +:+ post ->
  contains "/" post = false ->
  2000 <= y <= 2099 -> 1 <= m <= 12 -> 1 <= d <= days_in_month y m ->
  0 <= H <= 23 -> 0 <= M <= 59 -> 0 <= S <= 99 ->
  mem_char "-_" s1 = true -> mem_char "-_" s2 = true ->
  mem_char " _" s3 = true -> mem_char ":.-" s4 = true ->
  mem_char ":.-" s5 = true ->
  -86400 < local_utcoffset < 86400 ->
  exists l : datetime,
    caption_of c = Ok (strftime_ymd_hm l) /\
    to_us l = ((ymd2ord y m d * 24 + H) * 60 + M) * 60 * US_PER_SECOND
              + local_utcoffset * US_PER_SECOND /\
    valid_datetime l = true.
Proof.
  pure. intros Hq Hpath Hpost Hy Hm Hd HH HM HS H1 H2 H3 H4 H5 Hloc.
  pose proof (days_in_month_le_31 y m) as H31.
  set (name := fmt_0d 4 y +:+ String s1 (pad2 m) +:+ String s2 (pad2 d)
               +:+ String s3 (pad2 H) +:+ String s4 (pad2 M)
               +:+ String s5 (pad2 S) +:+ post) in *.
  assert (Hname : contains "/" name = false).
  { subst name.
    repeat (rewrite contains_app || cbn [contains]).
    rewrite (all_digits_no_slash _ (all_digits_pad4 y ltac:(lia))).
    rewrite !(all_digits_no_slash (pad2 _))
      by (apply pad2_shape; lia).
    rewrite (separator_not_slash s1), (separator_not_slash s2),
      (separator_not_slash s3), (separator_not_slash s4),
      (separator_not_slash s5) by tauto.
    rewrite Hpost. reflexivity. }
  assert (Hbase : split_last "/" (path c) = name).
  { rewrite Hpath. unfold split_last. rewrite sapp_cons, sapp_nil_l.
    rewrite (rpartition_last "/" dir name Hname). reflexivity. }
  assert (Hrun : run_exiftool (path c)
                 = Some (exiftool_date y m d H M 0 false 0 0)).
  { unfold run_exiftool. rewrite Hq, Hbase. subst name.
    rewrite search_pattern_ymd_at_start by (assumption || lia).
    reflexivity. }
  unfold caption_of. rewrite Hrun. cbn [truthy_opt or_empty].
  rewrite truthy_exiftool_date by lia. cbn [negb].
  unfold to_local_no_seconds.
  rewrite truthy_exiftool_date by lia. cbn [negb].
  unfold fmts. cbn [first_parse].
  rewrite strptime_exiftool_date by (assumption || lia).
  cbn [tzinfo].
  change (offset_seconds false 0 0 * US_PER_SECOND) with 0.
  set (dt := replace_tzinfo _ _).
  assert (Ht : to_us dt
               = ((ymd2ord y m d * 24 + H) * 60 + M) * 60 * US_PER_SECOND).
  { subst dt. rewrite to_us_replace_tzinfo. unfold to_us.
    cbn [year month day hour minute second microsecond]. lia. }
  pose proof (ymd2ord_bounds y m d Hm Hd) as Hord.
  pose proof (days_before_year_mono 1999 y ltac:(lia)) as Hlo.
  pose proof (days_before_year_mono y 2100 ltac:(lia)) as Hhi.
  change (days_before_year (1999 + 1)) with 730119 in Hlo.
  change (days_before_year 2100) with 766644 in Hhi.
  destruct (astimezone_spec dt 0 (local_utcoffset * US_PER_SECOND))
    as [Hin _].
  destruct Hin as (l & Hl & Hlus & Hv).
  { rewrite Ht, Z.sub_0_r. unfold in_range, MAXORDINAL.
    unfold US_PER_DAY, US_PER_SECOND in *.
    repeat (apply andb_true_intro; split);
      first [apply Z.leb_le | apply Z.ltb_lt]; lia. }
  exists l. rewrite Hl. cbn [rbind truthy_opt or_empty].
  assert (Hstr : truthy (strftime_ymd_hm l) = true).
  { unfold strftime_ymd_hm. rewrite sapp_cons. apply truthy_app_cons. }
  rewrite Hstr. split; [reflexivity|]. split; [|exact Hv].
  rewrite Hlus, Ht. lia.
Qed.

(** [binary_round] on an integer of 54 bits or more: the leading 53 bits,
    rounded up by at most one unit, at the exponent that keeps them. *)
Lemma binary_round_large (sx : bool) (p : positive) :
  54 <= Zdigits2 (Zpos p) ->
  let ec := Zdigits2 (Zpos p) - 53 in
  let q := Zpos p / 2 ^ ec in
  exists m1 : Z,
    (m1 = q \/ m1 = q + 1) /\ 2 ^ 52 <= m1 <= 2 ^ 53 /\
    binary_round prec emax sx p 0
    = if m1 =? 2 ^ 53 then
        if ec + 1 <=? 971 then S754_finite sx (Z.to_pos (2 ^ 52)) (ec + 1)
        else S754_infinity sx
      else if ec <=? 971 then S754_finite sx (Z.to_pos m1) ec
      else S754_infinity sx.
Proof.
  pure. intros Hd ec0 q0. unfold binary_round.
  set (ec := fexp prec emax (Z.pos (digits2_pos p) + 0)).
  assert (Hec : ec = ec0).
  { subst ec ec0. change (Z.pos (digits2_pos p)) with (Zdigits2 (Zpos p)).
    rewrite fexp_eq. lia. }
  destruct (shl_align_spec p 0 ec) as [He Hm].
  destruct (shl_align p 0 ec) as [mz ez]. cbn [fst snd] in He, Hm.
  assert (Hec0 : 1 <= ec0) by (subst ec0; lia).
  replace (Z.min 0 ec) with 0 in He, Hm by lia. subst ez.
  rewrite Z.sub_0_r, Z.mul_1_r in Hm.
  destruct (binary_round_aux_spec sx (Zpos mz) 0 loc_Exact ltac:(lia))
    as (m1 & Hm1 & _ & Hr & Hnorm & ->).
  { rewrite Hm, fexp_eq. lia. }
  rewrite Hm, Z.add_0_r, fexp_eq in Hnorm, Hm1 |- *.
  replace (Z.max (Zdigits2 (Z.pos p) - 53) (-1074)) with ec0
    in Hnorm, Hm1 |- * by (subst ec0; lia).
  rewrite Z.sub_0_r in Hm1.
  specialize (Hnorm ltac:(lia)).
  assert (H52 : 0 < 2 ^ 52) by (apply pow2_pos; lia).
  exists m1. split; [exact Hm1|]. split; [lia|].
  destruct (Z.eqb_spec m1 0); [lia|]. reflexivity.
Qed.

(** [float(n)] raises [OverflowError] from [2^1024] on in absolute
    value. *)
Lemma of_int_overflow_abs (n : Z) :
  2 ^ 1024 <= Z.abs n -> of_int n = Raise OverflowError.
Proof.
  pure. intros Hn.
  pose proof (pow2_pos 1024 ltac:(lia)) as Hp.
  assert (Hcore : forall (sx : bool) (p : positive),
             2 ^ 1024 <= Zpos p ->
             exists s, binary_round prec emax sx p 0 = S754_infinity s).
  { intros sx p Hle.
    assert (Hd : 1025 <= Zdigits2 (Zpos p)).
    { pose proof (Zdigits2_le (2 ^ 1024) (Zpos p) ltac:(lia)) as H.
      rewrite Zdigits2_pow2 in H by lia. lia. }
    destruct (binary_round_large sx p ltac:(lia)) as (m1 & _ & _ & ->).
    destruct (m1 =? 2 ^ 53).
    - destruct (Z.leb_spec (Zdigits2 (Z.pos p) - 53 + 1) 971);
        [lia|eexists; reflexivity].
    - destruct (Z.leb_spec (Zdigits2 (Z.pos p) - 53) 971);
        [lia|eexists; reflexivity]. }
  unfold of_int, binary_normalize.
  destruct n as [|p|p]; [lia| |].
  - destruct (Hcore false p ltac:(lia)) as [s ->]. reflexivity.
  - destruct (Hcore true p ltac:(lia)) as [s ->]. reflexivity.
Qed.

(** [float(n)], when it returns, is a finite double within [2^-52] of
    [n], relative to [n]. *)
Lemma of_int_close (n : Z) (x : float) :
  of_int n = Ok x ->
  is_finite x = true /\
  Z.abs (scaled x - n * UNIT) * 2 ^ 52 <= Z.abs n * UNIT.
Proof.
  pure. intros Hx.
  assert (HU : 0 < UNIT) by (apply pow2_pos; lia).
  assert (H52 : 0 < 2 ^ 52) by (apply pow2_pos; lia).
  destruct (Z_le_gt_dec (Z.abs n) (2 ^ 53)) as [Hs|Hl].
  { destruct (of_int_small n Hs) as (y & Hy & Hf & Hv).
    rewrite Hy in Hx. injection Hx as <-.
    split; [exact Hf|]. rewrite Hv, Z.sub_diag. cbn [Z.abs]. lia. }
  assert (Hcore : forall (sx : bool) (p : positive) (y : float),
             2 ^ 53 < Zpos p ->
             match binary_round prec emax sx p 0 with
             | S754_infinity _ => Raise OverflowError
             | f => Ok f
             end = Ok y ->
             is_finite y = true /\
             exists v, scaled y = cond_Zopp sx v /\
                       Z.abs (v - Zpos p * UNIT) * 2 ^ 52 <= Zpos p * UNIT).
  { intros sx p y Hp Hy.
    assert (Hd : 54 <= Zdigits2 (Zpos p)).
    { pose proof (Zdigits2_le (2 ^ 53) (Zpos p) ltac:(lia)) as H.
      rewrite Zdigits2_pow2 in H by lia. lia. }
    pose proof (Zdigits2_bounds (Zpos p) ltac:(lia)) as [Hlo Hhi].
    destruct (binary_round_large sx p Hd) as (m1 & Hm1 & Hr & Hbr).
    rewrite Hbr in Hy. clear Hbr.
    set (ec := Zdigits2 (Z.pos p) - 53) in *.
    assert (Hpe : 0 < 2 ^ ec) by (apply pow2_pos; lia).
    assert (Hq : Z.abs (m1 * 2 ^ ec - Zpos p) <= 2 ^ ec).
    { pose proof (Z.div_mod (Zpos p) (2 ^ ec) ltac:(lia)) as Hdm.
      pose proof (Z.mod_pos_bound (Zpos p) (2 ^ ec) Hpe) as Hmb.
      destruct Hm1 as [-> | ->]; lia. }
    assert (Hpw : 2 ^ ec * 2 ^ 52 <= Zpos p).
    { rewrite <- Z.pow_add_r by lia.
      replace (ec + 52) with (Zdigits2 (Z.pos p) - 1) by (subst ec; lia).
      exact Hlo. }
    assert (Hval : Z.abs (m1 * 2 ^ (ec + 1074) - Zpos p * UNIT) * 2 ^ 52
                   <= Zpos p * UNIT).
    { rewrite Z.pow_add_r by lia. fold UNIT.
      replace (m1 * (2 ^ ec * UNIT) - Z.pos p * UNIT)
        with ((m1 * 2 ^ ec - Zpos p) * UNIT) by ring.
      rewrite Z.abs_mul, (Z.abs_eq UNIT) by lia.
      replace (Z.abs (m1 * 2 ^ ec - Z.pos p) * UNIT * 2 ^ 52)
        with ((Z.abs (m1 * 2 ^ ec - Z.pos p) * 2 ^ 52) * UNIT) by ring.
      apply Z.mul_le_mono_nonneg_r; [lia|]. nia. }
    destruct (Z.eqb_spec m1 (2 ^ 53)) as [E|E].
    - destruct (ec + 1 <=? 971); [|discriminate].
      assert (Ey : S754_finite sx (Z.to_pos (2 ^ 52)) (ec + 1) = y)
        by congruence.
      clear Hy. subst y. split; [reflexivity|].
      exists (m1 * 2 ^ (ec + 1074)). split; [|exact Hval].
      unfold scaled. apply (f_equal (cond_Zopp sx)).
      rewrite E, (Z2Pos.id (2 ^ 52)) by lia.
      rewrite <- !Z.pow_add_r by lia. apply (f_equal (Z.pow 2)). lia.
    - destruct (ec <=? 971); [|discriminate].
      injection Hy as <-. split; [reflexivity|].
      exists (m1 * 2 ^ (ec + 1074)). split; [|exact Hval].
      unfold scaled. rewrite (Z2Pos.id m1) by lia. reflexivity. }
  unfold of_int, binary_normalize in Hx.
  destruct n as [|p|p]; [cbn in Hl; lia| |].
  - destruct (Hcore false p x ltac:(lia) Hx) as (Hf & v & Hv & Hb).
    split; [exact Hf|]. rewrite Hv. cbn [cond_Zopp Z.abs]. exact Hb.
  - destruct (Hcore true p x ltac:(lia) Hx) as (Hf & v & Hv & Hb).
    split; [exact Hf|]. rewrite Hv. cbn [cond_Zopp Z.abs].
    replace (- v - Z.neg p * UNIT) with (- (v - Zpos p * UNIT)) by lia.
    rewrite Z.abs_opp. exact Hb.
Qed.

Lemma isspace_int_not_digit (c : ascii) :
  isspace_int c = true -> isdigit c = false.
Proof.
  pure. unfold isspace_int, isdigit. cbv zeta.
  destruct (N.leb_spec 48 (code c)), (N.leb_spec (code c) 57);
    try reflexivity.
  destruct (N.leb_spec 9 (code c)), (N.leb_spec (code c) 13),
    (N.eqb_spec (code c) 32), (N.eqb_spec (code c) 133),
    (N.eqb_spec (code c) 160); cbn; try discriminate; lia.
Qed.

Lemma count_digits_lstrip_int (s : string) :
  count_digits (lstrip_int s) = count_digits s.
Proof.
  pure. induction s as [|c r IH]; [reflexivity|].
  cbn [lstrip_int]. destruct (isspace_int c) eqn:E; [|reflexivity].
  cbn [count_digits]. rewrite (isspace_int_not_digit c E), IH. reflexivity.
Qed.

Lemma count_digits_rstrip_int (s : string) :
  count_digits (rstrip_int s) = count_digits s.
Proof.
  pure. induction s as [|c r IH]; [reflexivity|].
  cbn [rstrip_int]. cbv zeta.
  destruct (String.eqb_spec (rstrip_int r) "") as [E|E];
    cbn [andb count_digits].
  - destruct (isspace_int c) eqn:Ec; cbn [count_digits].
    + rewrite (isspace_int_not_digit c Ec), <- IH, E. reflexivity.
    + rewrite IH. reflexivity.
  - rewrite IH. reflexivity.
Qed.

(** [int] refuses a text of more than 4300 digits, whatever its sign
    and the space around it. *)
Lemma int_too_many_digits (s : string) :
  MAX_STR_DIGITS < Z.of_nat (count_digits s) -> int s = None.
Proof.
  pure. intros H.
  rewrite <- (count_digits_lstrip_int s),
    <- (count_digits_rstrip_int (lstrip_int s)) in H.
  unfold int. destruct (rstrip_int (lstrip_int s)) as [|c t] eqn:E.
  - cbn in H. unfold MAX_STR_DIGITS in H. lia.
  - assert (Hbody : forall u, MAX_STR_DIGITS < Z.of_nat (count_digits u) ->
                              int_body u = None).
    { intros u Hu. unfold int_body.
      destruct (Z.ltb_spec MAX_STR_DIGITS (Z.of_nat (count_digits u)));
        [reflexivity|lia]. }
    destruct (Ascii.eqb_spec c "+") as [->|Hp].
    { rewrite (Hbody t); [reflexivity|]. exact H. }
    destruct (Ascii.eqb_spec c "-") as [->|Hm].
    { rewrite (Hbody t); [reflexivity|]. exact H. }
    rewrite <- (Hbody (String c t) H).
    destruct c as [[] [] [] [] [] [] [] []]; try reflexivity; congruence.
Qed.

(** C6, as amended. The sequence rate: without a rate element it is
    25.0; with one, the timebase is the integer read from its text, or
    25 when none can be read, as for a text of more than 4300 digits;
    when the lower-cased NTSC text is ["true"] and the timebase is 30,
    60 or 24 the rate is the literal 29.97, 59.94 or 23.976; in every
    other case, whatever the flag, it is [float(timebase)]: exactly the
    timebase up to [2^53] in absolute value, [OverflowError] from
    [2^1024] on, and in between, when it is returned, a finite double
    within [2^-52] of the timebase relative to it. The three literals
    are the doubles nearest to 2997/100, 5994/100 and 23976/1000, and
    25.0 is exactly 25. *)
Theorem get_sequence_rate_cases (root : Element) :
  match find_desc "sequence" ["rate"] root with
  | None => get_sequence_rate root = Ok f25_0
  | Some rate =>
      let flag := String.eqb (lower (or_empty (findtext "ntsc" rate))) "true" in
      match int_opt (findtext "timebase" rate) with
      | None => get_sequence_rate root = Ok f25_0
      | Some tb =>
          if flag && (tb =? 30) then get_sequence_rate root = Ok f29_97
          else if flag && (tb =? 60) then get_sequence_rate root = Ok f59_94
          else if flag && (tb =? 24) then get_sequence_rate root = Ok f23_976
          else get_sequence_rate root = of_int tb
               /\ (Z.abs tb <= 2 ^ 53 ->
                   exists x : float,
                     get_sequence_rate root = Ok x /\ is_finite x = true
                     /\ scaled x = tb * UNIT)
               /\ (2 ^ 1024 <= Z.abs tb ->
                   get_sequence_rate root = Raise OverflowError)
               /\ (forall x : float,
                     get_sequence_rate root = Ok x ->
                     is_finite x = true /\
                     Z.abs (scaled x - tb * UNIT) * 2 ^ 52
                     <= Z.abs tb * UNIT)
      end
  end
  /\ (forall text : string,
        MAX_STR_DIGITS < Z.of_nat (count_digits text) ->
        int_opt (Some text) = None)
  /\ nearest 2997 100 f29_97 = true
  /\ nearest 5994 100 f59_94 = true
  /\ nearest 23976 1000 f23_976 = true
  /\ scaled f25_0 = 25 * UNIT.
Proof.
  pure.
  split; [|split; [exact int_too_many_digits
                  |repeat split; vm_compute; reflexivity]].
  assert (Hfloat : forall tb r,
             r = of_int tb ->
             r = of_int tb
             /\ (Z.abs tb <= 2 ^ 53 ->
                 exists x : float,
                   r = Ok x /\ is_finite x = true /\ scaled x = tb * UNIT)
             /\ (2 ^ 1024 <= Z.abs tb -> r = Raise OverflowError)
             /\ (forall x : float,
                   r = Ok x ->
                   is_finite x = true /\
                   Z.abs (scaled x - tb * UNIT) * 2 ^ 52
                   <= Z.abs tb * UNIT)).
  { intros tb r ->. split; [reflexivity|]. split; [|split].
    - exact (of_int_small tb).
    - exact (of_int_overflow_abs tb).
    - intros x. exact (of_int_close tb x). }
  unfold get_sequence_rate.
  destruct (find_desc "sequence" ["rate"] root) as [rate|]; [|reflexivity].
  cbv zeta.
  destruct (int_opt (findtext "timebase" rate)) as [tb|].
  - destruct (lower (or_empty (findtext "ntsc" rate)) =? "true")%string;
      cbn [andb].
    + destruct (tb =? 30); [reflexivity|].
      destruct (tb =? 60); [reflexivity|].
      destruct (tb =? 24); [reflexivity|].
      apply Hfloat. reflexivity.
    + apply Hfloat. reflexivity.
  - destruct (lower (or_empty (findtext "ntsc" rate)) =? "true")%string;
      reflexivity.
Qed.

End Script.

Lemma main_writes_once_after_all_clips_witness :
  writes (main Sample.exiftool 7200 Sample.same Sample.same
            Sample.xml_fromstring Sample.clock Sample.float_repr
            Sample.format_1f ["prog"; "/d/empty.xml"] Sample.fs).1 = [] /\
  (main Sample.exiftool 7200 Sample.same Sample.same
     Sample.xml_fromstring Sample.clock Sample.float_repr
     Sample.format_1f ["prog"; "/d/seq.xml"] Sample.fs).2 = Ok tt /\
  writes (main Sample.exiftool 7200 Sample.same Sample.same
            Sample.xml_fromstring Sample.clock Sample.float_repr
            Sample.format_1f ["prog"; "/d/seq.xml"] Sample.fs).1
  = [("/d/timestamps_seq.srt",
      "1" +:+ LF +:+ "00:00:00,000 --> 00:00:04,000" +:+ LF
      +:+ "2025-06-01 14:00" +:+ LF +:+ LF
      +:+ "2" +:+ LF +:+ "00:00:04,000 --> 00:00:10,000" +:+ LF
      +:+ "[NO-DATE] b.mov" +:+ LF)].
Proof.
  split.
  - eapply (main_writes_once_after_all_clips Sample.exiftool 7200
              Sample.same Sample.same Sample.xml_fromstring Sample.clock
              Sample.float_repr Sample.format_1f
              ["prog"; "/d/empty.xml"] Sample.fs _ _).
    + vm_compute. reflexivity.
    + reflexivity.
  - pose proof (main_writes_once_after_all_clips Sample.exiftool 7200
                  Sample.same Sample.same Sample.xml_fromstring
                  Sample.clock Sample.float_repr Sample.format_1f
                  ["prog"; "/d/seq.xml"] Sample.fs _ _
                  (surjective_pairing _)) as H.
    destruct H as (_ & _ & _ & _ & _ & H).
    destruct (H "prog" "/d/seq.xml" [] "<two_clips/>" Sample.two_clips f25_0
                [ {| index := 1; start_tc := "00:00:00,000";
                     end_tc := "00:00:04,000";
                     caption := "2025-06-01 14:00" |};
                  {| index := 2; start_tc := "00:00:04,000";
                     end_tc := "00:00:10,000";
                     caption := "[NO-DATE] b.mov" |} ])
      as (Hr & Hw & _).
    + reflexivity.
    + reflexivity.
    + reflexivity.
    + vm_compute. reflexivity.
    + vm_compute. discriminate.
    + vm_compute. reflexivity.
    + split; [exact Hr|]. rewrite Hw. vm_compute. reflexivity.
Defined.

Lemma main_writes_document_witness :
  fs_after (main Sample.exiftool 7200 Sample.same Sample.same
              Sample.xml_fromstring Sample.clock Sample.float_repr
              Sample.format_1f ["prog"; "/d/seq.xml"] Sample.fs).1 Sample.fs
    !! "/d/timestamps_seq.srt"
  = Some
      ("1" +:+ LF +:+ "00:00:00,000 --> 00:00:04,000" +:+ LF
       +:+ "2025-06-01 14:00" +:+ LF +:+ LF
       +:+ "2" +:+ LF +:+ "00:00:04,000 --> 00:00:10,000" +:+ LF
       +:+ "[NO-DATE] b.mov" +:+ LF).
Proof.
  pose proof (main_writes_document Sample.exiftool 7200 Sample.same
                Sample.same Sample.xml_fromstring Sample.clock
                Sample.float_repr Sample.format_1f
                "prog" "/d/seq.xml" [] Sample.fs "<two_clips/>"
                Sample.two_clips f25_0
                [ {| index := 1; start_tc := "00:00:00,000";
                     end_tc := "00:00:04,000";
                     caption := "2025-06-01 14:00" |};
                  {| index := 2; start_tc := "00:00:04,000";
                     end_tc := "00:00:10,000";
                     caption := "[NO-DATE] b.mov" |} ]) as H.
  destruct H as (_ & _ & Hfs & _).
  - reflexivity.
  - reflexivity.
  - reflexivity.
  - vm_compute. discriminate.
  - vm_compute. reflexivity.
  - rewrite Hfs. rewrite lookup_insert_eq. vm_compute. reflexivity.
Defined.

(** C1, as claimed, fails: on the sample timeline the written document
    is not the concatenation of the claimed blocks, which have no space
    around the arrow and end the file with a blank line. *)
Lemma main_document_not_claimed_blocks :
  exists cues : list Cue,
    cues_of Sample.exiftool 7200 f25_0 1
      (gather_v1_clips Sample.same Sample.same Sample.two_clips) = Ok cues /\
    writes (main Sample.exiftool 7200 Sample.same Sample.same
              Sample.xml_fromstring Sample.clock Sample.float_repr
              Sample.format_1f ["prog"; "/d/seq.xml"] Sample.fs).1
      = [("/d/timestamps_seq.srt", document cues)] /\
    document cues <> claimed_document cues.
Proof.
  eexists. split; [vm_compute; reflexivity|].
  split; [vm_compute; reflexivity|].
  vm_compute. discriminate.
Qed.

Lemma caption_of_fallbacks_witness :
  caption_of Sample.exiftool 7200
    {| start_frames := 100; end_frames := 250; path := "/m/b.mov";
       name := "b.mov" |}
  = Ok ("[NO-DATE] " +:+ "b.mov").
Proof.
  apply (proj1 (caption_of_fallbacks Sample.exiftool 7200 Sample.same
                  Sample.same Sample.xml_fromstring Sample.clock
                  Sample.float_repr Sample.format_1f
                  {| start_frames := 100; end_frames := 250;
                     path := "/m/b.mov"; name := "b.mov" |})).
  vm_compute. reflexivity.
Defined.

Lemma query_tags_accepts_witness :
  run_exiftool Sample.exiftool "/m/a.mov" = Some "2025-06-01 12:00:00+0000".
Proof.
  apply (query_tags_accepts Sample.exiftool [] "QuickTime:CreateDate"
           (tl tags) "/m/a.mov").
  - intros t' [].
  - reflexivity.
  - vm_compute. reflexivity.
Defined.

(** C3, as claimed, fails: a zero date written with colons is neither
    empty, nor the all-zero date with dashes, nor does it end in
    [0000:], yet the chain does not return it. *)
Lemma zero_date_with_colons_not_accepted :
  claimed_accepted (answer Sample.exiftool_zero_date "QuickTime:CreateDate"
                      "/m/clip.mov") = true /\
  run_exiftool Sample.exiftool_zero_date "/m/clip.mov" = None.
Proof. split; vm_compute; reflexivity. Qed.

Lemma clip_skipped_iff_flag_strips_to_FALSE_witness :
  clip_of_item Sample.same Sample.same Sample.item_spaced_false = None.
Proof.
  eapply (clip_skipped_iff_flag_strips_to_FALSE Sample.same Sample.same
            Sample.spaced_false _ _ _ Sample.item_spaced_false).
  - vm_compute. reflexivity.
  - vm_compute. reflexivity.
  - vm_compute. left. reflexivity.
  - vm_compute. reflexivity.
Defined.

(** C2, as claimed, fails: a flag that is not the exact string [FALSE]
    but strips to it switches the clip off. *)
Lemma spaced_FALSE_is_skipped :
  findtext "enabled" Sample.item_spaced_false = Some " FALSE" /\
  " FALSE" <> "FALSE" /\
  placement Sample.same Sample.same Sample.item_spaced_false
    = Some {| start_frames := 0; end_frames := 10; path := "/m/a.mov";
              name := "" |} /\
  gather_v1_clips Sample.same Sample.same Sample.spaced_false = [].
Proof. repeat split; try (vm_compute; reflexivity). discriminate. Qed.

(** C4. A clip item named [Clip A] whose file reference has a path and
    no name: the clip survives and its display name is empty, not the
    name of the clip item. *)
Theorem display_name_ignores_clip_name :
  findtext "name" Sample.item_named = Some "Clip A" /\
  gather_v1_clips Sample.same Sample.same Sample.named_item
  = [ {| start_frames := 0; end_frames := 10; path := "/m/a.mov";
         name := "" |} ].
Proof. split; vm_compute; reflexivity. Qed.

Lemma filename_fallback_order_witness :
  run_exiftool Sample.exiftool
    "/m/2025-09-29 22-51-34 ScreenRecording_10-01-2025 07-20-37_1.mp4"
  = Some "2025-09-29 22:51:00+0000" /\
  run_exiftool Sample.exiftool "/m/ScreenRecording_10-01-2025 07-20-37_1.mp4"
  = Some "2025-10-01 07:20:00+0000".
Proof.
  split.
  - destruct (filename_fallback_order Sample.exiftool
      "/m/2025-09-29 22-51-34 ScreenRecording_10-01-2025 07-20-37_1.mp4")
      as (Hymd & _); [vm_compute; reflexivity|].
    destruct (Hymd [(6%nat, "34"); (5%nat, "51"); (4%nat, "22");
                    (3%nat, "29"); (2%nat, "09"); (1%nat, "2025")])
      as (pre & post & y & mo & d & H & Mi & S & s1 & s2 & s3 & s4 & s5
          & _ & _ & _ & _ & _ & _ & _ & _ & _ & _ & _ & _ & Hrun);
      [vm_compute; reflexivity|].
    vm_compute. reflexivity.
  - destruct (filename_fallback_order Sample.exiftool
      "/m/ScreenRecording_10-01-2025 07-20-37_1.mp4")
      as (_ & Hmdy & _); [vm_compute; reflexivity|].
    vm_compute. reflexivity.
Defined.

Lemma to_local_no_seconds_cases_witness :
  to_local_no_seconds 0 "2025-01-15 10:30:45+0000"
  = Ok (Some "2025-01-15 10:30") /\
  (exists l : datetime,
     to_local_no_seconds 7200 "2025-12-31 23:30"
     = Ok (Some (strftime_ymd_hm l)) /\
     to_us l = 63902914200000000) /\
  to_local_no_seconds 0 "2025-06-01T12:00:59" = Ok None.
Proof.
  split; [|split].
  - destruct (to_local_no_seconds_cases 0 "2025-01-15 10:30:45+0000")
      as (_ & _ & _ & _ & Hex).
    exact (Hex eq_refl).
  - destruct (to_local_no_seconds_cases 7200 "2025-12-31 23:30")
      as (_ & _ & _ & Hdt & _).
    destruct (Hdt {| year := 2025; month := 12; day := 31; hour := 23;
                     minute := 30; second := 0; microsecond := 0;
                     tzinfo := None |}) as [Hok _].
    + vm_compute. reflexivity.
    + vm_compute. reflexivity.
    + destruct Hok as (l & Hl & Hus & _); [vm_compute; reflexivity|].
      exists l. split; [exact Hl|exact Hus].
  - destruct (to_local_no_seconds_cases 0 "2025-06-01T12:00:59")
      as (_ & Hnone & _).
    apply Hnone. vm_compute. reflexivity.
Defined.

(** C8. The normalizer does not answer every time stamp of an accepted
    shape. ["9999-12-31 23:59:59-0100"] is of the first shape; where
    the local zone is one hour behind UTC as well, its local date and
    time are those it spells, ["9999-12-31 23:59"], yet the conversion
    passes through UTC, leaves the calendar there and raises
    [OverflowError]; so it does at UTC, and for the first instant of
    the calendar read five hours behind UTC. The call then returns
    neither the normalized string nor none. *)
Theorem to_local_no_seconds_raises_overflow :
  strptime "9999-12-31 23:59:59-0100" "%Y-%m-%d %H:%M:%S%z"
  = Some {| year := 9999; month := 12; day := 31; hour := 23; minute := 59;
            second := 59; microsecond := 0; tzinfo := Some (-3600000000) |} /\
  strftime_ymd_hm
    {| year := 9999; month := 12; day := 31; hour := 23; minute := 59;
       second := 59; microsecond := 0; tzinfo := Some (-3600000000) |}
  = "9999-12-31 23:59" /\
  to_local_no_seconds (-3600) "9999-12-31 23:59:59-0100"
  = Raise OverflowError /\
  to_local_no_seconds 0 "9999-12-31 23:59:59-0100" = Raise OverflowError /\
  to_local_no_seconds (-18000) "0001-01-01 00:00:00+0000"
  = Raise OverflowError /\
  to_local_no_seconds (-3600) "9999-12-31 22:00:00-0100"
  = Ok (Some "9999-12-31 22:00") /\
  to_local_no_seconds (-18000) "0001-01-01 06:00:00+0000"
  = Ok (Some "1-01-01 01:00").
Proof. repeat split; vm_compute; reflexivity. Qed.

(** C9. A failure of the normalizer can stop the run. The resolver
    answers ["0001-01-01 00:00:00+0000"] for the only clip of the
    timeline; read five hours behind UTC the normalizer raises
    [OverflowError], the caption step raises with it, and the run ends
    there: nothing is printed, no cue is kept and no file is written. *)
Theorem main_aborts_on_normalizer_overflow :
  gather_v1_clips Sample.same Sample.same Sample.named_item
  = [ {| start_frames := 0; end_frames := 10; path := "/m/a.mov";
         name := "" |} ] /\
  run_exiftool Sample.exiftool_year_one "/m/a.mov"
  = Some "0001-01-01 00:00:00+0000" /\
  caption_of Sample.exiftool_year_one (-18000)
    {| start_frames := 0; end_frames := 10; path := "/m/a.mov"; name := "" |}
  = Raise OverflowError /\
  main Sample.exiftool_year_one (-18000) Sample.same Sample.same
    (fun _ => Some Sample.named_item) Sample.clock Sample.float_repr
    Sample.format_1f ["prog"; "/d/seq.xml"] Sample.fs
  = ([], Raise OverflowError).
Proof. repeat split; vm_compute; reflexivity. Qed.

(** At the timebase 30 with the flag [TRUE] the rate is 29.97; at the
    timebase 25 it is 25.0; at [10^339] the call raises; a timebase of
    4301 digits is not read. *)
Lemma get_sequence_rate_cases_witness :
  get_sequence_rate Sample.ntsc_30 = Ok f29_97 /\
  (exists x : float,
     get_sequence_rate Sample.two_clips = Ok x /\ is_finite x = true /\
     scaled x = 25 * UNIT) /\
  get_sequence_rate Sample.timebase_10_339 = Raise OverflowError /\
  int_opt (Some (String "1" (zeros 4300))) = None.
Proof.
  split; [exact (proj1 (get_sequence_rate_cases Sample.ntsc_30))|].
  split.
  { pose proof (proj1 (get_sequence_rate_cases Sample.two_clips)) as H.
    cbv beta iota zeta delta
      [find_desc Sample.two_clips Sample.timeline] in H.
    apply (proj1 (proj2 H)). vm_compute. discriminate. }
  split.
  { pose proof (proj1 (get_sequence_rate_cases Sample.timebase_10_339)) as H.
    cbv beta iota zeta delta
      [find_desc Sample.timebase_10_339 Sample.timeline] in H.
    exact (proj1 H). }
  apply (proj1 (proj2 (get_sequence_rate_cases Sample.ntsc_30))).
  vm_compute. reflexivity.
Defined.

(** C6, as claimed, fails: the timebases [2^53 + 1] and [10^339] are
    read as such, but the rate is [2^53] for the first, another
    number, and the call raises [OverflowError] for the second; and a
    timebase of 4301 digits is an integer, yet the rate is 25.0. *)
Lemma get_sequence_rate_changes_timebase :
  int "9007199254740993" = Some 9007199254740993 /\
  (exists x : float,
     get_sequence_rate Sample.timebase_2_53_plus_1 = Ok x /\
     scaled x = 9007199254740992 * UNIT) /\
  int (String "1" (zeros 339)) = Some (10 ^ 339) /\
  get_sequence_rate Sample.timebase_10_339 = Raise OverflowError /\
  count_digits (String "1" (zeros 4300)) = 4301%nat /\
  get_sequence_rate Sample.timebase_4301_digits = Ok f25_0.
Proof.
  split; [vm_compute; reflexivity|].
  split; [eexists; split; vm_compute; reflexivity|].
  repeat split; vm_compute; reflexivity.
Qed.

(** The literals of the script are the quotients the decimal notation
    stands for, rounded once. *)
Lemma rate_literals :
  SFdiv prec emax (S754_finite false 2997 0) (S754_finite false 100 0) = f29_97
  /\ SFdiv prec emax (S754_finite false 5994 0) (S754_finite false 100 0)
     = f59_94
  /\ SFdiv prec emax (S754_finite false 23976 0) (S754_finite false 1000 0)
     = f23_976
  /\ of_int 25 = Ok f25_0.
Proof. repeat split; vm_compute; reflexivity. Qed.

(** C5. At 989 frames and 29.97 frames per second the quotient is
    32.9996..., its fraction times 1000 rounds to 1000, and the
    millisecond field has four digits: the result is not of the shape
    [HH:MM:SS,mmm]. *)
Theorem frames_to_tc_ms_four_digit_milliseconds :
  frames_to_tc_ms 989 f29_97 = Ok "00:00:32,1000"
  /\ is_timecode "00:00:32,1000" = false
  /\ is_timecode "00:00:33,000" = true.
Proof. repeat split; vm_compute; reflexivity. Qed.

(** The three conversions the documentation gives. *)
Lemma frames_to_tc_ms_examples :
  frames_to_tc_ms 0 f25_0 = Ok "00:00:00,000"
  /\ frames_to_tc_ms 25 f25_0 = Ok "00:00:01,000"
  /\ (fps <~ of_int 30 ;; frames_to_tc_ms 15 fps) = Ok "00:00:00,500".
Proof. repeat split; vm_compute; reflexivity. Qed.

(** The general statement at 90 frames and 29.97 frames per second:
    three whole seconds and 3 milliseconds. *)
Lemma frames_to_tc_ms_spec_witness :
  frames_to_tc_ms 90 f29_97 = Ok "00:00:03,003"
  /\ is_timecode "00:00:03,003" = true.
Proof.
  destruct (frames_to_tc_ms_spec 90 (S754_finite false 6333186975989760 (-46))
              8435805052018360 (-48))
    as (s & ms & w & Hs & _ & _ & Hw & Hms & _ & Hr & Hshape);
    [lia|reflexivity|reflexivity|reflexivity|].
  vm_compute in Hs. injection Hs as <-.
  vm_compute in Hw. injection Hw as <-.
  vm_compute in Hms. injection Hms as <-.
  split; [exact Hr|]. apply Hshape. lia.
Defined.

(** Two clips with the later one first in the document: the sort swaps
    them and loses neither. *)
Lemma gather_v1_clips_stable_witness :
  Permutation
    (gather_v1_clips Sample.same Sample.same Sample.two_clips)
    [ {| start_frames := 100; end_frames := 250; path := "/m/b.mov";
         name := "b.mov" |};
      {| start_frames := 0; end_frames := 100; path := "/m/a.mov";
         name := "a.mov" |} ].
Proof.
  exact (proj1 (gather_v1_clips_stable Sample.same Sample.same
                  Sample.two_clips _ _ _ eq_refl eq_refl)).
Defined.

(** The resolver on the sample file: the answer of the first field. *)
Lemma run_exiftool_never_degenerate_witness :
  "2025-06-01 12:00:00+0000" <> ""
  /\ endswith ":" "2025-06-01 12:00:00+0000" = false
  /\ startswith "0000" "2025-06-01 12:00:00+0000" = false.
Proof.
  exact (run_exiftool_never_degenerate Sample.exiftool "/m/a.mov"
           "2025-06-01 12:00:00+0000" eq_refl).
Defined.

(** A clip without a date: the caption is the marker and the name. *)
Lemma caption_of_never_empty_witness :
  "[NO-DATE] b.mov" <> "".
Proof.
  exact (caption_of_never_empty Sample.exiftool 0
           {| start_frames := 100; end_frames := 250; path := "/m/b.mov";
              name := "b.mov" |} "[NO-DATE] b.mov" eq_refl).
Defined.

(** The sample run: the clock stands still, so the run prints its last
    line only. *)
Lemma main_diagnostics_witness :
  main Sample.exiftool 7200 Sample.same Sample.same
    Sample.xml_fromstring Sample.clock Sample.float_repr
    Sample.format_1f ["prog"; "/d/seq.xml"] Sample.fs
  = ([Write "/d/timestamps_seq.srt"
        ("1" +:+ LF +:+ "00:00:00,000 --> 00:00:04,000" +:+ LF
         +:+ "2025-06-01 14:00" +:+ LF +:+ LF
         +:+ "2" +:+ LF +:+ "00:00:04,000 --> 00:00:10,000" +:+ LF
         +:+ "[NO-DATE] b.mov" +:+ LF);
      Stderr "Wrote /d/timestamps_seq.srt with 2 cues at 25.0 fps"],
     Ok tt).
Proof.
  destruct (main_diagnostics Sample.exiftool 7200 Sample.same
              Sample.same Sample.xml_fromstring Sample.clock
              Sample.float_repr Sample.format_1f
              "prog" "/d/seq.xml" [] Sample.fs "<two_clips/>"
              Sample.two_clips f25_0
              [ {| index := 1; start_tc := "00:00:00,000";
                   end_tc := "00:00:04,000";
                   caption := "2025-06-01 14:00" |};
                {| index := 2; start_tc := "00:00:04,000";
                   end_tc := "00:00:10,000";
                   caption := "[NO-DATE] b.mov" |} ])
    as (js & Hm & _ & _ & Hq).
  - reflexivity.
  - reflexivity.
  - reflexivity.
  - vm_compute. discriminate.
  - vm_compute. reflexivity.
  - rewrite Hm, (Hq (fun _ => eq_refl)). vm_compute. reflexivity.
Defined.

(** A timeline at the timebase 0 with one clip. *)
Lemma main_zero_timebase_witness :
  main Sample.exiftool 7200 Sample.same Sample.same
    (fun _ => Some Sample.zero_rate) Sample.clock Sample.float_repr
    Sample.format_1f ["prog"; "/d/seq.xml"] Sample.fs
  = ([], Raise ZeroDivisionError).
Proof.
  eapply (main_zero_timebase Sample.exiftool 7200 Sample.same Sample.same
            (fun _ => Some Sample.zero_rate) Sample.clock
            Sample.float_repr Sample.format_1f
            "prog" "/d/seq.xml" [] Sample.fs "<two_clips/>"
            Sample.zero_rate).
  - reflexivity.
  - reflexivity.
  - reflexivity.
  - reflexivity.
  - vm_compute. reflexivity.
  - vm_compute. discriminate.
Defined.

(** A date at UTC read on a clock two hours ahead. *)
Lemma to_local_no_seconds_exiftool_date_witness :
  exists l : datetime,
    to_local_no_seconds 7200 "2025-06-01 12:00:00+0000"
    = Ok (Some (strftime_ymd_hm l)) /\
    to_us l = 63884469600000000 /\ valid_datetime l = true.
Proof.
  destruct (proj1 (to_local_no_seconds_exiftool_date 7200
                     2025 6 1 12 0 0 false 0 0
                     ltac:(lia) ltac:(lia)
                     ltac:(vm_compute; split; discriminate)
                     ltac:(lia) ltac:(lia) ltac:(lia) ltac:(lia) ltac:(lia))
              ltac:(vm_compute; reflexivity))
    as (l & Hl & Hus & Hv & _).
  exists l. split; [exact Hl|]. split; [exact Hus|exact Hv].
Defined.

(** A date two hours ahead of UTC read on a clock two hours ahead. *)
Lemma to_local_no_seconds_own_zone_witness :
  to_local_no_seconds 7200 "2025-06-01 14:03:59+0200"
  = Ok (Some "2025-06-01 14:03").
Proof.
  refine (proj2 (to_local_no_seconds_own_zone 7200
                   2025 6 1 14 3 59 false 2 0
                   ltac:(lia) ltac:(lia)
                   ltac:(vm_compute; split; discriminate)
                   ltac:(lia) ltac:(lia) ltac:(lia) ltac:(lia) ltac:(lia)
                   eq_refl) _).
  lia.
Defined.

(** Ninety seconds at 25 frames per second. *)
Lemma frames_to_tc_ms_whole_seconds_witness :
  frames_to_tc_ms 2250 f25_0 = Ok "00:01:30,000".
Proof.
  exact (proj1 (frames_to_tc_ms_whole_seconds 90 25 f25_0
                  ltac:(lia) ltac:(lia) ltac:(lia) eq_refl)).
Defined.

(** The sample timeline at 25 frames per second. *)
Lemma frames_to_tc_ms_returns_witness :
  exists fps : float,
    get_sequence_rate Sample.two_clips = Ok fps /\
    forall frames : Z,
      0 <= frames < 2 ^ 53 ->
      exists tc : string, frames_to_tc_ms frames fps = Ok tc.
Proof.
  apply (frames_to_tc_ms_returns Sample.two_clips).
  intros rate tb Hr Ht. vm_compute in Hr. injection Hr as <-.
  vm_compute in Ht. injection Ht as <-. lia.
Defined.

Lemma frames_to_tc_ms_overflow_witness :
  frames_to_tc_ms (2 ^ 1024) (S754_zero false) = Raise OverflowError.
Proof. apply frames_to_tc_ms_overflow. lia. Defined.

(** Ninety frames at 29.97 frames per second: three seconds and three
    milliseconds. *)
Lemma frames_to_tc_ms_shape_witness :
  frames_to_tc_ms 90 f29_97 = Ok "00:00:03,003"
  /\ is_timecode "00:00:03,003" = true.
Proof.
  destruct (frames_to_tc_ms_shape 90
              (S754_finite false 6333186975989760 (-46))
              8435805052018360 (-48))
    as (s & ms & w & tc & Hr & Hs & _ & Hw & Hms & _ & Htc & Hiff);
    [lia|reflexivity|reflexivity|reflexivity|].
  vm_compute in Hs. injection Hs as <-.
  vm_compute in Hw. injection Hw as <-.
  vm_compute in Hms. injection Hms as <-.
  vm_compute in Htc. subst tc.
  split; [exact Hr|]. apply Hiff. lia.
Defined.

(** A date without an offset read on a machine at UTC. *)
Lemma to_local_no_seconds_naive_date_witness :
  to_local_no_seconds 0 "2025-06-01 12:34:56" = Ok (Some "2025-06-01 12:34").
Proof.
  refine (proj2 (proj2 (proj2 (to_local_no_seconds_naive_date 0
                                 2025 6 1 12 34 56
                                 ltac:(lia) ltac:(lia)
                                 ltac:(vm_compute; split; discriminate)
                                 ltac:(lia) ltac:(lia) ltac:(lia))))
            eq_refl _).
  lia.
Defined.

(** The second example of the script's comment, on a clock two hours
    ahead of UTC. *)
Lemma caption_of_dated_file_name_witness :
  exists l : datetime,
    caption_of (fun _ _ => None) 7200
      {| start_frames := 0; end_frames := 10;
         path := "/m/2025-09-29 22-51-34.mov"; name := "" |}
    = Ok (strftime_ymd_hm l) /\
    to_us l = ((ymd2ord 2025 9 29 * 24 + 22) * 60 + 51) * 60 * US_PER_SECOND
              + 7200 * US_PER_SECOND /\
    valid_datetime l = true.
Proof.
  apply (caption_of_dated_file_name (fun _ _ => None) 7200
           {| start_frames := 0; end_frames := 10;
              path := "/m/2025-09-29 22-51-34.mov"; name := "" |}
           "/m" ".mov" 2025 9 29 22 51 34 "-" "-" " " "-" "-");
    try reflexivity; try lia.
  vm_compute. split; discriminate.
Defined.
